(** * person-search: the OAuth 2.1 proxy, the session cookie and the MCP
      request authenticator, embedded in Rocq.

    The development follows the TypeScript sources file by file:
    - [JS]            the part of the JavaScript platform the code relies on
                      (strings as sequences of UTF-16 code units, truthiness,
                      [String.prototype] helpers, exceptions);
    - [Base64]        [btoa] / [atob];
    - [Json]          [JSON.stringify] / [JSON.parse] and property access;
    - [UrlResolver]   src/lib/url-resolver.ts;
    - [OAuthUtils]    lib/oauth-utils.ts;
    - [Session]       the cookie issued by the Google callback and the
                      session-status endpoint;
    - [Authorize], [Token], [Logout]   the route handlers under api/auth;
    - [McpActions], [McpRoute]         the tool dispatcher and api/mcp;
    - [Middleware]    middleware.ts, the guard of the pages;
    - [People]        api/people, the paginated search;
    - [Callback], [LoginForm]          the Google callback and the state the
                      login form sends through Google;
    - [OAuthUrls], [WellKnown]         the discovery documents. *)

From Stdlib Require Import ZArith NArith List String Ascii Bool Lia.
From Stdlib Require Import DecimalFacts DecimalPos DecimalN.
Import ListNotations.

Set Implicit Arguments.

(* ------------------------------------------------------------------ *)
(** * The JavaScript platform                                          *)
(* ------------------------------------------------------------------ *)

Module JS.

(** A JavaScript string is a sequence of UTF-16 code units. *)
Definition jsstring := list N.

(** Source literals are ASCII; [js "..."] is the literal as code units. *)
Definition js (s : string) : jsstring :=
  map N_of_ascii (list_ascii_of_string s).
Arguments js s%_string.

(** [===] on strings. *)
Fixpoint jseq (a b : jsstring) : bool :=
  match a, b with
  | [], [] => true
  | x :: a', y :: b' => N.eqb x y && jseq a' b'
  | _, _ => false
  end.

(** [s !== ""]. *)
Definition nonEmpty (s : jsstring) : bool :=
  match s with [] => false | _ :: _ => true end.

(** Truthiness of [string | null | undefined]: defined and not [""]. *)
Definition truthy (o : option jsstring) : bool :=
  match o with Some s => nonEmpty s | None => false end.

(** [a || b] on optional strings. *)
Definition orElse (o : option jsstring) (d : jsstring) : jsstring :=
  match o with
  | Some s => if nonEmpty s then s else d
  | None => d
  end.

(** [o === lit] where [o] may be undefined. *)
Definition optEq (o : option jsstring) (lit : jsstring) : bool :=
  match o with Some s => jseq s lit | None => false end.

(** [s.startsWith(p)]. *)
Fixpoint startsWith (p s : jsstring) : bool :=
  match p, s with
  | [], _ => true
  | x :: p', y :: s' => N.eqb x y && startsWith p' s'
  | _ :: _, [] => false
  end.

(** [s.slice(n)] for [n >= 0]. *)
Definition slice (n : nat) (s : jsstring) : jsstring := skipn n s.

(** [s.includes(p)]. *)
Fixpoint includes (p s : jsstring) : bool :=
  startsWith p s ||
  match s with
  | [] => false
  | _ :: s' => includes p s'
  end.

(** [s.replace(p, r)] with a string pattern: only the first occurrence. *)
Fixpoint replaceFirst (p r s : jsstring) : jsstring :=
  if startsWith p s then r ++ skipn (List.length p) s
  else match s with
       | [] => []
       | c :: s' => c :: replaceFirst p r s'
       end.

(** [s.replace(/\/$/, "")]: drops one trailing slash, if there is one. *)
Fixpoint stripTrailingSlash (s : jsstring) : jsstring :=
  match s with
  | [] => []
  | c :: s' =>
      match s' with
      | [] => if N.eqb c 47 then [] else [c]
      | _ :: _ => c :: stripTrailingSlash s'
      end
  end.

(** [s.split(sep)] for a one-unit separator. *)
Fixpoint split (sep : N) (s : jsstring) : list jsstring :=
  match s with
  | [] => [[]]
  | c :: s' =>
      if N.eqb c sep then [] :: split sep s'
      else match split sep s' with
           | [] => [[c]]
           | w :: ws => (c :: w) :: ws
           end
  end.

Definition isAscii (s : jsstring) : bool := forallb (fun c => N.ltb c 128) s.

Definition lowerAsciiUnit (c : N) : N :=
  if N.leb 65 c && N.leb c 90 then c + 32 else c.

(** [s.toLowerCase()].  On ASCII strings it maps A-Z to a-z.  The Unicode
    case mapping of other strings is left to [unicodeLower]. *)
Definition toLowerCase (unicodeLower : jsstring -> jsstring) (s : jsstring)
  : jsstring :=
  if isAscii s then map lowerAsciiUnit s else unicodeLower s.

(** What a [throw] carries.  The handlers tell apart instances of [Error]
    (whose [message] they read), zod's [ZodError] (a subclass of [Error] whose
    message renders its list of issues) and any other thrown value. *)
Inductive exn :=
| Error (name message : jsstring)
| ZodError (issues : list jsstring)
| Thrown (value : jsstring).

(** A computation either returns or throws. *)
Inductive result (A : Type) : Type :=
| Ok (a : A)
| Throw (e : exn).
Arguments Ok {A} a.
Arguments Throw {A} e.

Definition bind {A B} (m : result A) (k : A -> result B) : result B :=
  match m with Ok a => k a | Throw e => Throw e end.

(** [try { m } catch (e) { h e }]. *)
Definition tryCatch {A} (m : result A) (h : exn -> result A) : result A :=
  match m with Ok a => Ok a | Throw e => h e end.

(** [error instanceof Error ? error.message : String(error)]. *)
Definition messageOrString (e : exn) : jsstring :=
  match e with
  | Error _ m => m
  | ZodError issues => List.concat issues
  | Thrown v => v
  end.

End JS.

Export JS.

Notation "x <- m ;; k" := (JS.bind m (fun x => k))
  (at level 61, m at next level, right associativity).

(* ------------------------------------------------------------------ *)
(** * src/lib/url-resolver.ts                                          *)
(* ------------------------------------------------------------------ *)

Module UrlResolver.

(** [process.env], restricted to the variables the code reads. *)
Record Env := mkEnv {
  PRODUCTION_URL : option jsstring;
  NEXTAUTH_URL : option jsstring;
  VERCEL_URL : option jsstring;
  VERCEL_ENV : option jsstring;
  VERCEL_PROJECT_PRODUCTION_URL : option jsstring;
  NODE_ENV : option jsstring;
  PORT : option jsstring;
  HOST : option jsstring;
  GOOGLE_CLIENT_ID : option jsstring;
  GOOGLE_CLIENT_SECRET : option jsstring
}.

Definition DEFAULT_LOCAL_PORT := js "3000".
Definition DEFAULT_LOCAL_HOST := js "localhost".

Definition getBaseUrl (env : Env) : jsstring :=
  if truthy (PRODUCTION_URL env) then
    stripTrailingSlash (orElse (PRODUCTION_URL env) [])
  else if truthy (NEXTAUTH_URL env) then
    stripTrailingSlash (orElse (NEXTAUTH_URL env) [])
  else if truthy (VERCEL_URL env) then
    if optEq (VERCEL_ENV env) (js "production")
       && truthy (VERCEL_PROJECT_PRODUCTION_URL env)
    then js "https://" ++ orElse (VERCEL_PROJECT_PRODUCTION_URL env) []
    else js "https://" ++ orElse (VERCEL_URL env) []
  else if optEq (NODE_ENV env) (js "development") then
    js "http://" ++ orElse (HOST env) DEFAULT_LOCAL_HOST
      ++ js ":" ++ orElse (PORT env) DEFAULT_LOCAL_PORT
  else
    js "http://" ++ DEFAULT_LOCAL_HOST ++ js ":" ++ DEFAULT_LOCAL_PORT.

Definition callbackPath := js "/api/auth/callback/google".

(** [getRedirectUris().google]. *)
Definition getRedirectUris_google (env : Env) : jsstring :=
  getBaseUrl env ++ callbackPath.

(** The array [allowedRedirects] after the three conditional pushes. *)
Definition allowedRedirects (env : Env) : list jsstring :=
  [ getRedirectUris_google env;
    js "http://localhost:3000/api/auth/callback/google";
    js "http://127.0.0.1:3000/api/auth/callback/google";
    js "https://person-search-pearl.vercel.app/api/auth/callback/google" ]
  ++ (if truthy (NEXTAUTH_URL env)
      then [stripTrailingSlash (orElse (NEXTAUTH_URL env) [] ++ callbackPath)]
      else [])
  ++ (if truthy (PRODUCTION_URL env)
      then [stripTrailingSlash (orElse (PRODUCTION_URL env) [] ++ callbackPath)]
      else [])
  ++ (if truthy (VERCEL_URL env)
      then [js "https://" ++ orElse (VERCEL_URL env) [] ++ callbackPath]
      else []).

(** The normalisation written inline in [isAllowedRedirectUri]:
    [.replace("127.0.0.1", "localhost").replace(/\/$/, "")]. *)
Definition normalizeInline (uri : jsstring) : jsstring :=
  stripTrailingSlash (replaceFirst (js "127.0.0.1") (js "localhost") uri).

(** [arr.includes(x)] on an array of strings. *)
Definition arrayIncludes (arr : list jsstring) (x : jsstring) : bool :=
  existsb (fun a => jseq a x) arr.

Definition isAllowedRedirectUri (env : Env) (uri : jsstring) : bool :=
  let normalizedUri := normalizeInline uri in
  let normalizedAllowed := map normalizeInline (allowedRedirects env) in
  arrayIncludes normalizedAllowed normalizedUri.

(** [getGoogleAuthUrl]: the parameters put on Google's authorization URL, in
    the order [URLSearchParams] lists them. *)
Definition getGoogleAuthUrl (env : Env) (clientId : jsstring)
  (scope state codeChallenge codeChallengeMethod : option jsstring)
  : list (jsstring * jsstring) :=
  [ (js "client_id", clientId);
    (js "redirect_uri", getRedirectUris_google env);
    (js "response_type", js "code");
    (js "scope",
     match scope with Some s => s | None => js "openid profile email" end);
    (js "access_type", js "offline");
    (js "prompt", js "consent") ]
  ++ (if truthy state then [(js "state", orElse state [])] else [])
  ++ (if truthy codeChallenge && truthy codeChallengeMethod
      then [ (js "code_challenge", orElse codeChallenge []);
             (js "code_challenge_method", orElse codeChallengeMethod []) ]
      else []).

End UrlResolver.

(* ------------------------------------------------------------------ *)
(** * lib/oauth-utils.ts and lib/auth-types.ts                         *)
(* ------------------------------------------------------------------ *)

Module OAuthUtils.

Local Open Scope Z_scope.

(** [OAuth21AuthParams]. *)
Record OAuth21AuthParams := mkAuthParams {
  response_type : option jsstring;
  auth_client_id : option jsstring;
  auth_redirect_uri : option jsstring;
  auth_scope : option jsstring;
  state : option jsstring;
  code_challenge : option jsstring;
  code_challenge_method : option jsstring
}.

(** [TokenExchangeParams].  A JSON body is cast to this type unchecked, so
    every field, [grant_type] included, may be missing at run time. *)
Record TokenExchangeParams := mkTokenParams {
  grant_type : option jsstring;
  code : option jsstring;
  redirect_uri : option jsstring;
  client_id : option jsstring;
  client_secret : option jsstring;
  code_verifier : option jsstring
}.

(** [GoogleTokens]. *)
Record GoogleTokens := mkGoogleTokens {
  g_access_token : option jsstring;
  g_id_token : option jsstring;
  g_refresh_token : option jsstring;
  g_expires_in : option Z;
  g_token_type : option jsstring;
  g_scope : option jsstring
}.

(** [TokenResponse]. *)
Record TokenResponse := mkTokenResponse {
  access_token : jsstring;
  token_type : jsstring;
  expires_in : option Z;
  refresh_token : option jsstring;
  scope : option jsstring;
  id_token : option jsstring
}.

(** The result record of the two parameter validators. *)
Record Validation := mkValidation {
  isValid : bool;
  error : option jsstring;
  errorDescription : option jsstring
}.

Definition valid : Validation := mkValidation true None None.
Definition invalid (e d : jsstring) : Validation :=
  mkValidation false (Some e) (Some d).

(** The responses the OAuth handlers build. *)
Inductive Response :=
| JsonError (err description : jsstring) (status : Z)
    (* createOAuth21ErrorResponse *)
| ErrorRedirect (target err description : jsstring) (st : option jsstring)
    (* NextResponse.redirect(redirectUrl) in createOAuth21ErrorRedirect *)
| RedirectToGoogle (params : list (jsstring * jsstring))
    (* NextResponse.redirect(googleAuthUrl): the query parameters of
       https://accounts.google.com/o/oauth2/v2/auth *)
| RedirectToAuthorize (params : list (jsstring * jsstring))
    (* NextResponse.redirect(authUrl): the authorization endpoint itself *)
| TokenJson (t : TokenResponse).
    (* NextResponse.json(tokenResponse, { status: 200, ... }) *)

Definition createOAuth21ErrorResponse (err description : jsstring)
  (status : option Z) : Response :=
  JsonError err description (match status with Some s => s | None => 400 end).

Section WithUrl.

(** [new URL(s)] throws on a string that is not an absolute URL. *)
Variable isAbsoluteUrl : jsstring -> bool.

Definition createOAuth21ErrorRedirect (redirectUri : option jsstring)
  (err description : jsstring) (st : option jsstring) : Response :=
  if negb (truthy redirectUri) then
    createOAuth21ErrorResponse err description (Some 400)
  else
    let target := orElse redirectUri [] in
    if isAbsoluteUrl target then
      ErrorRedirect target err description
        (if truthy st then st else None)
    else
      createOAuth21ErrorResponse (js "invalid_request")
        (js "Invalid redirect_uri") (Some 400).

End WithUrl.

Section WithUnicode.

Variable unicodeLower : jsstring -> jsstring.

Definition normalizeRedirectUri (uri : jsstring) : jsstring :=
  toLowerCase unicodeLower
    (stripTrailingSlash (replaceFirst (js "127.0.0.1") (js "localhost") uri)).

End WithUnicode.

Definition validateAuthParams (params : OAuth21AuthParams) : Validation :=
  if negb (optEq (response_type params) (js "code")) then
    invalid (js "unsupported_response_type")
            (js "Only 'code' response type is supported")
  else if negb (truthy (auth_client_id params)) then
    invalid (js "invalid_request") (js "Missing client_id")
  else if negb (truthy (auth_redirect_uri params)) then
    invalid (js "invalid_request") (js "Missing redirect_uri")
  else if truthy (code_challenge params)
          && negb (optEq (code_challenge_method params) (js "S256")) then
    invalid (js "invalid_request")
            (js "Only S256 code challenge method is supported")
  else valid.

Definition validateTokenParams (params : TokenExchangeParams) : Validation :=
  if negb (optEq (grant_type params) (js "authorization_code")) then
    invalid (js "unsupported_grant_type")
            (js "Only authorization_code grant type is supported")
  else if negb (truthy (code params)) then
    invalid (js "invalid_request") (js "Missing authorization code")
  else if negb (truthy (redirect_uri params)) then
    invalid (js "invalid_request") (js "Missing redirect_uri")
  else valid.

(** [n || d] on an optional number: [undefined] and [0] are falsy. *)
Definition numOrElse (o : option Z) (d : Z) : Z :=
  match o with
  | Some n => if Z.eqb n 0 then d else n
  | None => d
  end.

Definition buildTokenResponse (googleTokens : GoogleTokens)
  (scope_ : option jsstring) (fallbackScope : option jsstring)
  : TokenResponse :=
  let fallback :=
    match fallbackScope with
    | Some f => f
    | None => js "openid profile email"
    end in
  {| access_token :=
       if truthy (g_id_token googleTokens)
       then orElse (g_id_token googleTokens) []
       else orElse (g_access_token googleTokens) [];
     token_type := js "Bearer";
     expires_in := Some (numOrElse (g_expires_in googleTokens) 3600);
     scope := Some (orElse scope_ fallback);
     refresh_token :=
       if truthy (g_refresh_token googleTokens)
       then g_refresh_token googleTokens else None;
     id_token :=
       if truthy (g_id_token googleTokens)
       then g_id_token googleTokens else None |}.

(** What [fetch] gives back for the POST to Google's token endpoint. *)
Record FetchResponse := mkFetchResponse {
  ok : bool;
  text : result jsstring;
  json : result GoogleTokens
}.

(** The object [exchangeCodeForGoogleTokens] resolves to. *)
Record ExchangeResult := mkExchangeResult {
  success : bool;
  tokens : option GoogleTokens;
  exchangeError : option jsstring
}.

(** The form posted to https://oauth2.googleapis.com/token. *)
Record TokenForm := mkTokenForm {
  form_client_id : jsstring;
  form_client_secret : jsstring;
  form_code : jsstring;
  form_grant_type : jsstring;
  form_redirect_uri : jsstring
}.

Section WithFetch.

Variable fetchToken : TokenForm -> result FetchResponse.

Definition exchangeFailure (msg : jsstring) : ExchangeResult :=
  mkExchangeResult false None (Some msg).

(** Returns the result and the list of requests sent upstream. *)
Definition exchangeCodeForGoogleTokens (env : UrlResolver.Env)
  (code_ redirectUri : jsstring) (clientId clientSecret : option jsstring)
  : ExchangeResult * list TokenForm :=
  let effectiveClientId :=
    if truthy clientId then clientId else UrlResolver.GOOGLE_CLIENT_ID env in
  let effectiveClientSecret :=
    if truthy clientSecret then clientSecret
    else UrlResolver.GOOGLE_CLIENT_SECRET env in
  if negb (truthy effectiveClientId) || negb (truthy effectiveClientSecret)
  then
    (exchangeFailure
       (js "Missing Google OAuth credentials (GOOGLE_CLIENT_ID or GOOGLE_CLIENT_SECRET)"),
     [])
  else
    let form :=
      {| form_client_id := orElse effectiveClientId [];
         form_client_secret := orElse effectiveClientSecret [];
         form_code := code_;
         form_grant_type := js "authorization_code";
         form_redirect_uri := redirectUri |} in
    let outcome :=
      tryCatch
        (tokenResponse <- fetchToken form ;;
         if negb (ok tokenResponse) then
           errorData <- text tokenResponse ;;
           Ok (exchangeFailure
                 (js "Google token exchange failed: " ++ errorData))
         else
           tokens_ <- json tokenResponse ;;
           Ok (mkExchangeResult true (Some tokens_) None))
        (fun e => Ok (exchangeFailure
                        (js "Token exchange error: " ++ messageOrString e))) in
    match outcome with
    | Ok r => (r, [form])
    | Throw e => (exchangeFailure (messageOrString e), [form])
    end.

End WithFetch.

End OAuthUtils.

(* ------------------------------------------------------------------ *)
(** * [btoa] and [atob]                                                 *)
(* ------------------------------------------------------------------ *)

Module Base64.

Local Open Scope N_scope.

(** The base64 alphabet: the character of a six-bit value. *)
Definition enc6 (n : N) : N :=
  if n <? 26 then 65 + n
  else if n <? 52 then 97 + (n - 26)
  else if n <? 62 then 48 + (n - 52)
  else if n =? 62 then 43
  else 47.

(** The six-bit value of a character, if it is in the alphabet. *)
Definition dec6 (c : N) : option N :=
  if (65 <=? c) && (c <=? 90) then Some (c - 65)
  else if (97 <=? c) && (c <=? 122) then Some (c - 71)
  else if (48 <=? c) && (c <=? 57) then Some (c + 4)
  else if c =? 43 then Some 62
  else if c =? 47 then Some 63
  else None.

(** Three bytes become four six-bit values; a last group of one or two
    bytes becomes two or three. *)
Fixpoint toSextets (s : list N) : list N :=
  match s with
  | [] => []
  | [a] => [a / 4; (a mod 4) * 16]
  | [a; b] => [a / 4; (a mod 4) * 16 + b / 16; (b mod 16) * 4]
  | a :: b :: c :: rest =>
      a / 4 :: (a mod 4) * 16 + b / 16 :: (b mod 16) * 4 + c / 64
        :: c mod 64 :: toSextets rest
  end.

(** The ['='] signs that complete the last group: two after a single byte,
    one after two bytes. *)
Fixpoint padding (s : list N) : list N :=
  match s with
  | [] => []
  | [_] => [61; 61]
  | [_; _] => [61]
  | _ :: _ :: _ :: rest => padding rest
  end.

Definition InvalidCharacterError : exn :=
  Error (js "InvalidCharacterError") (js "Invalid character").

Definition isLatin1 (s : jsstring) : bool := forallb (fun c => c <? 256) s.

(** [btoa(s)]: throws InvalidCharacterError when a code unit exceeds 255. *)
Definition btoa (s : jsstring) : result jsstring :=
  if isLatin1 s then Ok (map enc6 (toSextets s) ++ padding s)
  else Throw InvalidCharacterError.

(** ASCII whitespace: TAB, LF, FF, CR, SPACE. *)
Definition isAsciiWhitespace (c : N) : bool :=
  (c =? 9) || (c =? 10) || (c =? 12) || (c =? 13) || (c =? 32).

(** Removes one or two ['='] at the end of the data. *)
Fixpoint stripPadding (d : list N) : list N :=
  match d with
  | [] => []
  | x :: r =>
      if forallb (fun c => c =? 61) d && (Nat.leb (List.length d) 2)
      then []
      else x :: stripPadding r
  end.

Fixpoint decodeAll (d : list N) : option (list N) :=
  match d with
  | [] => Some []
  | c :: r =>
      match dec6 c, decodeAll r with
      | Some v, Some vs => Some (v :: vs)
      | _, _ => None
      end
  end.

(** Four six-bit values give three bytes; a last group of two or three
    gives one or two bytes, the spare bits being dropped. *)
Fixpoint fromSextets (v : list N) : list N :=
  match v with
  | s1 :: s2 :: s3 :: s4 :: rest =>
      s1 * 4 + s2 / 16 :: (s2 mod 16) * 16 + s3 / 4 :: (s3 mod 4) * 64 + s4
        :: fromSextets rest
  | [s1; s2; s3] => [s1 * 4 + s2 / 16; (s2 mod 16) * 16 + s3 / 4]
  | [s1; s2] => [s1 * 4 + s2 / 16]
  | _ => []
  end.

(** [atob(s)], the forgiving-base64 decode of the HTML standard. *)
Definition atob (s : jsstring) : result jsstring :=
  let d := filter (fun c => negb (isAsciiWhitespace c)) s in
  let d := if Nat.eqb (Nat.modulo (List.length d) 4) 0 then stripPadding d
           else d in
  if Nat.eqb (Nat.modulo (List.length d) 4) 1
  then Throw InvalidCharacterError
  else match decodeAll d with
       | Some v => Ok (fromSextets v)
       | None => Throw InvalidCharacterError
       end.

End Base64.

(* ------------------------------------------------------------------ *)
(** * [JSON.stringify], [JSON.parse] and property access                *)
(* ------------------------------------------------------------------ *)

Module Json.

Local Open Scope N_scope.

Set Warnings "-register-all".

(** A parsed JSON text.  [JNum] is a number written as an integer whose
    magnitude is at most 2^53 - 1, which a double holds exactly; every other
    number is kept as its literal ([JNumLit]) and never computed with. *)
Inductive json :=
| JNull
| JBool (b : bool)
| JNum (z : Z)
| JNumLit (lit : jsstring)
| JStr (s : jsstring)
| JArr (items : list json)
| JObj (members : list (jsstring * json)).

Definition MAX_SAFE_INTEGER : Z := 9007199254740991.

(** ** Printing *)

Definition hexDigit (n : N) : N := if n <? 10 then 48 + n else 87 + n.

(** The escape [\uXXXX], in lower-case hexadecimal. *)
Definition unicodeEscape (c : N) : list N :=
  [92; 117; hexDigit (c / 4096); hexDigit ((c / 256) mod 16);
   hexDigit ((c / 16) mod 16); hexDigit (c mod 16)].

(** One code unit that is not a surrogate. *)
Definition escapeUnit (c : N) : list N :=
  if c =? 34 then [92; 34]
  else if c =? 92 then [92; 92]
  else if c =? 8 then [92; 98]
  else if c =? 12 then [92; 102]
  else if c =? 10 then [92; 110]
  else if c =? 13 then [92; 114]
  else if c =? 9 then [92; 116]
  else if c <? 32 then unicodeEscape c
  else [c].

Definition isHighSurrogate (c : N) : bool := (55296 <=? c) && (c <=? 56319).
Definition isLowSurrogate (c : N) : bool := (56320 <=? c) && (c <=? 57343).

(** QuoteJSONString without the enclosing quotes: a surrogate pair is copied,
    a lone surrogate is escaped. *)
Fixpoint quoteBody (s : jsstring) : list N :=
  match s with
  | [] => []
  | c :: r =>
      if isHighSurrogate c then
        match r with
        | d :: r' =>
            if isLowSurrogate d then c :: d :: quoteBody r'
            else unicodeEscape c ++ quoteBody r
        | [] => unicodeEscape c
        end
      else if isLowSurrogate c then unicodeEscape c ++ quoteBody r
      else escapeUnit c ++ quoteBody r
  end.

Definition quote (s : jsstring) : list N := 34 :: quoteBody s ++ [34].

Fixpoint digitsOfUint (u : Decimal.uint) : list N :=
  match u with
  | Decimal.Nil => []
  | Decimal.D0 u' => 48 :: digitsOfUint u'
  | Decimal.D1 u' => 49 :: digitsOfUint u'
  | Decimal.D2 u' => 50 :: digitsOfUint u'
  | Decimal.D3 u' => 51 :: digitsOfUint u'
  | Decimal.D4 u' => 52 :: digitsOfUint u'
  | Decimal.D5 u' => 53 :: digitsOfUint u'
  | Decimal.D6 u' => 54 :: digitsOfUint u'
  | Decimal.D7 u' => 55 :: digitsOfUint u'
  | Decimal.D8 u' => 56 :: digitsOfUint u'
  | Decimal.D9 u' => 57 :: digitsOfUint u'
  end.

(** The decimal digits of a natural number, without leading zeros. *)
Definition printNat (n : N) : list N := digitsOfUint (N.to_uint n).

Definition printInt (z : Z) : list N :=
  if (z <? 0)%Z then 45 :: printNat (Z.abs_N z) else printNat (Z.abs_N z).

(** [JSON.stringify(v)] without indentation. *)
Fixpoint stringify (v : json) : list N :=
  match v with
  | JNull => js "null"
  | JBool true => js "true"
  | JBool false => js "false"
  | JNum z => printInt z
  | JNumLit lit => lit
  | JStr s => quote s
  | JArr items =>
      let fix elems (l : list json) : list N :=
        match l with
        | [] => []
        | [x] => stringify x
        | x :: l' => stringify x ++ 44 :: elems l'
        end in
      91 :: elems items ++ [93]
  | JObj members =>
      let fix mems (l : list (jsstring * json)) : list N :=
        match l with
        | [] => []
        | [(k, x)] => quote k ++ 58 :: stringify x
        | (k, x) :: l' => quote k ++ 58 :: stringify x ++ 44 :: mems l'
        end in
      123 :: mems members ++ [125]
  end.

(** ** Parsing *)

(** JSON whitespace: TAB, LF, CR, SPACE. *)
Definition isWs (c : N) : bool :=
  (c =? 9) || (c =? 10) || (c =? 13) || (c =? 32).

Fixpoint skipWs (s : list N) : list N :=
  match s with
  | c :: r => if isWs c then skipWs r else s
  | [] => []
  end.

Definition isDigit (c : N) : bool := (48 <=? c) && (c <=? 57).

Definition unhex (c : N) : option N :=
  if isDigit c then Some (c - 48)
  else if (97 <=? c) && (c <=? 102) then Some (c - 87)
  else if (65 <=? c) && (c <=? 70) then Some (c - 55)
  else None.

Definition unhex4 (a b c d : N) : option N :=
  match unhex a, unhex b, unhex c, unhex d with
  | Some x, Some y, Some z, Some w => Some (((x * 16 + y) * 16 + z) * 16 + w)
  | _, _, _, _ => None
  end.

Definition simpleEscape (e : N) : option N :=
  if e =? 34 then Some 34
  else if e =? 92 then Some 92
  else if e =? 47 then Some 47
  else if e =? 98 then Some 8
  else if e =? 102 then Some 12
  else if e =? 110 then Some 10
  else if e =? 114 then Some 13
  else if e =? 116 then Some 9
  else None.

Definition consFst (c : N) (o : option (jsstring * list N))
  : option (jsstring * list N) :=
  match o with Some (str, r) => Some (c :: str, r) | None => None end.

(** The characters of a string, read after its opening quote. *)
Fixpoint parseString (s : list N) : option (jsstring * list N) :=
  match s with
  | [] => None
  | c :: r =>
      if c =? 34 then Some ([], r)
      else if c =? 92 then
        match r with
        | [] => None
        | e :: r' =>
            if e =? 117 then
              match r' with
              | h1 :: h2 :: h3 :: h4 :: r'' =>
                  match unhex4 h1 h2 h3 h4 with
                  | Some v => consFst v (parseString r'')
                  | None => None
                  end
              | _ => None
              end
            else
              match simpleEscape e with
              | Some v => consFst v (parseString r')
              | None => None
              end
        end
      else if c <? 32 then None
      else consFst c (parseString r)
  end.

(** The longest prefix of digits, and what follows it. *)
Fixpoint spanDigits (s : list N) : list N * list N :=
  match s with
  | c :: r =>
      if isDigit c then let (ds, r') := spanDigits r in (c :: ds, r')
      else ([], s)
  | [] => ([], [])
  end.

Fixpoint uintOfDigits (ds : list N) : Decimal.uint :=
  match ds with
  | [] => Decimal.Nil
  | c :: r =>
      let u := uintOfDigits r in
      if c =? 48 then Decimal.D0 u
      else if c =? 49 then Decimal.D1 u
      else if c =? 50 then Decimal.D2 u
      else if c =? 51 then Decimal.D3 u
      else if c =? 52 then Decimal.D4 u
      else if c =? 53 then Decimal.D5 u
      else if c =? 54 then Decimal.D6 u
      else if c =? 55 then Decimal.D7 u
      else if c =? 56 then Decimal.D8 u
      else Decimal.D9 u
  end.

(** The rest of the text when it starts with the unit [u]. *)
Definition expect (u : N) (s : list N) : option (list N) :=
  match s with
  | c :: r => if c =? u then Some r else None
  | [] => None
  end.

(** The optional fraction [.ddd] of a number. *)
Definition spanFraction (s : list N) : option (bool * list N) :=
  match expect 46 s with
  | Some r =>
      match spanDigits r with
      | ([], _) => None
      | (_ :: _, r') => Some (true, r')
      end
  | None => Some (false, s)
  end.

(** The optional exponent [e+dd] of a number. *)
Definition spanExponent (s : list N) : option (bool * list N) :=
  match s with
  | c :: r =>
      if (c =? 101) || (c =? 69) then
        let r1 := match r with
                  | sg :: r0 => if (sg =? 43) || (sg =? 45) then r0 else r
                  | [] => r
                  end in
        match spanDigits r1 with
        | ([], _) => None
        | (_ :: _, r') => Some (true, r')
        end
      else Some (false, s)
  | [] => Some (false, s)
  end.

(** A JSON number: an optional minus sign, an integer part without leading
    zeros, an optional fraction and an optional exponent. *)
Definition parseNumber (s : list N) : option (json * list N) :=
  let (negative, s1) :=
    match expect 45 s with
    | Some r => (true, r)
    | None => (false, s)
    end in
  match spanDigits s1 with
  | ([], _) => None
  | (d :: ds, s2) =>
      if (d =? 48) && nonEmpty ds then None
      else
        match spanFraction s2 with
        | None => None
        | Some (hasFraction, s3) =>
            match spanExponent s3 with
            | None => None
            | Some (hasExponent, s4) =>
                let magnitude := Z.of_N (N.of_uint (uintOfDigits (d :: ds))) in
                let literal := firstn (List.length s - List.length s4) s in
                if negb hasFraction && negb hasExponent
                   && (magnitude <=? MAX_SAFE_INTEGER)%Z
                   && negb (negative && (magnitude =? 0)%Z)
                then Some (JNum (if negative then - magnitude else magnitude)%Z,
                           s4)
                else Some (JNumLit literal, s4)
            end
        end
  end.

(** The value, the array elements after ['['] and the object members after
    ['{'].  The fuel bounds the depth of the calls; twice the length of the
    text, plus one, is never exhausted ([parseValue_fuel] below). *)
Fixpoint parseValue (fuel : nat) (s : list N) {struct fuel}
  : option (json * list N) :=
  match fuel with
  | O => None
  | S f =>
      match skipWs s with
      | [] => None
      | c :: r =>
          if c =? 34 then
            match parseString r with
            | Some (str, r') => Some (JStr str, r')
            | None => None
            end
          else if c =? 123 then
            match expect 125 (skipWs r) with
            | Some r' => Some (JObj [], r')
            | None => parseMembers f r []
            end
          else if c =? 91 then
            match expect 93 (skipWs r) with
            | Some r' => Some (JArr [], r')
            | None => parseElements f r []
            end
          else if startsWith (js "true") (c :: r) then
            Some (JBool true, skipn 4 (c :: r))
          else if startsWith (js "false") (c :: r) then
            Some (JBool false, skipn 5 (c :: r))
          else if startsWith (js "null") (c :: r) then
            Some (JNull, skipn 4 (c :: r))
          else parseNumber (c :: r)
      end
  end
with parseElements (fuel : nat) (s : list N) (acc : list json) {struct fuel}
  : option (json * list N) :=
  match fuel with
  | O => None
  | S f =>
      match parseValue f s with
      | None => None
      | Some (v, r) =>
          match skipWs r with
          | c :: r' =>
              if c =? 44 then parseElements f r' (v :: acc)
              else if c =? 93 then Some (JArr (rev (v :: acc)), r')
              else None
          | [] => None
          end
      end
  end
with parseMembers (fuel : nat) (s : list N) (acc : list (jsstring * json))
  {struct fuel} : option (json * list N) :=
  match fuel with
  | O => None
  | S f =>
      match expect 34 (skipWs s) with
      | None => None
      | Some r =>
          match parseString r with
          | None => None
          | Some (k, r1) =>
              match expect 58 (skipWs r1) with
              | None => None
              | Some r2 =>
                  match parseValue f r2 with
                  | None => None
                  | Some (v, r3) =>
                      match skipWs r3 with
                      | c :: r4 =>
                          if c =? 44 then parseMembers f r4 ((k, v) :: acc)
                          else if c =? 125
                          then Some (JObj (rev ((k, v) :: acc)), r4)
                          else None
                      | [] => None
                      end
                  end
              end
          end
      end
  end.

Definition SyntaxError : exn :=
  Error (js "SyntaxError") (js "Unexpected token in JSON").

Definition TypeError : exn :=
  Error (js "TypeError") (js "Cannot read properties of null").

(** [JSON.parse(text)]: throws SyntaxError unless the text is one value,
    possibly surrounded by whitespace. *)
Definition parse (text : jsstring) : result json :=
  match parseValue (S (2 * List.length text)) text with
  | Some (v, r) =>
      match skipWs r with
      | [] => Ok v
      | _ :: _ => Throw SyntaxError
      end
  | None => Throw SyntaxError
  end.

(** ** Property access *)

(** The value of a property read: [undefined], a JSON value, or a function
    inherited from a prototype. *)
Inductive jsval :=
| JUndefined
| JVal (v : json)
| JFunction.

(** The property names the handlers read from decoded JSON. *)
Inductive Key :=
| Kexp | Ksub | Kemail | Kname | Kquery | Kid | KphoneNumber.

Definition keyName (k : Key) : jsstring :=
  match k with
  | Kexp => js "exp"
  | Ksub => js "sub"
  | Kemail => js "email"
  | Kname => js "name"
  | Kquery => js "query"
  | Kid => js "id"
  | KphoneNumber => js "phoneNumber"
  end.

(** An object built by [JSON.parse] keeps the last value of a repeated
    name. *)
Fixpoint lookupLast (k : jsstring) (ms : list (jsstring * json))
  : option json :=
  match ms with
  | [] => None
  | (k', v) :: r =>
      match lookupLast k r with
      | Some v' => Some v'
      | None => if jseq k' k then Some v else None
      end
  end.

(** [v.k].  Reading a property of [null] throws TypeError.  None of the
    names in [Key] is an inherited property of an object, an array, a number
    or a boolean; a string inherits the method [String.prototype.sub]. *)
Definition getProp (v : json) (k : Key) : result jsval :=
  match v with
  | JNull => Throw TypeError
  | JObj ms =>
      match lookupLast (keyName k) ms with
      | Some x => Ok (JVal x)
      | None => Ok JUndefined
      end
  | JStr _ =>
      match k with
      | Ksub => Ok JFunction
      | _ => Ok JUndefined
      end
  | _ => Ok JUndefined
  end.

(** What [JSON.stringify] keeps of a property value: [undefined] and
    functions are left out. *)
Definition serialised (x : jsval) : option json :=
  match x with
  | JVal v => Some v
  | _ => None
  end.

End Json.

(* ------------------------------------------------------------------ *)
(** * The session cookie: api/auth/callback/google, api/auth/session    *)
(* ------------------------------------------------------------------ *)

Module Session.

Import Base64 Json.
Local Open Scope Z_scope.

(** [60 * 60 * 24]: the lifetime written into [exp] and into [maxAge]. *)
Definition SESSION_LIFETIME : Z := 60 * 60 * 24.

Definition member (k : jsstring) (x : jsval) : list (jsstring * json) :=
  match serialised x with
  | Some v => [(k, v)]
  | None => []
  end.

(** The object literal passed to [JSON.stringify] in the callback handler;
    [now] is [Math.floor(Date.now() / 1000)]. *)
Definition sessionObject (sub email name : jsval) (now : Z) : json :=
  JObj (member (js "sub") sub ++ member (js "email") email
        ++ member (js "name") name
        ++ [ (js "iat", JNum now);
             (js "exp", JNum (now + SESSION_LIFETIME)) ]).

(** [sessionToken], the value stored in the [oauth_session] cookie.  When
    [btoa] throws, the handler's catch-all redirects to the error page and no
    cookie is set. *)
Definition sessionToken (sub email name : jsval) (now : Z) : result jsstring :=
  btoa (stringify (sessionObject sub email name now)).

Section Coercions.

(** Whether a number that is not a safe integer literal is non-zero. *)
Variable numLitTruthy : jsstring -> bool.

(** [v < n] for a value [v] that is converted to a number first: a number
    literal outside [JNum], a string, an array or an object. *)
Variable looseLess : json -> Z -> bool.

(** Truthiness of a property value. *)
Definition jsTruthy (x : jsval) : bool :=
  match x with
  | JUndefined => false
  | JFunction => true
  | JVal JNull => false
  | JVal (JBool b) => b
  | JVal (JNum z) => negb (z =? 0)
  | JVal (JNumLit lit) => numLitTruthy lit
  | JVal (JStr s) => nonEmpty s
  | JVal (JArr _) => true
  | JVal (JObj _) => true
  end.

(** [x < n] where [n] is an integer. *)
Definition jsLess (x : jsval) (n : Z) : bool :=
  match x with
  | JUndefined => false
  | JFunction => false
  | JVal JNull => 0 <? n
  | JVal (JBool b) => (if b then 1 else 0) <? n
  | JVal (JNum z) => z <? n
  | JVal v => looseLess v n
  end.

(** The [user] object of the session-status response, as serialised. *)
Record SessionUser := mkSessionUser {
  u_sub : option json;
  u_email : option json;
  u_name : option json;
  u_exp : option json
}.

(** The response of the session-status endpoint. *)
Record StatusResponse := mkStatusResponse {
  authenticated : bool;
  user : option SessionUser;
  message : jsstring;
  status : Z;
  deletedCookies : list jsstring
}.

(** [GET] of the session-status endpoint; [cookie] is the value of the
    [oauth_session] cookie, if the request has one. *)
Definition GET (cookie : option jsstring) (now : Z) : result StatusResponse :=
  tryCatch
    (match cookie with
     | None =>
         Ok (mkStatusResponse false None (js "No session found") 200 [])
     | Some value =>
         tryCatch
           (decoded <- atob value ;;
            sessionData <- parse decoded ;;
            exp <- getProp sessionData Kexp ;;
            if jsTruthy exp && jsLess exp now then
              Ok (mkStatusResponse false None (js "Session expired") 200 [])
            else
              sub <- getProp sessionData Ksub ;;
              email <- getProp sessionData Kemail ;;
              name <- getProp sessionData Kname ;;
              Ok (mkStatusResponse true
                    (Some (mkSessionUser (serialised sub) (serialised email)
                             (serialised name) (serialised exp)))
                    (js "Session valid") 200 []))
           (fun parseError =>
              Ok (mkStatusResponse false None (js "Invalid session format")
                    200 [js "oauth_session"]))
     end)
    (fun error =>
       Ok (mkStatusResponse false None (js "Session check failed") 500 [])).

End Coercions.

End Session.

(* ------------------------------------------------------------------ *)
(** * api/auth/authorize                                               *)
(* ------------------------------------------------------------------ *)

Module Authorize.

Import OAuthUtils.

(** [searchParams.get(k)] and [formData.get(k)]: the first value. *)
Fixpoint getParam (k : jsstring) (q : list (jsstring * jsstring))
  : option jsstring :=
  match q with
  | [] => None
  | (k', v) :: r => if jseq k' k then Some v else getParam k r
  end.

(** The object [authParams] that [GET] extracts from the query. *)
Definition authParamsOf (query : list (jsstring * jsstring))
  : OAuth21AuthParams :=
  {| response_type := Some (orElse (getParam (js "response_type") query) []);
     auth_client_id := Some (orElse (getParam (js "client_id") query) []);
     auth_redirect_uri :=
       Some (orElse (getParam (js "redirect_uri") query) []);
     auth_scope :=
       Some (orElse (getParam (js "scope") query)
               (js "openid profile email"));
     state := getParam (js "state") query;
     code_challenge := getParam (js "code_challenge") query;
     code_challenge_method :=
       if truthy (getParam (js "code_challenge_method") query)
       then getParam (js "code_challenge_method") query else None |}.

Section WithPlatform.

Variable unicodeLower : jsstring -> jsstring.
Variable isAbsoluteUrl : jsstring -> bool.

(** [GET]; [query] is the query string of the request URL. *)
Definition GET (env : UrlResolver.Env) (query : list (jsstring * jsstring))
  : Response :=
  let authParams := authParamsOf query in
  let paramValidation := validateAuthParams authParams in
  if negb (isValid paramValidation) then
    createOAuth21ErrorRedirect isAbsoluteUrl
      (Some (orElse (auth_redirect_uri authParams) []))
      (orElse (error paramValidation) [])
      (orElse (errorDescription paramValidation) [])
      (state authParams)
  else
    let googleClientId := UrlResolver.GOOGLE_CLIENT_ID env in
    if negb (truthy googleClientId)
       || negb (optEq (auth_client_id authParams) (orElse googleClientId []))
    then
      createOAuth21ErrorRedirect isAbsoluteUrl
        (Some (orElse (auth_redirect_uri authParams) []))
        (js "invalid_client") (js "Invalid client identifier")
        (state authParams)
    else
      let normalizedRedirectUri :=
        normalizeRedirectUri unicodeLower
          (orElse (auth_redirect_uri authParams) []) in
      if negb (UrlResolver.isAllowedRedirectUri env normalizedRedirectUri) then
        createOAuth21ErrorResponse (js "invalid_request")
          (js "Invalid redirect_uri") None
      else
        RedirectToGoogle
          (UrlResolver.getGoogleAuthUrl env (orElse googleClientId [])
             (if truthy (auth_scope authParams)
              then auth_scope authParams else None)
             (if truthy (state authParams) then state authParams else None)
             (if truthy (code_challenge authParams)
              then code_challenge authParams else None)
             (if truthy (code_challenge_method authParams)
              then code_challenge_method authParams else None)).

End WithPlatform.

(** [POST]: the form is re-expressed as a query on the same endpoint; a body
    that is not a form makes [formData()] throw. *)
Definition POST (formData : result (list (jsstring * jsstring))) : Response :=
  match formData with
  | Throw _ =>
      createOAuth21ErrorResponse (js "server_error")
        (js "Authorization server error") None
  | Ok form =>
      let field (k : jsstring) (d : jsstring) :=
        let v := orElse (getParam k form) d in
        if nonEmpty v then [(k, v)] else [] in
      RedirectToAuthorize
        (field (js "response_type") [] ++ field (js "client_id") []
         ++ field (js "redirect_uri") []
         ++ field (js "scope") (js "openid profile email")
         ++ field (js "state") [] ++ field (js "code_challenge") []
         ++ field (js "code_challenge_method") [])
  end.

End Authorize.

(* ------------------------------------------------------------------ *)
(** * api/auth/token                                                   *)
(* ------------------------------------------------------------------ *)

Module Token.

Import OAuthUtils Base64.

(** The parts of the request the handler reads. *)
Record Request := mkRequest {
  contentType : option jsstring;          (* headers.get("content-type") *)
  authorization : option jsstring;        (* headers.get("authorization") *)
  jsonBody : result TokenExchangeParams;  (* request.json() *)
  formBody : result (list (jsstring * jsstring))  (* request.formData() *)
}.

(** A request sent to Google while the handler runs. *)
Inductive Upstream :=
| CodeExchange (form : TokenForm)
| TokenVerification (token : jsstring).

Section WithUpstream.

(** What [verifyGoogleToken] (lib/auth) resolves to. *)
Variable UserInfo : Type.
Variable verifyGoogleToken : Request -> jsstring -> result (option UserInfo).
Variable fetchToken : TokenForm -> result FetchResponse.

Definition parseBody (request : Request) : result TokenExchangeParams :=
  if includes (js "application/json") (orElse (contentType request) []) then
    jsonBody request
  else
    formData <- formBody request ;;
    Ok {| grant_type :=
            Some (orElse (Authorize.getParam (js "grant_type") formData) []);
          code := Some (orElse (Authorize.getParam (js "code") formData) []);
          redirect_uri :=
            Some (orElse (Authorize.getParam (js "redirect_uri") formData) []);
          client_id :=
            Some (orElse (Authorize.getParam (js "client_id") formData) []);
          client_secret :=
            Some (orElse (Authorize.getParam (js "client_secret") formData) []);
          code_verifier := Authorize.getParam (js "code_verifier") formData |}.

(** The secret taken from an [Authorization: Basic] header, when the body
    has none. *)
Definition basicSecret (request : Request) (googleClientId : jsstring)
  : option jsstring :=
  match authorization request with
  | Some authHeader =>
      if startsWith (js "Basic ") authHeader then
        match atob (slice 6 authHeader) with
        | Ok credentials =>
            match split 58 credentials with
            | clientId :: rest =>
                if jseq clientId googleClientId then
                  match rest with
                  | secret :: _ => Some secret
                  | [] => None
                  end
                else None
            | [] => None
            end
        | Throw _ => None
        end
      else None
  | None => None
  end.

(** [clientSecret] once the header has been looked at: the secret of the
    body, or else the one of the Basic header. *)
Definition presentedSecret (request : Request)
  (tokenParams : TokenExchangeParams) (googleClientId : jsstring)
  : option jsstring :=
  if truthy (client_secret tokenParams) then client_secret tokenParams
  else basicSecret request googleClientId.

(** [POST]: the response and the requests sent upstream, in order. *)
Definition POST (env : UrlResolver.Env) (request : Request)
  : Response * list Upstream :=
  match parseBody request with
  | Throw _ =>
      (createOAuth21ErrorResponse (js "server_error")
         (js "Token endpoint error") None, [])
  | Ok tokenParams =>
      let paramValidation := validateTokenParams tokenParams in
      if negb (isValid paramValidation) then
        (createOAuth21ErrorResponse (orElse (error paramValidation) [])
           (orElse (errorDescription paramValidation) []) None, [])
      else
        let googleClientId := UrlResolver.GOOGLE_CLIENT_ID env in
        let googleClientSecret := UrlResolver.GOOGLE_CLIENT_SECRET env in
        if negb (truthy googleClientId) || negb (truthy googleClientSecret)
        then
          (createOAuth21ErrorResponse (js "server_error")
             (js "OAuth client not configured") None, [])
        else if negb (optEq (client_id tokenParams) (orElse googleClientId []))
        then
          (createOAuth21ErrorResponse (js "invalid_client")
             (js "Invalid client identifier") None, [])
        else
          let clientSecret :=
            presentedSecret request tokenParams (orElse googleClientId []) in
          if negb (truthy clientSecret)
             || negb (optEq clientSecret (orElse googleClientSecret []))
          then
            (createOAuth21ErrorResponse (js "invalid_client")
               (js "Invalid client authentication") None, [])
          else if negb (UrlResolver.isAllowedRedirectUri env
                          (orElse (redirect_uri tokenParams) []))
          then
            (createOAuth21ErrorResponse (js "invalid_request")
               (js "Invalid redirect_uri") None, [])
          else
            let (exchange, sent) :=
              exchangeCodeForGoogleTokens fetchToken env
                (orElse (code tokenParams) [])
                (orElse (redirect_uri tokenParams) [])
                googleClientId googleClientSecret in
            let log := map CodeExchange sent in
            match success exchange, tokens exchange with
            | true, Some tokens_ =>
                let token :=
                  if truthy (g_id_token tokens_)
                  then orElse (g_id_token tokens_) []
                  else orElse (g_access_token tokens_) [] in
                let log := log ++ [TokenVerification token] in
                match verifyGoogleToken request token with
                | Throw _ =>
                    (createOAuth21ErrorResponse (js "invalid_grant")
                       (js "Token verification failed") None, log)
                | Ok None =>
                    (createOAuth21ErrorResponse (js "invalid_grant")
                       (js "Failed to verify user information") None, log)
                | Ok (Some userInfo) =>
                    (TokenJson
                       (buildTokenResponse tokens_
                          (Some (js "openid profile email read:mcp write:mcp persons:read persons:write"))
                          None),
                     log)
                end
            | _, _ =>
                (createOAuth21ErrorResponse (js "invalid_grant")
                   (js "Invalid authorization code") None, log)
            end
  end.

End WithUpstream.

End Token.

(* ------------------------------------------------------------------ *)
(** * src/app/api/auth/logout/route.ts                                 *)
(* ------------------------------------------------------------------ *)

Module Logout.

Local Open Scope Z_scope.

(** A parsed URL: what precedes the query, and the query parameters. *)
Record Url := mkUrl {
  location : jsstring;
  searchParams : list (jsstring * jsstring)
}.

Inductive Body :=
| Json (success : bool) (text : jsstring)
    (* { success, message } or { success, error } *)
| RedirectTo (target : Url).

(** A [NextResponse]: what it says, and the cookies it tells the client to
    discard ([response.cookies.delete]). *)
Record Response := mkResponse {
  body : Body;
  status : Z;
  deletedCookies : list jsstring
}.

(** [NextResponse.json(...)] and [NextResponse.redirect(...)] build a new
    response, with no cookie set or deleted. *)
Definition json (success : bool) (text : jsstring) (status : Z) : Response :=
  mkResponse (Json success text) status [].

Definition redirect (target : Url) : Response :=
  mkResponse (RedirectTo target) 307 [].

(** [response.cookies.delete(name)] changes the response it is called on. *)
Definition cookiesDelete (name : jsstring) (response : Response) : Response :=
  mkResponse (body response) (status response)
    (deletedCookies response ++ [name]).

Definition POST : Response :=
  let response := json true (js "Logged out successfully") 200 in
  let response := cookiesDelete (js "oauth_session") response in
  let response := cookiesDelete (js "oauth_state") response in
  let response := cookiesDelete (js "oauth_nonce") response in
  response.

Definition has (k : jsstring) (u : Url) : bool :=
  existsb (fun kv => jseq (fst kv) k) (searchParams u).

(** [url.searchParams.set(k, v)] when [k] is not among the parameters. *)
Definition append (k v : jsstring) (u : Url) : Url :=
  mkUrl (location u) (searchParams u ++ [(k, v)]).

Section WithUrl.

(** [new URL(input, base)]: throws TypeError when the input cannot be
    resolved. *)
Variable newURL : jsstring -> jsstring -> result Url.

(** [GET]; [requestUrl] is [request.url] and [redirectParam] is
    [searchParams.get('redirect')]. *)
Definition GET (requestUrl : jsstring) (redirectParam : option jsstring)
  : result Response :=
  tryCatch
    (let redirectUrl := orElse redirectParam (js "/auth/login") in
     target <- newURL redirectUrl requestUrl ;;
     let response := redirect target in
     let response := cookiesDelete (js "oauth_session") response in
     finalUrl <- newURL redirectUrl requestUrl ;;
     let finalUrl :=
       if negb (has (js "logout") finalUrl)
       then append (js "logout") (js "success") finalUrl
       else finalUrl in
     Ok (redirect finalUrl))
    (fun error =>
       target <- newURL (js "/auth/login") requestUrl ;;
       let response := redirect target in
       let response := cookiesDelete (js "oauth_session") response in
       Ok response).

End WithUrl.

End Logout.

(* ------------------------------------------------------------------ *)
(** * src/lib/mcp-server.ts and src/app/actions/mcp-actions.ts          *)
(* ------------------------------------------------------------------ *)

Module McpActions.

Import Json.

(** The [user] argument of [handleMCPTool]:
    [{ clientId; extra?: { email?; name? } }]. *)
Record Extra := mkExtra {
  x_email : jsval;
  x_name : jsval
}.

Record UserContext := mkUserContext {
  clientId : jsval;
  extra : option Extra
}.

(** ** The zod schemas of lib/mcp-server.ts *)

(** The object a safe parse works on: zod rejects anything that is not a
    plain object with one issue at the root path. *)
Definition field (args : json) (k : Key) : option jsval :=
  match args with
  | JObj ms =>
      match lookupLast (keyName k) ms with
      | Some v => Some (JVal v)
      | None => Some JUndefined
      end
  | _ => None
  end.

Definition rootIssue : exn := ZodError [js "(root)"].

(** [z.string()] with further checks [ok]; [optional] admits [undefined].
    The result is the issue path on failure. *)
Definition zString (ok : jsstring -> bool) (optional : bool) (k : Key)
  (x : jsval) : list jsstring + option jsstring :=
  match x with
  | JVal (JStr s) => if ok s then inr (Some s) else inl [keyName k]
  | JUndefined => if optional then inr None else inl [keyName k]
  | _ => inl [keyName k]
  end.

Definition issuesOf {A} (r : list jsstring + A) : list jsstring :=
  match r with inl i => i | inr _ => [] end.

Definition anyString (s : jsstring) : bool := true.

(** [.min(2)] *)
Definition min2 (s : jsstring) : bool := Nat.leb 2 (List.length s).

(** [.regex(/^04\d{8}$/)] *)
Definition isMobile (s : jsstring) : bool :=
  match s with
  | 48%N :: 52%N :: r => Nat.eqb (List.length r) 8 && forallb isDigit r
  | _ => false
  end.

Record AddUserData := mkAddUserData {
  add_name : jsstring;
  add_email : jsstring;
  add_phoneNumber : jsstring
}.

Record UpdateData := mkUpdateData {
  upd_name : option jsstring;
  upd_email : option jsstring;
  upd_phoneNumber : option jsstring
}.

Section Schemas.

(** [.email()]: zod's e-mail pattern. *)
Variable isEmail : jsstring -> bool.

(** A schema with the single required string [k]:
    [searchUsersSchema], [deleteUserSchema], [getUserByIdSchema]. *)
Definition parseOneString (k : Key) (args : json) : result jsstring :=
  match field args k with
  | None => Throw rootIssue
  | Some x =>
      match zString anyString false k x with
      | inr (Some s) => Ok s
      | r => Throw (ZodError (issuesOf r))
      end
  end.

Definition searchUsersSchema := parseOneString Kquery.
Definition deleteUserSchema := parseOneString Kid.
Definition getUserByIdSchema := parseOneString Kid.

Definition addUserSchema (args : json) : result AddUserData :=
  match field args Kname, field args Kemail, field args KphoneNumber with
  | Some n, Some e, Some p =>
      let rn := zString min2 false Kname n in
      let re := zString isEmail false Kemail e in
      let rp := zString isMobile false KphoneNumber p in
      match rn, re, rp with
      | inr (Some n'), inr (Some e'), inr (Some p') =>
          Ok (mkAddUserData n' e' p')
      | _, _, _ => Throw (ZodError (issuesOf rn ++ issuesOf re ++ issuesOf rp))
      end
  | _, _, _ => Throw rootIssue
  end.

Definition updateUserSchema (args : json) : result (jsstring * UpdateData) :=
  match field args Kid, field args Kname, field args Kemail,
        field args KphoneNumber with
  | Some i, Some n, Some e, Some p =>
      let ri := zString anyString false Kid i in
      let rn := zString min2 true Kname n in
      let re := zString isEmail true Kemail e in
      let rp := zString isMobile true KphoneNumber p in
      match ri, rn, re, rp with
      | inr (Some i'), inr n', inr e', inr p' =>
          Ok (i', mkUpdateData n' e' p')
      | _, _, _, _ =>
          Throw (ZodError (issuesOf ri ++ issuesOf rn ++ issuesOf re
                           ++ issuesOf rp))
      end
  | _, _, _, _ => Throw rootIssue
  end.

End Schemas.

(** ** The tool handler *)

(** [{ name, email }] as serialised, for [requestedBy] and the like. *)
Record Requester := mkRequester {
  r_name : option json;
  r_email : option json
}.

Section Handler.

(** The data store and the five server actions of app/actions/actions.ts,
    which run against it and may throw. *)
Variable Store : Type.
Variable User : Type.
Variable userName : User -> jsstring.
Variable searchUsers : jsstring -> Store -> result (list User) * Store.
Variable addUser : AddUserData -> Store -> result User * Store.
Variable updateUser : jsstring -> UpdateData -> Store -> result User * Store.
Variable deleteUser : jsstring -> Store -> result unit * Store.
Variable getUserById : jsstring -> Store -> result (option User) * Store.
Variable isEmail : jsstring -> bool.

Inductive Data :=
| Users (l : list User)
| OneUser (u : User).

(** The object given to [JSON.stringify(..., null, 2)]; [actor] is the
    property [requestedBy], [createdBy], [updatedBy] or [deletedBy] with its
    value, [None] standing for [null]. *)
Record ToolOutput := mkToolOutput {
  success : bool;
  data : option Data;
  message : jsstring;
  errors : option (list jsstring);
  actor : option (jsstring * option Requester)
}.

Definition failure (msg : jsstring) : ToolOutput :=
  mkToolOutput false None msg None None.

(** [user?.extra ? { name: user.extra.name, email: user.extra.email } : null] *)
Definition requester (user : option UserContext) : option Requester :=
  match user with
  | Some u =>
      match extra u with
      | Some x => Some (mkRequester (serialised (x_name x))
                          (serialised (x_email x)))
      | None => None
      end
  | None => None
  end.

(** Computations on the store that may throw. *)
Definition M (A : Type) : Type := Store -> result A * Store.

Definition ret {A} (a : A) : M A := fun st => (Ok a, st).

Definition lift {A} (r : result A) : M A := fun st => (r, st).

Definition bindM {A B} (m : M A) (k : A -> M B) : M B :=
  fun st =>
    match m st with
    | (Ok a, st') => k a st'
    | (Throw e, st') => (Throw e, st')
    end.

Definition tryCatchM {A} (m : M A) (h : exn -> M A) : M A :=
  fun st =>
    match m st with
    | (Ok a, st') => (Ok a, st')
    | (Throw e, st') => h e st'
    end.

Notation "x <-- m ;;; k" := (bindM m (fun x => k))
  (at level 61, m at next level, right associativity).

Definition countText (n : nat) : jsstring := printNat (N.of_nat n).

(** The [switch] inside the [try] block. *)
Definition toolSwitch (toolName : jsstring) (args : json)
  (user : option UserContext) : M ToolOutput :=
  if jseq toolName (js "search_users") then
    query <-- lift (searchUsersSchema args) ;;;
    users <-- searchUsers query ;;;
    ret (mkToolOutput true (Some (Users users))
           (js "Found " ++ countText (List.length users) ++ js " user(s)")
           None (Some (js "requestedBy", requester user)))
  else if jseq toolName (js "add_user") then
    userData <-- lift (addUserSchema isEmail args) ;;;
    newUser <-- addUser userData ;;;
    ret (mkToolOutput true (Some (OneUser newUser))
           (js "Successfully created user: " ++ userName newUser)
           None (Some (js "createdBy", requester user)))
  else if jseq toolName (js "update_user") then
    parsed <-- lift (updateUserSchema isEmail args) ;;;
    let (id, filteredUpdateData) := parsed in
    match filteredUpdateData with
    | mkUpdateData None None None =>
        ret (failure (js "No valid fields provided for update"))
    | _ =>
        updatedUser <-- updateUser id filteredUpdateData ;;;
        ret (mkToolOutput true (Some (OneUser updatedUser))
               (js "Successfully updated user: " ++ userName updatedUser)
               None (Some (js "updatedBy", requester user)))
    end
  else if jseq toolName (js "delete_user") then
    id <-- lift (deleteUserSchema args) ;;;
    _ <-- deleteUser id ;;;
    ret (mkToolOutput true None
           (js "Successfully deleted user with ID: " ++ id)
           None (Some (js "deletedBy", requester user)))
  else if jseq toolName (js "get_user_by_id") then
    id <-- lift (getUserByIdSchema args) ;;;
    foundUser <-- getUserById id ;;;
    match foundUser with
    | None => ret (failure (js "User with ID " ++ id ++ js " not found"))
    | Some found =>
        ret (mkToolOutput true (Some (OneUser found))
               (js "Retrieved user: " ++ userName found)
               None (Some (js "requestedBy", requester user)))
    end
  else
    ret (failure (js "Unknown tool: " ++ toolName)).

(** The [catch] block. *)
Definition onError (error : exn) : M ToolOutput :=
  match error with
  | ZodError issues =>
      ret (mkToolOutput false None (js "Invalid input parameters")
             (Some issues) None)
  | Error _ msg => ret (failure msg)
  | Thrown _ => ret (failure (js "Unknown error occurred"))
  end.

Definition handleMCPTool (toolName : jsstring) (args : json)
  (user : option UserContext) : M ToolOutput :=
  tryCatchM (toolSwitch toolName args user) onError.

End Handler.

End McpActions.

(* ------------------------------------------------------------------ *)
(** * src/app/api/mcp/route.ts                                         *)
(* ------------------------------------------------------------------ *)

Module McpRoute.

Import Base64 Json McpActions.
Local Open Scope Z_scope.

(** [body.params]: [{ name?, arguments? }]. *)
Record MCPParams := mkMCPParams {
  name : option json;
  arguments : option json
}.

(** [MCPRequest]; [params] is [None] when [body.params] is falsy. *)
Record MCPRequest := mkMCPRequest {
  id : option json;
  method : jsstring;
  params : option MCPParams
}.

(** The parts of the [NextRequest] the handler reads. *)
Record Request := mkRequest {
  authorization : option jsstring;   (* headers.get('authorization') *)
  sessionCookie : option jsstring;   (* cookies.get('oauth_session')?.value *)
  body : result MCPRequest           (* request.json() *)
}.

Section Route.

Variable Store : Type.
Variable User : Type.
Variable userName : User -> jsstring.
Variable searchUsers : jsstring -> Store -> result (list User) * Store.
Variable addUser : AddUserData -> Store -> result User * Store.
Variable updateUser : jsstring -> UpdateData -> Store -> result User * Store.
Variable deleteUser : jsstring -> Store -> result unit * Store.
Variable getUserById : jsstring -> Store -> result (option User) * Store.
Variable isEmail : jsstring -> bool.
Variable numLitTruthy : jsstring -> bool.
Variable looseLess : json -> Z -> bool.

(** [verifyGoogleToken] (lib/auth) resolves to [null] or to an object whose
    [user] property the route passes on. *)
Variable verifyGoogleToken :
  Request -> jsstring -> result (option (option UserContext)).

Inductive ResultBody :=
| Initialize
| ToolsList
| ToolCall (text : ToolOutput User).

(** The JSON-RPC envelopes: [challenge] says whether the response carries a
    [WWW-Authenticate] header. *)
Inductive Response :=
| RpcError (id_ : option json) (code : Z) (message : jsstring)
    (data : option jsstring) (status : Z) (challenge : bool)
| RpcResult (id_ : option json) (result_ : ResultBody)
| NoContent.

(** The object [authenticateMCPRequest] resolves to: [authenticated] with
    [user], or not, with [error] and [errorResponse]. *)
Inductive AuthResult :=
| Authenticated (user : option UserContext)
| Rejected (error : jsstring) (errorResponse : Response).

Definition unauthorized (msg : jsstring) (challenge : bool) : Response :=
  RpcError None (-32603) msg None 401 challenge.

(** The second half of [authenticateMCPRequest]: the session cookie. *)
Definition authenticateSession (request : Request) (now : Z) : AuthResult :=
  match sessionCookie request with
  | Some value =>
      let attempt :=
        tryCatch
          (decoded <- atob value ;;
           sessionData <- parse decoded ;;
           exp <- getProp sessionData Kexp ;;
           if Session.jsTruthy numLitTruthy exp
              && Session.jsLess looseLess exp now
           then
             Ok (Rejected (js "Session expired")
                   (unauthorized (js "Unauthorized - Session expired") false))
           else
             sub <- getProp sessionData Ksub ;;
             email <- getProp sessionData Kemail ;;
             name_ <- getProp sessionData Kname ;;
             Ok (Authenticated
                   (Some (mkUserContext sub (Some (mkExtra email name_))))))
          (fun parseError =>
             Ok (Rejected (js "Invalid session cookie")
                   (unauthorized (js "Unauthorized - Invalid session") false)))
      in
      match attempt with
      | Ok r => r
      | Throw _ =>
          Rejected (js "Authentication system error")
            (RpcError None (-32603) (js "Internal authentication error")
               None 500 false)
      end
  | None =>
      Rejected (js "Missing authorization header or session cookie")
        (unauthorized
           (js "Unauthorized - Missing authorization header or session cookie")
           true)
  end.

Definition authenticateMCPRequest (request : Request) (now : Z)
  : AuthResult :=
  match authorization request with
  | Some authHeader =>
      if nonEmpty authHeader then
        let token :=
          if startsWith (js "Bearer ") authHeader then slice 7 authHeader
          else authHeader in
        if negb (nonEmpty token) then
          Rejected (js "Invalid authorization header format")
            (unauthorized (js "Unauthorized - Invalid token format") true)
        else
          match verifyGoogleToken request token with
          | Ok (Some userInfo) => Authenticated userInfo
          | Ok None => authenticateSession request now
          | Throw verifyError => authenticateSession request now
          end
      else authenticateSession request now
  | None => authenticateSession request now
  end.

Definition requiresAuthentication (method_ : jsstring) : bool :=
  let publicMethods := [js "initialize"; js "tools/list"] in
  negb (UrlResolver.arrayIncludes publicMethods method_).

Definition validTools : list jsstring :=
  [js "search_users"; js "add_user"; js "update_user"; js "delete_user";
   js "get_user_by_id"].

Definition emptyObject : json := JObj [].

(** The [tools/call] case, once authentication has passed. *)
Definition toolsCall (body_ : MCPRequest) (userContext : option UserContext)
  : M Store Response :=
  match params body_ with
  | None =>
      ret (RpcError (id body_) (-32602) (js "Missing parameters") None 200
             false)
  | Some p =>
      match name p with
      | Some (JStr toolName) =>
          if negb (nonEmpty toolName) then
            ret (RpcError (id body_) (-32602) (js "Invalid tool name") None
                   200 false)
          else if negb (UrlResolver.arrayIncludes validTools toolName) then
            ret (RpcError (id body_) (-32601)
                   (js "Tool '" ++ toolName ++ js "' not found") None 200
                   false)
          else
            let args :=
              match arguments p with
              | Some a =>
                  if Session.jsTruthy numLitTruthy (JVal a) then a
                  else emptyObject
              | None => emptyObject
              end in
            tryCatchM
              (bindM
                 (handleMCPTool userName searchUsers addUser updateUser
                    deleteUser getUserById isEmail toolName args userContext)
                 (fun text => ret (RpcResult (id body_) (ToolCall text))))
              (fun error =>
                 ret (RpcError (id body_) (-32603)
                        (js "Tool execution failed")
                        (Some (match error with
                               | Error _ msg => msg
                               | ZodError issues => List.concat issues
                               | Thrown _ => js "Unknown error"
                               end))
                        200 false))
      | _ =>
          ret (RpcError (id body_) (-32602) (js "Invalid tool name") None 200
                 false)
      end
  end.

(** [POST]: the response and the data store after the request. *)
Definition POST (request : Request) (now : Z) : M Store Response :=
  match body request with
  | Throw _ => ret (RpcError None (-32700) (js "Parse error") None 400 false)
  | Ok body_ =>
      let auth :=
        if requiresAuthentication (method body_)
        then Some (authenticateMCPRequest request now)
        else None in
      match auth with
      | Some (Rejected _ errorResponse) => ret errorResponse
      | _ =>
          let userContext :=
            match auth with
            | Some (Authenticated (Some u)) => Some u
            | Some (Authenticated None) => Some (mkUserContext JUndefined None)
            | _ => None
            end in
          if jseq (method body_) (js "initialize") then
            ret (RpcResult (id body_) Initialize)
          else if jseq (method body_) (js "tools/list") then
            ret (RpcResult (id body_) ToolsList)
          else if jseq (method body_) (js "tools/call") then
            toolsCall body_ userContext
          else if jseq (method body_) (js "notifications/initialized") then
            ret NoContent
          else
            ret (RpcError (id body_) (-32601)
                   (js "Method '" ++ method body_ ++ js "' not found") None
                   200 false)
      end
  end.

End Route.

End McpRoute.

(* ------------------------------------------------------------------ *)
(** * The route guard: middleware.ts                                   *)
(* ------------------------------------------------------------------ *)

Module Middleware.

Import Base64 Json.
Local Open Scope Z_scope.

Definition protectedRoutes : list jsstring :=
  [js "/"; js "/about"; js "/mcp"].

Definition publicRoutes : list jsstring :=
  [js "/auth/login"; js "/auth/success"; js "/auth/error"; js "/api/auth";
   js "/api/mcp"; js "/.well-known"; js "/favicon.ico"; js "/_next"].

(** [publicRoutes.some(route => pathname.startsWith(route))] *)
Definition isPublicRoute (pathname : jsstring) : bool :=
  existsb (fun route => startsWith route pathname) publicRoutes.

Definition isProtectedRoute (pathname : jsstring) : bool :=
  existsb
    (fun route =>
       if jseq route (js "/") then jseq pathname (js "/")
       else startsWith route pathname)
    protectedRoutes.

(** Whether a value read from parsed JSON can be put in a template literal.
    The conversion to a string throws TypeError on an object with a property
    named [toString]: coming from JSON the property is not callable, and
    [Object.prototype.valueOf] gives back the object.  An array is joined,
    which converts its elements (null gives the empty string). *)
Fixpoint printable (v : json) : bool :=
  match v with
  | JObj members =>
      match lookupLast (js "toString") members with
      | Some _ => false
      | None => true
      end
  | JArr items =>
      (fix all (l : list json) : bool :=
         match l with
         | [] => true
         | x :: l' => printable x && all l'
         end) items
  | _ => true
  end.

(** [`${x}`] for a property value [x]. *)
Definition template (x : jsval) : result unit :=
  match x with
  | JVal v => if printable v then Ok tt else Throw TypeError
  | _ => Ok tt
  end.

(** [NextResponse.next()], or the redirect to [/auth/login] on the origin of
    the request, with the query parameters set on [loginUrl] and the cookies
    deleted on the response. *)
Inductive Response :=
| Next
| RedirectToLogin (searchParams : list (jsstring * jsstring))
    (deletedCookies : list jsstring).

Section Coercions.

Variable numLitTruthy : jsstring -> bool.
Variable looseLess : json -> Z -> bool.

(** [middleware]; [pathname] is [request.nextUrl.pathname], [sessionCookie]
    the value of the [oauth_session] cookie when the request has one, and
    [now] is [Math.floor(Date.now() / 1000)]. *)
Definition middleware (pathname : jsstring) (sessionCookie : option jsstring)
  (now : Z) : result Response :=
  if isPublicRoute pathname then Ok Next
  else if isProtectedRoute pathname then
    match sessionCookie with
    | None => Ok (RedirectToLogin [(js "returnUrl", pathname)] [])
    | Some value =>
        tryCatch
          (decoded <- atob value ;;
           sessionData <- parse decoded ;;
           exp <- getProp sessionData Kexp ;;
           if Session.jsTruthy numLitTruthy exp
              && Session.jsLess looseLess exp now
           then
             email <- getProp sessionData Kemail ;;
             _ <- template email ;;
             Ok (RedirectToLogin
                   [(js "returnUrl", pathname); (js "expired", js "true")]
                   [js "oauth_session"])
           else
             email <- getProp sessionData Kemail ;;
             _ <- template email ;;
             Ok Next)
          (fun error =>
             Ok (RedirectToLogin [(js "returnUrl", pathname)]
                   [js "oauth_session"]))
    end
  else Ok Next.

End Coercions.

End Middleware.

(* ------------------------------------------------------------------ *)
(** * The people endpoint: app/api/people/route.ts                     *)
(* ------------------------------------------------------------------ *)

Module People.

Local Open Scope Z_scope.

(** The code units [parseInt] skips at the start of its argument: white
    space and line terminators. *)
Definition isStrWhiteSpace (c : N) : bool :=
  ((9 <=? c) && (c <=? 13) || (c =? 32) || (c =? 160) || (c =? 5760)
   || (8192 <=? c) && (c <=? 8202) || (c =? 8232) || (c =? 8233)
   || (c =? 8239) || (c =? 8287) || (c =? 12288) || (c =? 65279))%N.

Fixpoint trimStart (s : jsstring) : jsstring :=
  match s with
  | c :: r => if isStrWhiteSpace c then trimStart r else s
  | [] => []
  end.

(** A number as the handler computes with it: NaN, an integer a double
    holds exactly, or the value of a digit string beyond 2^53 - 1, which is
    kept as written. *)
Inductive number :=
| NaN
| Int (z : Z)
| Inexact (negative : bool) (digits : jsstring).

(** [parseInt(s, 10)]: an optional sign and the longest run of decimal
    digits after the leading white space; NaN when there is no digit. *)
Definition parseInt10 (s : jsstring) : number :=
  let s1 := trimStart s in
  let (negative, s2) :=
    match s1 with
    | c :: r =>
        if (c =? 45)%N then (true, r)
        else if (c =? 43)%N then (false, r)
        else (false, s1)
    | [] => (false, s1)
    end in
  match Json.spanDigits s2 with
  | ([], _) => NaN
  | (d :: ds, _) =>
      let magnitude := Z.of_N (N.of_uint (Json.uintOfDigits (d :: ds))) in
      if magnitude <=? Json.MAX_SAFE_INTEGER
      then Int (if negative then - magnitude else magnitude)
      else Inexact negative (d :: ds)
  end.

(** The index [Array.prototype.slice] starts or ends at, for an integer
    argument: counted from the end when negative, and kept within the
    array. *)
Definition relativeIndex (len i : Z) : Z :=
  if i <? 0 then Z.max (len + i) 0 else Z.min i len.

(** [l.slice(start, end)] for integers [start] and [end]. *)
Definition arraySlice {A : Type} (l : list A) (start end_ : Z) : list A :=
  let len := Z.of_nat (List.length l) in
  let k := relativeIndex len start in
  let final := relativeIndex len end_ in
  firstn (Z.to_nat (final - k)) (skipn (Z.to_nat k) l).

Section Handler.

Variable Store : Type.
Variable User : Type.

(** [searchUsers] of app/actions/actions.ts. *)
Variable searchUsers : jsstring -> Store -> result (list User) * Store.

(** [allUsers.slice((page - 1) * pageSize, page * pageSize)] when the
    arithmetic leaves the integers a double holds exactly. *)
Variable inexactSlice : number -> number -> list User -> list User.

(** [{ users, total }], or [{ error: 'Internal server error' }] under
    HTTP 500. *)
Inductive Response :=
| Page (users : list User) (total : nat)
| InternalError.

Definition exact (z : Z) : bool := Z.abs z <=? Json.MAX_SAFE_INTEGER + 1.

Definition pageOf (allUsers : list User) (page pageSize : number)
  : list User :=
  match page, pageSize with
  | NaN, _ => []
  | _, NaN => []
  | Int p, Int s =>
      if exact ((p - 1) * s) && exact (p * s)
      then arraySlice allUsers ((p - 1) * s) (p * s)
      else inexactSlice page pageSize allUsers
  | _, _ => inexactSlice page pageSize allUsers
  end.

(** [GET]; the arguments are [searchParams.get] of 'query', 'page' and
    'pageSize'. *)
Definition GET (queryParam pageParam pageSizeParam : option jsstring)
  (st : Store) : Response * Store :=
  let query := match queryParam with Some q => q | None => [] end in
  let page :=
    parseInt10 (match pageParam with Some p => p | None => js "1" end) in
  let pageSize :=
    parseInt10
      (match pageSizeParam with Some p => p | None => js "10" end) in
  match searchUsers query st with
  | (Ok allUsers, st') =>
      (Page (pageOf allUsers page pageSize) (List.length allUsers), st')
  | (Throw _, st') => (InternalError, st')
  end.

End Handler.

End People.

(* ------------------------------------------------------------------ *)
(** * The Google callback (api/auth/callback/google) and the login form *)
(* ------------------------------------------------------------------ *)

Module Callback.

Import UrlResolver OAuthUtils Base64 Json.
Local Open Scope Z_scope.

(** The query parameters [GET] reads: [searchParams.get] of "code",
    "state", "error" and "error_description". *)
Record Request := mkRequest {
  q_code : option jsstring;
  q_state : option jsstring;
  q_error : option jsstring;
  q_error_description : option jsstring
}.

(** The two requests that look the user up at Google: [tokeninfo] with the
    ID token, [userinfo] with the access token. *)
Inductive Lookup :=
| TokenInfo (idToken : jsstring)
| UserInfo (accessToken : jsstring).

(** What [fetch] gives back for a lookup. *)
Record LookupResponse := mkLookupResponse {
  l_ok : bool;
  l_json : result json
}.

(** A request sent to Google while the handler runs. *)
Inductive Upstream :=
| CodeExchange (form : TokenForm)
| UserLookup (l : Lookup).

(** [response.cookies.set(name, value, options)]. *)
Record Cookie := mkCookie {
  c_name : jsstring;
  c_value : jsstring;
  c_httpOnly : bool;
  c_secure : bool;
  c_sameSite : jsstring;
  c_maxAge : Z;
  c_path : jsstring
}.

(** Where a successful sign-in is sent: the page [/auth/success] on the
    origin of the request, with the query parameters set on it, or the URL
    that the [returnUrl] of the state resolves to. *)
Inductive Target :=
| SuccessPage (searchParams : list (jsstring * jsstring))
| ReturnTo (url : Logout.Url).

(** The redirect to [/auth/error] with an error and a description, or the
    redirect of a sign-in with the session cookie set on it. *)
Inductive Response :=
| ErrorPage (err description : jsstring)
| SignedIn (target : Target) (cookie : Cookie).

(** [v.k] for a name [k] that no prototype defines ([picture],
    [returnUrl]). *)
Definition getPlain (v : json) (k : jsstring) : result jsval :=
  match v with
  | JNull => Throw TypeError
  | JObj ms =>
      match lookupLast k ms with
      | Some x => Ok (JVal x)
      | None => Ok JUndefined
      end
  | _ => Ok JUndefined
  end.

Section Handler.

Variable numLitTruthy : jsstring -> bool.
Variable fetchToken : TokenForm -> result FetchResponse.
Variable fetchUser : Lookup -> result LookupResponse.

(** [new URL(redirectPath, request.url)] for a [redirectPath] taken from
    the state. *)
Variable resolve : json -> result Logout.Url.

Definition invalidUser : exn :=
  Error (js "Error") (js "Invalid user information received from Google").

(** The [try] block that verifies the tokens: the user information, or the
    error thrown, and the lookups sent. *)
Definition verifyUser (tokens_ : GoogleTokens)
  : result json * list Upstream :=
  let tokenToVerify :=
    if truthy (g_id_token tokens_) then orElse (g_id_token tokens_) []
    else orElse (g_access_token tokens_) [] in
  if negb (nonEmpty tokenToVerify) then
    (Throw (Error (js "Error") (js "No valid token received from Google")),
     [])
  else
    let lookup :=
      if truthy (g_id_token tokens_)
      then TokenInfo (orElse (g_id_token tokens_) [])
      else UserInfo (orElse (g_access_token tokens_) []) in
    (response <- fetchUser lookup ;;
     if negb (l_ok response) then
       Throw (Error (js "Error")
                (if truthy (g_id_token tokens_)
                 then js "Google token verification failed"
                 else js "Failed to fetch user info from Google"))
     else
       userInfo <- l_json response ;;
       if negb (Session.jsTruthy numLitTruthy (JVal userInfo)) then
         Throw invalidUser
       else
         sub <- getProp userInfo Ksub ;;
         if negb (Session.jsTruthy numLitTruthy sub) then Throw invalidUser
         else Ok userInfo,
     [UserLookup lookup]).

(** [redirectPath], after the state has been looked at. *)
Definition redirectPath (state_ : option jsstring) : json :=
  let default := JStr (js "/auth/success") in
  if truthy state_ then
    match
      (decoded <- atob (orElse state_ []) ;;
       stateData <- parse decoded ;;
       getPlain stateData (js "returnUrl"))
    with
    | Ok (JVal returnUrl) =>
        if Session.jsTruthy numLitTruthy (JVal returnUrl)
           && negb (match returnUrl with
                    | JStr s => jseq s (js "/auth/login")
                    | _ => false
                    end)
        then returnUrl
        else default
    | _ => default
    end
  else default.

(** The object whose base64 goes into the [user] parameter. *)
Definition userObject (userInfo : json) : result json :=
  sub <- getProp userInfo Ksub ;;
  name <- getProp userInfo Kname ;;
  email <- getProp userInfo Kemail ;;
  picture <- getPlain userInfo (js "picture") ;;
  Ok (JObj (Session.member (js "id") sub ++ Session.member (js "name") name
            ++ Session.member (js "email") email
            ++ Session.member (js "picture") picture)).

(** From [successUrl] to the response with the cookie. *)
Definition signIn (env : Env) (userInfo : json) (state_ : option jsstring)
  (now : Z) : result Response :=
  let path := redirectPath state_ in
  target <-
    (match path with
     | JStr s =>
         if jseq s (js "/auth/success") then
           o <- userObject userInfo ;;
           user <- btoa (stringify o) ;;
           Ok (SuccessPage
                 ((js "user", user)
                  :: (if truthy state_ then [(js "state", orElse state_ [])]
                      else [])))
         else u <- resolve path ;; Ok (ReturnTo u)
     | _ => u <- resolve path ;; Ok (ReturnTo u)
     end) ;;
  sub <- getProp userInfo Ksub ;;
  email <- getProp userInfo Kemail ;;
  name <- getProp userInfo Kname ;;
  sessionToken <- Session.sessionToken sub email name now ;;
  Ok (SignedIn target
        {| c_name := js "oauth_session";
           c_value := sessionToken;
           c_httpOnly := true;
           c_secure := optEq (NODE_ENV env) (js "production");
           c_sameSite := js "lax";
           c_maxAge := 60 * 60 * 24;
           c_path := js "/" |}).

(** [GET]: the response and the requests sent upstream, in order; [now] is
    [Math.floor(Date.now() / 1000)]. *)
Definition GET (env : Env) (request : Request) (now : Z)
  : Response * list Upstream :=
  if truthy (q_error request) then
    (ErrorPage (orElse (q_error request) [])
       (orElse (q_error_description request) []), [])
  else if negb (truthy (q_code request)) then
    (ErrorPage (js "invalid_request") (js "Missing authorization code"), [])
  else if negb (truthy (GOOGLE_CLIENT_ID env))
          || negb (truthy (GOOGLE_CLIENT_SECRET env)) then
    (ErrorPage (js "server_error") (js "OAuth not configured"), [])
  else
    let (exchange, sent) :=
      exchangeCodeForGoogleTokens fetchToken env
        (orElse (q_code request) []) (getRedirectUris_google env)
        (GOOGLE_CLIENT_ID env) (GOOGLE_CLIENT_SECRET env) in
    let log := map CodeExchange sent in
    match success exchange, tokens exchange with
    | true, Some tokens_ =>
        let (verified, looked) := verifyUser tokens_ in
        let log := log ++ looked in
        match verified with
        | Throw _ =>
            (ErrorPage (js "invalid_token") (js "Token verification failed"),
             log)
        | Ok userInfo =>
            match signIn env userInfo (q_state request) now with
            | Ok response => (response, log)
            | Throw _ =>
                (ErrorPage (js "server_error")
                   (js "Callback processing failed"), log)
            end
        end
    | _, _ =>
        (ErrorPage (js "invalid_grant") (js "Token exchange failed"), log)
    end.

End Handler.

End Callback.

(** ** The login form (app/auth/login/login-form.tsx) *)

Module LoginForm.

Import Base64 Json.

(** The [state] that [handleGoogleLogin] sends to Google: [timestamp] is
    [Date.now()], [origin] is [window.location.origin] and [returnUrl] the
    parameter of that name of the login page. *)
Definition state (timestamp : Z) (origin : jsstring)
  (returnUrl : option jsstring) : result jsstring :=
  let currentReturnUrl := orElse returnUrl (js "/") in
  btoa (stringify
          (JObj [ (js "timestamp", JNum timestamp);
                  (js "redirect", JStr (origin ++ js "/auth/success"));
                  (js "returnUrl", JStr currentReturnUrl) ])).

End LoginForm.

(* ------------------------------------------------------------------ *)
(** * The discovery documents under /.well-known                        *)
(* ------------------------------------------------------------------ *)

(** The getters of [OAuthUrls] (src/lib/url-resolver.ts) that the documents
    read. *)
Module OAuthUrls.

Import UrlResolver.

Definition authorize (env : Env) : jsstring :=
  getBaseUrl env ++ js "/api/auth/authorize".
Definition token (env : Env) : jsstring :=
  getBaseUrl env ++ js "/api/auth/token".
Definition register (env : Env) : jsstring :=
  getBaseUrl env ++ js "/api/auth/register".
Definition userinfo (env : Env) : jsstring :=
  getBaseUrl env ++ js "/api/auth/userinfo".
Definition introspect (env : Env) : jsstring :=
  getBaseUrl env ++ js "/api/auth/introspect".
Definition revoke (env : Env) : jsstring :=
  getBaseUrl env ++ js "/api/auth/revoke".
Definition mcp (env : Env) : jsstring :=
  getBaseUrl env ++ js "/api/mcp".
Definition people (env : Env) : jsstring :=
  getBaseUrl env ++ js "/api/people".

End OAuthUrls.

Module WellKnown.

Import UrlResolver Json.

(** An array of string literals. *)
Definition strings (l : list jsstring) : json := JArr (map JStr l).

(** The [metadata] object of
    app/.well-known/oauth-authorization-server/route.ts. *)
Definition authorizationServerMetadata (env : Env) : json :=
  JObj
    [ (js "issuer",
       JStr (replaceFirst (js "/api/auth/authorize") []
               (OAuthUrls.authorize env)));
      (js "authorization_endpoint", JStr (OAuthUrls.authorize env));
      (js "token_endpoint", JStr (OAuthUrls.token env));
      (js "response_types_supported", strings [js "code"]);
      (js "grant_types_supported", strings [js "authorization_code"]);
      (js "scopes_supported",
       strings [js "openid"; js "profile"; js "email"; js "read:mcp";
                js "write:mcp"; js "persons:read"; js "persons:write"]);
      (js "code_challenge_methods_supported", strings [js "S256"]);
      (js "token_endpoint_auth_methods_supported",
       strings [js "client_secret_post"; js "client_secret_basic"]);
      (js "registration_endpoint", JStr (OAuthUrls.register env));
      (js "userinfo_endpoint", JStr (OAuthUrls.userinfo env));
      (js "introspection_endpoint", JStr (OAuthUrls.introspect env));
      (js "revocation_endpoint", JStr (OAuthUrls.revoke env));
      (js "require_pushed_authorization_requests", JBool false);
      (js "pushed_authorization_request_endpoint", JNull);
      (js "tls_client_certificate_bound_access_tokens", JBool false);
      (js "service_documentation", JStr (js "https://docs.mcp.app/oauth"));
      (js "ui_locales_supported", strings [js "en"]);
      (js "claims_supported",
       strings [js "sub"; js "name"; js "email"; js "picture";
                js "given_name"; js "family_name"; js "locale";
                js "mcp_scopes"]) ].

(** The [metadata] object of the protected-resource document
    (app/.well-known/oauth-protected-resource/route.ts). *)
Definition protectedResourceMetadata (env : Env) : json :=
  JObj
    [ (js "resource",
       JStr (replaceFirst (js "/api/mcp") [] (OAuthUrls.mcp env)));
      (js "authorization_servers",
       JArr [JStr (replaceFirst (js "/api/auth/authorize") []
                     (OAuthUrls.authorize env))]);
      (js "scopes_required",
       strings [js "read:mcp"; js "write:mcp"; js "persons:read";
                js "persons:write"]);
      (js "bearer_methods_supported", strings [js "header"]);
      (js "resource_endpoints",
       JArr
         [ JObj [ (js "endpoint", JStr (OAuthUrls.mcp env));
                  (js "scopes", strings [js "read:mcp"; js "write:mcp"]);
                  (js "methods", strings [js "GET"; js "POST"]);
                  (js "description",
                   JStr (js "Model Context Protocol server endpoint")) ];
           JObj [ (js "endpoint", JStr (OAuthUrls.people env));
                  (js "scopes",
                   strings [js "persons:read"; js "persons:write"]);
                  (js "methods",
                   strings [js "GET"; js "POST"; js "PUT"; js "DELETE"]);
                  (js "description",
                   JStr (js "Person data management API")) ] ]);
      (js "introspection_endpoint", JStr (OAuthUrls.introspect env));
      (js "introspection_endpoint_auth_methods_supported",
       strings [js "client_secret_basic"; js "client_secret_post"]);
      (js "token_types_supported", strings [js "Bearer"; js "access_token"]);
      (js "tls_client_certificate_bound_access_tokens", JBool false);
      (js "resource_indicators_supported", JBool true);
      (js "authorization_details_supported", JBool false);
      (js "resource_documentation",
       JStr (js "https://docs.mcp.app/protected-resources"));
      (js "resource_policy_uri",
       JStr (js "https://docs.mcp.app/privacy-policy"));
      (js "resource_tos_uri",
       JStr (js "https://docs.mcp.app/terms-of-service"));
      (js "mcp_version", JStr (js "1.0.3"));
      (js "supported_protocols", strings [js "mcp"]);
      (js "api_version", JStr (js "v1"));
      (js "rate_limit_policy",
       JObj [ (js "requests_per_minute", JNum 100);
              (js "burst_limit", JNum 20) ]) ].

(** The two [GET] handlers: the status and the body of the response.
    Nothing in their [try] blocks throws. *)
Definition authorizationServer_GET (env : Env) : Z * json :=
  (200%Z, authorizationServerMetadata env).

Definition protectedResource_GET (env : Env) : Z * json :=
  (200%Z, protectedResourceMetadata env).

End WellKnown.

(* ================================================================== *)
(** * Vocabulary of the statements                                      *)
(* ================================================================== *)

(** A value is absent when it is [undefined] or the empty string: this is
    what [!x] tests. *)
Definition absent (o : option jsstring) : Prop := o = None \/ o = Some [].

(** [s.endsWith("/")]. *)
Definition endsWithSlash (s : jsstring) : bool := N.eqb (last s 0%N) 47.

(** The URI has the normal form of no entry of the allow-list. *)
Definition notListed (env : UrlResolver.Env) (uri : jsstring) : Prop :=
  forall x, In x (UrlResolver.allowedRedirects env) ->
            UrlResolver.normalizeInline uri <> UrlResolver.normalizeInline x.

(** Whether a response sends the browser to Google's authorization URL. *)
Definition redirectsToGoogle (r : OAuthUtils.Response) : bool :=
  match r with
  | OAuthUtils.RedirectToGoogle _ => true
  | _ => false
  end.

(** What follows a member value in the text of an object. *)
Definition delimited (rest : list N) : Prop :=
  exists r, rest = 44%N :: r \/ rest = 125%N :: r.

(** The values of a flat object: strings, and integers from 0 to 2^53 - 1. *)
Definition flatValue (v : Json.json) : Prop :=
  match v with
  | Json.JStr _ => True
  | Json.JNum z => (0 <= z <= Json.MAX_SAFE_INTEGER)%Z
  | _ => False
  end.

(** The text between the braces of [stringify (JObj l)]. *)
Fixpoint membersText (l : list (jsstring * Json.json)) : list N :=
  match l with
  | [] => []
  | [(k, x)] => Json.quote k ++ 58%N :: Json.stringify x
  | (k, x) :: l' =>
      Json.quote k ++ 58%N :: Json.stringify x ++ 44%N :: membersText l'
  end.

(** Identity claims as Google returns them: strings, [email] and [name]
    being left out when the scope does not cover them. *)
Definition claim (s : jsstring) : Json.jsval := Json.JVal (Json.JStr s).

Definition optionalClaim (o : option jsstring) : Json.jsval :=
  match o with
  | Some s => Json.JVal (Json.JStr s)
  | None => Json.JUndefined
  end.

(** The users of a page response. *)
Definition pageUsers {User : Type} (r : People.Response User) : list User :=
  match r with
  | People.Page users _ => users
  | People.InternalError _ => []
  end.

(** The member [k] of an object. *)
Definition memberOf (k : jsstring) (v : Json.json) : option Json.json :=
  match v with
  | Json.JObj ms => Json.lookupLast k ms
  | _ => None
  end.

(** Whether the string [s] is listed in the array [v]. *)
Definition listsString (v : option Json.json) (s : jsstring) : Prop :=
  match v with
  | Some (Json.JArr items) => In (Json.JStr s) items
  | _ => False
  end.

(** No proper suffix of [p] is a prefix of [p]: two occurrences of [p] in a
    string cannot overlap. *)
Definition unbordered (p : jsstring) : bool :=
  forallb (fun k => negb (startsWith (skipn k p) p))
    (seq 1 (List.length p - 1)).

(* ================================================================== *)
(** * Concrete inputs                                                   *)
(* ================================================================== *)

(** Token requests and upstream tokens that differ in the fields under test. *)
Definition tokenParamsExample (g c r : option jsstring)
  : OAuthUtils.TokenExchangeParams :=
  OAuthUtils.mkTokenParams g c r (Some (js "client")) (Some (js "secret")) None.

Definition googleTokensExample (idt at_ : option jsstring) (e : option Z)
  : OAuthUtils.GoogleTokens :=
  OAuthUtils.mkGoogleTokens at_ idt None e (Some (js "Bearer")) None.

(** A resolver for paths on http://localhost:3000. *)
Definition localResolver (input base : jsstring) : result Logout.Url :=
  Ok (Logout.mkUrl (js "http://localhost:3000" ++ input) []).

(** A data store to run the handlers on: the names of the users, with
    actions that only search and add. *)
Module ExampleStore.

Import McpActions.

Definition Store := list jsstring.
Definition User := jsstring.
Definition userName (u : User) : jsstring := u.

Definition searchUsers (query : jsstring) (st : Store)
  : result (list User) * Store :=
  (Ok (filter (startsWith query) st), st).

Definition addUser (d : AddUserData) (st : Store) : result User * Store :=
  (Ok (add_name d), st ++ [add_name d]).

Definition updateUser (id : jsstring) (d : UpdateData) (st : Store)
  : result User * Store :=
  (Throw (Error (js "Error") (js "User with id " ++ id ++ js " not found")),
   st).

Definition deleteUser (id : jsstring) (st : Store) : result unit * Store :=
  (Throw (Error (js "Error") (js "User with id " ++ id ++ js " not found")),
   st).

Definition getUserById (id : jsstring) (st : Store)
  : result (option User) * Store :=
  (Ok None, st).

Definition isEmail (s : jsstring) : bool := includes (js "@") s.

End ExampleStore.

(** Concrete requests against the example store. *)
Module ExampleMcp.

Import Json McpActions McpRoute.
Local Open Scope Z_scope.

Definition ada : UserContext :=
  mkUserContext (JVal (JStr (js "108")))
    (Some (mkExtra (JVal (JStr (js "ada@example.com")))
             (JVal (JStr (js "Ada"))))).

(** A verifier that accepts the single token "good-token". *)
Definition verifier (request : Request) (token : jsstring)
  : result (option (option UserContext)) :=
  if jseq token (js "good-token") then Ok (Some (Some ada)) else Ok None.

Definition numLitTruthy (lit : jsstring) : bool := true.
Definition looseLess (v : json) (n : Z) : bool := false.

Definition authenticateMCPRequest :=
  McpRoute.authenticateMCPRequest ExampleStore.User numLitTruthy looseLess
    verifier.

Definition authenticateSession :=
  McpRoute.authenticateSession ExampleStore.User numLitTruthy looseLess.

Definition POST :=
  McpRoute.POST ExampleStore.userName ExampleStore.searchUsers
    ExampleStore.addUser ExampleStore.updateUser ExampleStore.deleteUser
    ExampleStore.getUserById ExampleStore.isEmail numLitTruthy looseLess
    verifier.

(** The cookie the callback sets at time 1700000000 for Ada: base64 of
    {"sub":"108","email":"ada@example.com","name":"Ada",
     "iat":1700000000,"exp":1700086400}. *)
Definition adaCookie : jsstring :=
  js "eyJzdWIiOiIxMDgiLCJlbWFpbCI6ImFkYUBleGFtcGxlLmNvbSIsIm5hbWUiOiJBZGEiLCJpYXQiOjE3MDAwMDAwMDAsImV4cCI6MTcwMDA4NjQwMH0=".

Definition call (toolName : jsstring) (args : json) : MCPRequest :=
  mkMCPRequest (Some (JNum 1)) (js "tools/call")
    (Some (mkMCPParams (Some (JStr toolName)) (Some args))).

Definition addBob : MCPRequest :=
  call (js "add_user")
    (JObj [ (js "name", JStr (js "Bob"));
            (js "email", JStr (js "bob@example.com"));
            (js "phoneNumber", JStr (js "0412345678")) ]).

Definition withCredentials (header cookie : option jsstring) : Request :=
  mkRequest header cookie (Ok addBob).

End ExampleMcp.

(** An environment with nothing configured but the Google client. *)
Module ExampleEnv.

Import UrlResolver.

Definition bare : Env :=
  mkEnv None None None None None None None None None None.

Definition configured : Env :=
  mkEnv None None None None None None None None
    (Some (js "client-1.apps.googleusercontent.com")) (Some (js "s3cret")).

Definition asciiOnly (s : jsstring) : jsstring := s.

End ExampleEnv.

(** Requests with a redirect URI that is on no allow-list. *)
Module ExampleOAuth.

Import OAuthUtils.

Definition evil : jsstring := js "https://evil.example/cb".

Definition clientId : jsstring := js "client-1.apps.googleusercontent.com".

Definition tokenRequest : Token.Request :=
  Token.mkRequest (Some (js "application/x-www-form-urlencoded")) None
    (Throw Json.SyntaxError)
    (Ok [ (js "grant_type", js "authorization_code");
          (js "code", js "4/0AbCd");
          (js "redirect_uri", evil);
          (js "client_id", clientId);
          (js "client_secret", js "s3cret") ]).

Definition tokenParams : TokenExchangeParams :=
  mkTokenParams (Some (js "authorization_code")) (Some (js "4/0AbCd"))
    (Some evil) (Some clientId) (Some (js "s3cret")) None.

Definition authorizeQuery : list (jsstring * jsstring) :=
  [ (js "response_type", js "code");
    (js "client_id", clientId);
    (js "redirect_uri", evil);
    (js "state", js "xyz") ].

(** An allow-list entry with two slashes added at its end. *)
Definition twoSlashes : jsstring :=
  js "http://localhost:3000/api/auth/callback/google//".

Definition twoSlashesQuery : list (jsstring * jsstring) :=
  [ (js "response_type", js "code");
    (js "client_id", clientId);
    (js "redirect_uri", twoSlashes) ].

Definition verifier (request : Token.Request) (token : jsstring)
  : result (option unit) := Ok None.

Definition fetchToken (form : TokenForm) : result FetchResponse :=
  Throw (Error (js "TypeError") (js "fetch failed")).

Definition isAbsoluteUrl (s : jsstring) : bool :=
  includes (js "://") s.

End ExampleOAuth.

(** Authorization requests for the configured client and for another one. *)
Module ExampleAuthorize.

Definition listed : jsstring :=
  js "http://127.0.0.1:3000/api/auth/callback/google/".

Definition goodQuery : list (jsstring * jsstring) :=
  [ (js "response_type", js "code");
    (js "client_id", ExampleOAuth.clientId);
    (js "redirect_uri", listed);
    (js "state", js "xyz");
    (js "code_challenge", js "E9Melhoa2OwvFrEMTJguCHaoeK1t8URWbuGJSstw-cM");
    (js "code_challenge_method", js "S256") ].


(** The parameters put on Google's URL for [goodQuery]. *)
Definition googleParams : list (jsstring * jsstring) :=
  [ (js "client_id", ExampleOAuth.clientId);
    (js "redirect_uri", js "http://localhost:3000/api/auth/callback/google");
    (js "response_type", js "code");
    (js "scope", js "openid profile email");
    (js "access_type", js "offline");
    (js "prompt", js "consent");
    (js "state", js "xyz");
    (js "code_challenge", js "E9Melhoa2OwvFrEMTJguCHaoeK1t8URWbuGJSstw-cM");
    (js "code_challenge_method", js "S256") ].

End ExampleAuthorize.

(** Token requests of the configured client, with an upstream that
    answers. *)
Module ExampleToken.

Import OAuthUtils.

Definition listed : jsstring :=
  js "http://localhost:3000/api/auth/callback/google".

Definition form : list (jsstring * jsstring) :=
  [ (js "grant_type", js "authorization_code");
    (js "code", js "4/0AbCd");
    (js "redirect_uri", listed);
    (js "client_id", ExampleOAuth.clientId);
    (js "client_secret", js "s3cret") ].

Definition request : Token.Request :=
  Token.mkRequest (Some (js "application/x-www-form-urlencoded")) None
    (Throw Json.SyntaxError) (Ok form).

(** The same request with the secret moved to a Basic header. *)
Definition basicRequest : Token.Request :=
  Token.mkRequest (Some (js "application/x-www-form-urlencoded"))
    (Some (js "Basic Y2xpZW50LTEuYXBwcy5nb29nbGV1c2VyY29udGVudC5jb206czNjcmV0"))
    (Throw Json.SyntaxError)
    (Ok [ (js "grant_type", js "authorization_code");
          (js "code", js "4/0AbCd");
          (js "redirect_uri", listed);
          (js "client_id", ExampleOAuth.clientId) ]).

Definition basicParams : TokenExchangeParams :=
  mkTokenParams (Some (js "authorization_code")) (Some (js "4/0AbCd"))
    (Some listed) (Some ExampleOAuth.clientId) (Some []) None.

Definition googleTokens : GoogleTokens :=
  mkGoogleTokens (Some (js "ya29.a")) (Some (js "id.jwt")) None
    (Some 3599%Z) (Some (js "Bearer")) None.

Definition fetchToken (f : TokenForm) : result FetchResponse :=
  Ok (mkFetchResponse true (Ok []) (Ok googleTokens)).

Definition verifier (request : Token.Request) (token : jsstring)
  : result (option unit) :=
  if jseq token (js "id.jwt") then Ok (Some tt) else Ok None.

Definition upstreamForm : TokenForm :=
  mkTokenForm ExampleOAuth.clientId (js "s3cret") (js "4/0AbCd")
    (js "authorization_code") listed.

End ExampleToken.

(** The people endpoint on the example store. *)
Module ExamplePeople.

Definition store : ExampleStore.Store :=
  [js "Ada"; js "Alan"; js "Alice"; js "Bob"; js "Grace"].

Definition inexactSlice (page pageSize : People.number)
  (l : list ExampleStore.User) : list ExampleStore.User := l.

Definition GET :=
  People.GET ExampleStore.searchUsers inexactSlice.

End ExamplePeople.

(** A sign-in at the callback: Google answers the exchange and the lookup,
    and the state is the one the login form made for the return path
    "/about". *)
Module ExampleCallback.

Import OAuthUtils Json Callback.

Definition fetchUser (l : Lookup) : result LookupResponse :=
  Ok (mkLookupResponse true
        (Ok (JObj [ (js "sub", JStr (js "108"));
                    (js "email", JStr (js "ada@example.com"));
                    (js "name", JStr (js "Ada")) ]))).

Definition resolve (v : json) : result Logout.Url :=
  match v with
  | JStr s => Ok (Logout.mkUrl (js "http://localhost:3000" ++ s) [])
  | _ => Throw TypeError
  end.

Definition loginState : jsstring :=
  js "eyJ0aW1lc3RhbXAiOjE3MDAwMDAwMDAwMDAsInJlZGlyZWN0IjoiaHR0cDovL2xvY2FsaG9zdDozMDAwL2F1dGgvc3VjY2VzcyIsInJldHVyblVybCI6Ii9hYm91dCJ9".

Definition request : Request :=
  mkRequest (Some (js "4/0AbCd")) (Some loginState) None None.

Definition GET :=
  Callback.GET ExampleMcp.numLitTruthy ExampleToken.fetchToken fetchUser
    resolve.

Definition cookie : Cookie :=
  mkCookie (js "oauth_session") ExampleMcp.adaCookie true false (js "lax")
    86400 (js "/").

End ExampleCallback.

(* ================================================================== *)
(** * Properties                                                       *)
(* ================================================================== *)

Unset Implicit Arguments.

(** ** Strings *)

Section StringFacts.

Lemma jseq_refl (a : jsstring) : jseq a a = true.
Proof.
  induction a as [|x a IH]; simpl; [reflexivity|].
  now rewrite N.eqb_refl, IH.
Qed.

Lemma jseq_eq (a b : jsstring) : jseq a b = true <-> a = b.
Proof.
  split.
  - revert b; induction a as [|x a IH]; intros [|y b] H; simpl in H;
      try discriminate; [reflexivity|].
    apply andb_true_iff in H as [Hx Hr].
    apply N.eqb_eq in Hx. f_equal; auto.
  - intros ->. apply jseq_refl.
Qed.

Lemma jseq_neq (a b : jsstring) : jseq a b = false <-> a <> b.
Proof.
  split.
  - intros H E. apply jseq_eq in E. congruence.
  - intros H. destruct (jseq a b) eqn:E; [|reflexivity].
    apply jseq_eq in E. contradiction.
Qed.

Lemma optEq_true (o : option jsstring) (lit : jsstring) :
  optEq o lit = true <-> o = Some lit.
Proof.
  destruct o as [s|]; simpl.
  - rewrite jseq_eq. split; congruence.
  - split; discriminate.
Qed.

Lemma optEq_false (o : option jsstring) (lit : jsstring) :
  optEq o lit = false <-> o <> Some lit.
Proof.
  rewrite <- optEq_true. destruct (optEq o lit); split; congruence.
Qed.

Lemma truthy_false (o : option jsstring) : truthy o = false <-> absent o.
Proof.
  unfold absent. destruct o as [[|c s]|]; simpl; split; intros H;
    try reflexivity; try discriminate; auto.
  destruct H; discriminate.
Qed.

Lemma truthy_true (o : option jsstring) : truthy o = true <-> ~ absent o.
Proof.
  rewrite <- truthy_false. destruct (truthy o); split; congruence.
Qed.


Lemma arrayIncludes_In (arr : list jsstring) (x : jsstring) :
  UrlResolver.arrayIncludes arr x = true <-> In x arr.
Proof.
  unfold UrlResolver.arrayIncludes. rewrite existsb_exists. split.
  - intros (a & Ha & E). apply jseq_eq in E. now subst.
  - intros H. exists x. split; [assumption | apply jseq_refl].
Qed.

End StringFacts.

(** ** Parameter validation and the token response (lib/oauth-utils.ts) *)

Section OAuthUtilsFacts.

Import OAuthUtils.

(** C7.  [validateTokenParams] fails fast, the first violated rule deciding
    the result whatever the later fields are: a [grant_type] other than
    "authorization_code" gives [unsupported_grant_type]; otherwise an absent
    [code] gives [invalid_request]; otherwise an absent [redirect_uri] gives
    [invalid_request]; otherwise the parameters are valid.  Absent means
    undefined or empty, as tested by [!x]. *)
Theorem validateTokenParams_fail_fast (p : TokenExchangeParams) :
  (grant_type p <> Some (js "authorization_code") ->
   validateTokenParams p =
   invalid (js "unsupported_grant_type")
           (js "Only authorization_code grant type is supported"))
  /\ (grant_type p = Some (js "authorization_code") -> absent (code p) ->
      validateTokenParams p =
      invalid (js "invalid_request") (js "Missing authorization code"))
  /\ (grant_type p = Some (js "authorization_code") -> ~ absent (code p) ->
      absent (redirect_uri p) ->
      validateTokenParams p =
      invalid (js "invalid_request") (js "Missing redirect_uri"))
  /\ (grant_type p = Some (js "authorization_code") -> ~ absent (code p) ->
      ~ absent (redirect_uri p) ->
      validateTokenParams p = valid).
Proof.
  unfold validateTokenParams.
  repeat split.
  - intros Hg. apply optEq_false in Hg. now rewrite Hg.
  - intros Hg Hc. apply optEq_true in Hg. apply truthy_false in Hc.
    now rewrite Hg, Hc.
  - intros Hg Hc Hr. apply optEq_true in Hg. apply truthy_true in Hc.
    apply truthy_false in Hr. now rewrite Hg, Hc, Hr.
  - intros Hg Hc Hr. apply optEq_true in Hg. apply truthy_true in Hc.
    apply truthy_true in Hr. now rewrite Hg, Hc, Hr.
Qed.

Lemma validateTokenParams_fail_fast_witness :
  validateTokenParams
    (tokenParamsExample (Some (js "password")) None None) =
  invalid (js "unsupported_grant_type")
          (js "Only authorization_code grant type is supported")
  /\ validateTokenParams
       (tokenParamsExample (Some (js "authorization_code")) (Some [])
          (Some (js "http://localhost:3000/api/auth/callback/google"))) =
     invalid (js "invalid_request") (js "Missing authorization code")
  /\ validateTokenParams
       (tokenParamsExample (Some (js "authorization_code"))
          (Some (js "4/0AbCd")) None) =
     invalid (js "invalid_request") (js "Missing redirect_uri")
  /\ validateTokenParams
       (tokenParamsExample (Some (js "authorization_code"))
          (Some (js "4/0AbCd"))
          (Some (js "http://localhost:3000/api/auth/callback/google"))) =
     valid.
Proof.
  split; [|split; [|split]].
  - apply (proj1 (validateTokenParams_fail_fast _)).
    simpl; discriminate.
  - apply (proj1 (proj2 (validateTokenParams_fail_fast _))).
    + reflexivity.
    + right; reflexivity.
  - apply (proj1 (proj2 (proj2 (validateTokenParams_fail_fast _)))).
    + reflexivity.
    + intros [H|H]; discriminate.
    + left; reflexivity.
  - apply (proj2 (proj2 (proj2 (validateTokenParams_fail_fast _)))).
    + reflexivity.
    + intros [H|H]; discriminate.
    + intros [H|H]; discriminate.
Defined.

(** C9.  In the response built from the upstream tokens, [access_token] is
    the upstream [id_token] when that is present and not empty, otherwise the
    upstream [access_token], otherwise the empty string; [token_type] is
    "Bearer"; [expires_in] is the upstream value when present and not zero,
    otherwise 3600. *)
Theorem buildTokenResponse_fields (g : GoogleTokens)
  (scope_ fallbackScope : option jsstring) :
  let r := buildTokenResponse g scope_ fallbackScope in
  (forall t, g_id_token g = Some t -> t <> [] -> access_token r = t)
  /\ (absent (g_id_token g) ->
      forall t, g_access_token g = Some t -> t <> [] -> access_token r = t)
  /\ (absent (g_id_token g) -> absent (g_access_token g) ->
      access_token r = [])
  /\ token_type r = js "Bearer"
  /\ (forall n, g_expires_in g = Some n -> n <> 0%Z ->
      expires_in r = Some n)
  /\ (g_expires_in g = None \/ g_expires_in g = Some 0%Z ->
      expires_in r = Some 3600%Z).
Proof.
  unfold buildTokenResponse; simpl.
  repeat split.
  - intros t Hi Ht. rewrite Hi. destruct t; [contradiction|reflexivity].
  - intros Hi t Ha Ht. apply truthy_false in Hi. rewrite Hi, Ha.
    destruct t; [contradiction|reflexivity].
  - intros Hi Ha. apply truthy_false in Hi. rewrite Hi.
    destruct Ha as [-> | ->]; reflexivity.
  - intros n Hn Hz. rewrite Hn. unfold numOrElse.
    apply Z.eqb_neq in Hz. now rewrite Hz.
  - intros [-> | ->]; reflexivity.
Qed.

Lemma buildTokenResponse_fields_witness :
  access_token
    (buildTokenResponse
       (googleTokensExample (Some (js "id.jwt")) (Some (js "ya29.a"))
          (Some 3599%Z)) None None) = js "id.jwt"
  /\ access_token
       (buildTokenResponse
          (googleTokensExample None (Some (js "ya29.a")) None) None None) =
     js "ya29.a"
  /\ access_token
       (buildTokenResponse (googleTokensExample (Some []) None None)
          None None) = []
  /\ expires_in
       (buildTokenResponse
          (googleTokensExample (Some (js "id.jwt")) None (Some 3599%Z))
          None None) = Some 3599%Z
  /\ expires_in
       (buildTokenResponse
          (googleTokensExample (Some (js "id.jwt")) None (Some 0%Z))
          None None) = Some 3600%Z.
Proof.
  split; [|split; [|split; [|split]]].
  - apply (proj1 (buildTokenResponse_fields _ None None)).
    + reflexivity.
    + discriminate.
  - apply (proj1 (proj2 (buildTokenResponse_fields _ None None))).
    + left; reflexivity.
    + reflexivity.
    + discriminate.
  - apply (proj1 (proj2 (proj2 (buildTokenResponse_fields _ None None)))).
    + right; reflexivity.
    + left; reflexivity.
  - apply (proj1 (proj2 (proj2 (proj2 (proj2
             (buildTokenResponse_fields _ None None)))))).
    + reflexivity.
    + discriminate.
  - apply (proj2 (proj2 (proj2 (proj2 (proj2
             (buildTokenResponse_fields _ None None)))))).
    right; reflexivity.
Defined.

End OAuthUtilsFacts.

(** ** Logout (src/app/api/auth/logout/route.ts) *)

Section LogoutFacts.

Import Logout.

(** The response of a logout by POST is the success JSON and tells the
    client to discard the [oauth_session] cookie. *)
Lemma logout_POST_discards_session :
  body POST = Json true (js "Logged out successfully")
  /\ In (js "oauth_session") (deletedCookies POST).
Proof. split; [reflexivity | left; reflexivity]. Qed.

(** C8, at the request it fails on.  When the redirect target resolves, the
    response [GET] returns is the second redirect, built after the cookie
    was deleted on the first one: it redirects to the target with
    [logout=success] and carries no cookie deletion. *)
Theorem logout_GET_returns_fresh_redirect
  (newURL : jsstring -> jsstring -> result Url)
  (requestUrl : jsstring) (redirectParam : option jsstring) (target : Url) :
  newURL (orElse redirectParam (js "/auth/login")) requestUrl = Ok target ->
  exists finalUrl,
    GET newURL requestUrl redirectParam = Ok (redirect finalUrl)
    /\ location finalUrl = location target
    /\ deletedCookies (redirect finalUrl) = [].
Proof.
  intros H. unfold GET. rewrite H. simpl.
  destruct (has (js "logout") target); simpl;
    eexists; (split; [reflexivity|]); split; reflexivity.
Qed.

Lemma logout_GET_returns_fresh_redirect_witness :
  exists finalUrl,
    GET localResolver (js "http://localhost:3000/api/auth/logout") None =
    Ok (redirect finalUrl)
    /\ location finalUrl = js "http://localhost:3000/auth/login"
    /\ deletedCookies (redirect finalUrl) = [].
Proof.
  apply (logout_GET_returns_fresh_redirect localResolver
           (js "http://localhost:3000/api/auth/logout") None
           (mkUrl (js "http://localhost:3000/auth/login") [])).
  reflexivity.
Defined.

(** Only the fallback of [GET], taken when the target does not resolve,
    returns the response the cookie was deleted on. *)
Lemma logout_GET_fallback_discards_session
  (newURL : jsstring -> jsstring -> result Url)
  (requestUrl : jsstring) (redirectParam : option jsstring) (e : exn)
  (login : Url) :
  newURL (orElse redirectParam (js "/auth/login")) requestUrl = Throw e ->
  newURL (js "/auth/login") requestUrl = Ok login ->
  GET newURL requestUrl redirectParam =
  Ok (mkResponse (RedirectTo login) 307 [js "oauth_session"]).
Proof.
  intros H1 H2. unfold GET. rewrite H1. simpl. rewrite H2. reflexivity.
Qed.

End LogoutFacts.

(** ** The tool dispatcher (src/app/actions/mcp-actions.ts) *)

Section McpActionsFacts.

Import Json McpActions.

Variable Store : Type.
Variable User : Type.
Variable userName : User -> jsstring.
Variable searchUsers : jsstring -> Store -> result (list User) * Store.
Variable addUser : AddUserData -> Store -> result User * Store.
Variable updateUser : jsstring -> UpdateData -> Store -> result User * Store.
Variable deleteUser : jsstring -> Store -> result unit * Store.
Variable getUserById : jsstring -> Store -> result (option User) * Store.
Variable isEmail : jsstring -> bool.

Local Abbreviation toolSwitch :=
  (toolSwitch userName searchUsers addUser updateUser deleteUser getUserById
     isEmail).
Local Abbreviation handleMCPTool :=
  (handleMCPTool userName searchUsers addUser updateUser deleteUser
     getUserById isEmail).

Lemma onError_fails (e : exn) (st : Store) :
  exists out, onError User e st = (Ok out, st) /\ success out = false.
Proof. destruct e; simpl; eexists; split; reflexivity. Qed.


(** When the schema of a tool rejects the arguments the [try] block throws
    before any action has run. *)
Lemma toolSwitch_schema_rejects (args : json) (user : option UserContext)
  (st : Store) (e : exn) :
  (searchUsersSchema args = Throw e ->
   toolSwitch (js "search_users") args user st = (Throw e, st))
  /\ (addUserSchema isEmail args = Throw e ->
      toolSwitch (js "add_user") args user st = (Throw e, st))
  /\ (updateUserSchema isEmail args = Throw e ->
      toolSwitch (js "update_user") args user st = (Throw e, st))
  /\ (deleteUserSchema args = Throw e ->
      toolSwitch (js "delete_user") args user st = (Throw e, st))
  /\ (getUserByIdSchema args = Throw e ->
      toolSwitch (js "get_user_by_id") args user st = (Throw e, st)).
Proof.
  repeat split; intros H; unfold McpActions.toolSwitch;
    cbn [jseq js map list_ascii_of_string]; simpl jseq; cbv iota;
    unfold bindM, lift; rewrite H; reflexivity.
Qed.


End McpActionsFacts.


(** ** The MCP endpoint (src/app/api/mcp/route.ts) *)

Section McpRouteFacts.

Import Json McpActions McpRoute.
Local Open Scope Z_scope.

Variable Store : Type.
Variable User : Type.
Variable userName : User -> jsstring.
Variable searchUsers : jsstring -> Store -> result (list User) * Store.
Variable addUser : AddUserData -> Store -> result User * Store.
Variable updateUser : jsstring -> UpdateData -> Store -> result User * Store.
Variable deleteUser : jsstring -> Store -> result unit * Store.
Variable getUserById : jsstring -> Store -> result (option User) * Store.
Variable isEmail : jsstring -> bool.
Variable numLitTruthy : jsstring -> bool.
Variable looseLess : json -> Z -> bool.
Variable verifyGoogleToken :
  Request -> jsstring -> result (option (option UserContext)).

Local Abbreviation authenticateSession :=
  (authenticateSession User numLitTruthy looseLess).
Local Abbreviation authenticateMCPRequest :=
  (authenticateMCPRequest User numLitTruthy looseLess verifyGoogleToken).
Local Abbreviation POST :=
  (POST userName searchUsers addUser updateUser deleteUser getUserById
     isEmail numLitTruthy looseLess verifyGoogleToken).

(** The policy is decided by exclusion: every name but the two public ones
    requires authentication. *)
Lemma requiresAuthentication_spec (m : jsstring) :
  requiresAuthentication m = true <->
  m <> js "initialize" /\ m <> js "tools/list".
Proof.
  unfold requiresAuthentication. rewrite negb_true_iff.
  rewrite <- not_true_iff_false, arrayIncludes_In.
  unfold In. intuition congruence.
Qed.

(** C2.  A POST whose method is neither "initialize" nor "tools/list", known
    to the server or not, and that carries no Authorization header and no
    session cookie, is answered with the JSON-RPC error -32603 under HTTP
    401 (with id null and a WWW-Authenticate challenge), and the data store
    is left as it was, whatever the store actions would do. *)
Theorem POST_without_credentials_unauthorized
  (request : Request) (body_ : MCPRequest) (now : Z) (st : Store) :
  body request = Ok body_ ->
  method body_ <> js "initialize" ->
  method body_ <> js "tools/list" ->
  authorization request = None ->
  sessionCookie request = None ->
  POST request now st =
  (Ok (RpcError User None (-32603)
         (js "Unauthorized - Missing authorization header or session cookie")
         None 401 true),
   st).
Proof.
  intros Hb Hi Hl Ha Hc. unfold McpRoute.POST. rewrite Hb.
  assert (Hr : requiresAuthentication (method body_) = true)
    by (apply requiresAuthentication_spec; split; assumption).
  rewrite Hr. unfold McpRoute.authenticateMCPRequest. rewrite Ha.
  unfold McpRoute.authenticateSession. rewrite Hc. reflexivity.
Qed.


End McpRouteFacts.

Lemma adaCookie_issued :
  Session.sessionToken (Json.JVal (Json.JStr (js "108")))
    (Json.JVal (Json.JStr (js "ada@example.com")))
    (Json.JVal (Json.JStr (js "Ada"))) 1700000000 =
  Ok ExampleMcp.adaCookie.
Proof. vm_compute. reflexivity. Qed.

Lemma POST_without_credentials_unauthorized_witness :
  ExampleMcp.POST (McpRoute.mkRequest None None (Ok ExampleMcp.addBob))
    1700000100 [js "Ada"] =
  (Ok (McpRoute.RpcError ExampleStore.User None (-32603)
         (js "Unauthorized - Missing authorization header or session cookie")
         None 401 true),
   [js "Ada"])
  /\ ExampleMcp.POST
       (McpRoute.mkRequest None None
          (Ok (McpRoute.mkMCPRequest (Some (Json.JNum 2))
                 (js "resources/list") None)))
       1700000100 [js "Ada"] =
     (Ok (McpRoute.RpcError ExampleStore.User None (-32603)
            (js "Unauthorized - Missing authorization header or session cookie")
            None 401 true),
      [js "Ada"]).
Proof.
  split.
  - apply (POST_without_credentials_unauthorized ExampleStore.Store
             ExampleStore.User ExampleStore.userName ExampleStore.searchUsers
             ExampleStore.addUser ExampleStore.updateUser
             ExampleStore.deleteUser ExampleStore.getUserById
             ExampleStore.isEmail ExampleMcp.numLitTruthy
             ExampleMcp.looseLess ExampleMcp.verifier
             (McpRoute.mkRequest None None (Ok ExampleMcp.addBob))
             ExampleMcp.addBob);
      [reflexivity | discriminate | discriminate | reflexivity | reflexivity].
  - apply (POST_without_credentials_unauthorized ExampleStore.Store
             ExampleStore.User ExampleStore.userName ExampleStore.searchUsers
             ExampleStore.addUser ExampleStore.updateUser
             ExampleStore.deleteUser ExampleStore.getUserById
             ExampleStore.isEmail ExampleMcp.numLitTruthy
             ExampleMcp.looseLess ExampleMcp.verifier
             (McpRoute.mkRequest None None
                (Ok (McpRoute.mkMCPRequest (Some (Json.JNum 2))
                       (js "resources/list") None)))
             (McpRoute.mkMCPRequest (Some (Json.JNum 2))
                (js "resources/list") None));
      [reflexivity | discriminate | discriminate | reflexivity | reflexivity].
Defined.



(** ** The redirect-URI allow-list (src/lib/url-resolver.ts) *)

Section RedirectFacts.

Import UrlResolver.

Lemma startsWith_app (p s t : jsstring) :
  startsWith p s = true -> startsWith p (s ++ t) = true.
Proof.
  revert s; induction p as [|x p IH]; intros [|y s] H; simpl in *;
    try reflexivity; try discriminate.
  apply andb_true_iff in H as [Hx Hs]. rewrite Hx. simpl. now apply IH.
Qed.

(** Appending a unit that does not occur in the pattern does not create a
    match at the start. *)
Lemma startsWith_snoc (p s : jsstring) (c : N) :
  p <> [] -> ~ In c p ->
  startsWith p (s ++ [c]) = startsWith p s.
Proof.
  revert s; induction p as [|x p IH]; intros s Hne Hin; [contradiction|].
  destruct s as [|y s]; simpl.
  - destruct (N.eqb_spec x c) as [->|_]; [|reflexivity].
    exfalso; apply Hin; now left.
  - destruct (N.eqb x y); simpl; [|reflexivity].
    destruct p as [|x' p'].
    + now destruct s.
    + apply IH; [discriminate|]. intros H; apply Hin; now right.
Qed.

Lemma startsWith_length (p s : jsstring) :
  startsWith p s = true -> List.length p <= List.length s.
Proof.
  revert s; induction p as [|x p IH]; intros [|y s] H; simpl in *;
    try discriminate; try lia.
  apply andb_true_iff in H as [_ Hs]. apply IH in Hs. lia.
Qed.

Lemma replaceFirst_snoc (p r s : jsstring) (c : N) :
  p <> [] -> ~ In c p ->
  replaceFirst p r (s ++ [c]) = replaceFirst p r s ++ [c].
Proof.
  intros Hne Hin. induction s as [|y s IH].
  - destruct p as [|x p]; [contradiction|]. simpl.
    destruct (N.eqb_spec x c) as [->|_].
    + exfalso; apply Hin; now left.
    + reflexivity.
  - cbn [app]. unfold replaceFirst; fold replaceFirst.
    change (y :: s ++ [c]) with ((y :: s) ++ [c]).
    rewrite (startsWith_snoc p (y :: s) c Hne Hin).
    destruct (startsWith p (y :: s)) eqn:E.
    + apply startsWith_length in E.
      rewrite skipn_app.
      replace (List.length p - List.length (y :: s)) with 0%nat by lia.
      simpl skipn at 2. now rewrite app_assoc.
    + cbn [app]. now rewrite IH.
Qed.

Lemma includes_false_startsWith (p s : jsstring) :
  includes p s = false -> startsWith p s = false.
Proof.
  destruct s; simpl; intros H; now apply orb_false_iff in H.
Qed.

(** Without an occurrence there is nothing to replace. *)
Lemma replaceFirst_absent (p r s : jsstring) :
  includes p s = false -> replaceFirst p r s = s.
Proof.
  induction s as [|c s IH]; intros H.
  - unfold replaceFirst. now rewrite (includes_false_startsWith _ _ H).
  - unfold replaceFirst; fold replaceFirst.
    rewrite (includes_false_startsWith _ _ H).
    simpl in H. apply orb_false_iff in H as [_ H]. now rewrite IH.
Qed.

Lemma stripTrailingSlash_snoc (s : jsstring) :
  stripTrailingSlash (s ++ [47%N]) = s.
Proof.
  induction s as [|c s IH]; [reflexivity|].
  destruct s as [|d s]; [reflexivity|].
  cbn [app] in *.
  change (stripTrailingSlash (c :: d :: s ++ [47%N]))
    with (c :: stripTrailingSlash (d :: s ++ [47%N])).
  now rewrite IH.
Qed.

Lemma stripTrailingSlash_id (s : jsstring) :
  endsWithSlash s = false -> stripTrailingSlash s = s.
Proof.
  unfold endsWithSlash.
  induction s as [|c s IH]; [reflexivity|].
  destruct s as [|d s].
  - simpl. intros ->. reflexivity.
  - intros H. cbn [stripTrailingSlash]. f_equal. apply IH. exact H.
Qed.

Lemma last_app_cons (a b : jsstring) (c d : N) :
  last (a ++ c :: b) d = last (c :: b) d.
Proof.
  induction a as [|x a IH]; [reflexivity|].
  cbn [app]. remember (a ++ c :: b) as t eqn:E.
  destruct t; [destruct a; discriminate | exact IH].
Qed.

Lemma last_skipn (s : jsstring) (n : nat) (d : N) :
  n < List.length s -> last (skipn n s) d = last s d.
Proof.
  revert n; induction s as [|c s IH]; intros n H; simpl in H; [lia|].
  destruct n as [|n]; [reflexivity|].
  cbn [skipn]. rewrite IH by lia.
  destruct s; [simpl in H; lia | reflexivity].
Qed.

(** Replacing 127.0.0.1 by localhost does not make a URI end with a slash. *)
Lemma replaceFirst_keeps_end (s : jsstring) :
  endsWithSlash s = false ->
  endsWithSlash (replaceFirst (js "127.0.0.1") (js "localhost") s) = false.
Proof.
  unfold endsWithSlash.
  induction s as [|c s IH]; intros H; [reflexivity|].
  unfold replaceFirst; fold replaceFirst.
  destruct (startsWith (js "127.0.0.1") (c :: s)) eqn:E.
  - pose proof (startsWith_length _ _ E) as Hlen.
    destruct (skipn (List.length (js "127.0.0.1")) (c :: s)) eqn:Es.
    + reflexivity.
    + rewrite last_app_cons. rewrite <- Es.
      rewrite last_skipn; [exact H|].
      assert (List.length (skipn (List.length (js "127.0.0.1")) (c :: s)) > 0)
        by (rewrite Es; simpl; lia).
      rewrite length_skipn in H0. lia.
  - destruct s as [|d s].
    + simpl. exact H.
    + specialize (IH H).
      destruct (replaceFirst (js "127.0.0.1") (js "localhost") (d :: s)) eqn:Er.
      * exfalso. unfold replaceFirst in Er; fold replaceFirst in Er.
        destruct (startsWith (js "127.0.0.1") (d :: s)); discriminate.
      * exact IH.
Qed.

Lemma normalizeInline_trailing_slash (uri : jsstring) :
  endsWithSlash uri = false ->
  normalizeInline (uri ++ js "/") = normalizeInline uri.
Proof.
  intros H. unfold normalizeInline.
  change (js "/") with [47%N].
  rewrite replaceFirst_snoc.
  - rewrite stripTrailingSlash_snoc.
    symmetry. apply stripTrailingSlash_id. now apply replaceFirst_keeps_end.
  - discriminate.
  - vm_compute. intuition discriminate.
Qed.

Lemma normalizeInline_alias (uri : jsstring) :
  includes (js "127.0.0.1")
    (replaceFirst (js "127.0.0.1") (js "localhost") uri) = false ->
  normalizeInline (replaceFirst (js "127.0.0.1") (js "localhost") uri) =
  normalizeInline uri.
Proof.
  intros H. unfold normalizeInline. now rewrite (replaceFirst_absent _ _ _ H).
Qed.

Lemma isAllowedRedirectUri_iff (env : Env) (uri : jsstring) :
  isAllowedRedirectUri env uri = true <->
  exists x, In x (allowedRedirects env)
            /\ normalizeInline uri = normalizeInline x.
Proof.
  unfold isAllowedRedirectUri. rewrite arrayIncludes_In, in_map_iff.
  split; intros (x & H1 & H2); exists x; auto.
Qed.

Lemma isAllowedRedirectUri_normalized (env : Env) (u v : jsstring) :
  normalizeInline u = normalizeInline v ->
  isAllowedRedirectUri env u = isAllowedRedirectUri env v.
Proof. unfold isAllowedRedirectUri. now intros ->. Qed.

(** C4, as the code has it.  [isAllowedRedirectUri] compares after the
    normalisation written inside it, which replaces the first 127.0.0.1 by
    localhost and drops one trailing slash but does not fold case: the URI
    is allowed exactly when its normal form is the normal form of an entry
    of the allow-list; so the result does not change when a slash is added
    at the end of a URI that has none, nor when the first 127.0.0.1 is
    replaced by localhost (no other 127.0.0.1 being left). *)
Theorem isAllowedRedirectUri_characterised (env : Env) (uri : jsstring) :
  (isAllowedRedirectUri env uri = true <->
   exists x, In x (allowedRedirects env)
             /\ normalizeInline uri = normalizeInline x)
  /\ (endsWithSlash uri = false ->
      isAllowedRedirectUri env (uri ++ js "/") =
      isAllowedRedirectUri env uri)
  /\ (includes (js "127.0.0.1")
        (replaceFirst (js "127.0.0.1") (js "localhost") uri) = false ->
      isAllowedRedirectUri env
        (replaceFirst (js "127.0.0.1") (js "localhost") uri) =
      isAllowedRedirectUri env uri).
Proof.
  split; [apply isAllowedRedirectUri_iff | split].
  - intros H. apply isAllowedRedirectUri_normalized.
    now apply normalizeInline_trailing_slash.
  - intros H. apply isAllowedRedirectUri_normalized.
    now apply normalizeInline_alias.
Qed.

End RedirectFacts.

(** C4 as stated fails on letter case: a URI that differs from an entry of
    the allow-list only in the case of its host has the same
    [normalizeRedirectUri] form as that entry, and is not allowed. *)
Lemma isAllowedRedirectUri_case_sensitive :
  In (js "http://localhost:3000/api/auth/callback/google")
    (UrlResolver.allowedRedirects ExampleEnv.bare)
  /\ OAuthUtils.normalizeRedirectUri ExampleEnv.asciiOnly
       (js "http://LocalHost:3000/api/auth/callback/google") =
     OAuthUtils.normalizeRedirectUri ExampleEnv.asciiOnly
       (js "http://localhost:3000/api/auth/callback/google")
  /\ UrlResolver.isAllowedRedirectUri ExampleEnv.bare
       (js "http://localhost:3000/api/auth/callback/google") = true
  /\ UrlResolver.isAllowedRedirectUri ExampleEnv.bare
       (js "http://LocalHost:3000/api/auth/callback/google") = false.
Proof.
  split; [right; left; reflexivity|].
  split; [|split]; vm_compute; reflexivity.
Qed.

Lemma isAllowedRedirectUri_characterised_witness :
  UrlResolver.isAllowedRedirectUri ExampleEnv.bare
    (js "http://127.0.0.1:3000/api/auth/callback/google" ++ js "/") =
  UrlResolver.isAllowedRedirectUri ExampleEnv.bare
    (js "http://127.0.0.1:3000/api/auth/callback/google")
  /\ UrlResolver.isAllowedRedirectUri ExampleEnv.bare
       (replaceFirst (js "127.0.0.1") (js "localhost")
          (js "http://127.0.0.1:3000/api/auth/callback/google")) =
     UrlResolver.isAllowedRedirectUri ExampleEnv.bare
       (js "http://127.0.0.1:3000/api/auth/callback/google").
Proof.
  split.
  - apply (proj1 (proj2 (isAllowedRedirectUri_characterised ExampleEnv.bare
             (js "http://127.0.0.1:3000/api/auth/callback/google")))).
    vm_compute; reflexivity.
  - apply (proj2 (proj2 (isAllowedRedirectUri_characterised ExampleEnv.bare
             (js "http://127.0.0.1:3000/api/auth/callback/google")))).
    vm_compute; reflexivity.
Defined.

(** ** The redirect-URI check of the two endpoints *)

Section EndpointFacts.

Import UrlResolver OAuthUtils.

Variable UserInfo : Type.
Variable verifyGoogleToken :
  Token.Request -> jsstring -> result (option UserInfo).
Variable fetchToken : TokenForm -> result FetchResponse.
Variable unicodeLower : jsstring -> jsstring.
Variable isAbsoluteUrl : jsstring -> bool.

Lemma notListed_rejected (env : Env) (uri : jsstring) :
  notListed env uri -> isAllowedRedirectUri env uri = false.
Proof.
  intros H. apply not_true_iff_false. intros A.
  apply isAllowedRedirectUri_iff in A as (x & Hx & E).
  exact (H x Hx E).
Qed.

(** At the token endpoint the check is at least as strict as a comparison
    of [normalizeRedirectUri] forms: a URI whose form is that of no entry is
    not listed. *)
Lemma unlisted_after_case_folding (env : Env) (uri : jsstring) :
  (forall x, In x (allowedRedirects env) ->
             normalizeRedirectUri unicodeLower uri <>
             normalizeRedirectUri unicodeLower x) ->
  notListed env uri.
Proof.
  intros H x Hx E. apply (H x Hx).
  unfold normalizeRedirectUri. unfold normalizeInline in E. now rewrite E.
Qed.

(** C6, as the code has it.  When everything else is in order (the
    parameters validate, the client identifier is the configured one and, at
    the token endpoint, the presented secret is the configured one) and the
    redirect URI, normalised the way the endpoint does it, is the normal
    form of no allow-list entry, both endpoints answer [invalid_request]:
    the token endpoint, which applies the normalisation of
    [isAllowedRedirectUri], without having sent anything upstream; the
    authorization endpoint, which applies [normalizeRedirectUri] and then
    the normalisation of [isAllowedRedirectUri], with a JSON error instead
    of the redirect to Google. *)
Theorem disallowed_redirect_uri_rejected (env : Env) (cid : jsstring) :
  GOOGLE_CLIENT_ID env = Some cid -> cid <> [] ->
  (forall request params sec,
     GOOGLE_CLIENT_SECRET env = Some sec -> sec <> [] ->
     Token.parseBody request = Ok params ->
     isValid (validateTokenParams params) = true ->
     client_id params = Some cid ->
     Token.presentedSecret request params cid = Some sec ->
     notListed env (orElse (redirect_uri params) []) ->
     Token.POST verifyGoogleToken fetchToken env request =
     (JsonError (js "invalid_request") (js "Invalid redirect_uri") 400, []))
  /\ (forall query,
        isValid (validateAuthParams (Authorize.authParamsOf query)) = true ->
        Authorize.getParam (js "client_id") query = Some cid ->
        notListed env
          (normalizeRedirectUri unicodeLower
             (orElse (Authorize.getParam (js "redirect_uri") query) [])) ->
        Authorize.GET unicodeLower isAbsoluteUrl env query =
        JsonError (js "invalid_request") (js "Invalid redirect_uri") 400).
Proof.
  intros Hcid Hne. split.
  - intros request params sec Hsec Hsne Hbody Hvalid Hclient Hpresented Hnl.
    unfold Token.POST. rewrite Hbody, Hvalid, Hcid, Hsec. cbn [negb].
    destruct cid as [|c cid']; [contradiction|].
    destruct sec as [|s sec']; [contradiction|].
    cbn [truthy nonEmpty negb orb orElse].
    rewrite Hclient. cbn [optEq]. rewrite jseq_refl. cbn [negb].
    rewrite Hpresented. cbn [truthy nonEmpty negb orb optEq].
    rewrite jseq_refl. cbn [negb].
    rewrite (notListed_rejected _ _ Hnl). reflexivity.
  - intros query Hvalid Hclient Hnl.
    unfold Authorize.GET. rewrite Hvalid, Hcid. cbn [negb].
    destruct cid as [|c cid']; [contradiction|].
    cbn [truthy nonEmpty negb orb orElse].
    unfold Authorize.authParamsOf at 1. cbn [auth_client_id].
    rewrite Hclient. cbn [orElse nonEmpty optEq]. rewrite jseq_refl.
    cbn [negb].
    unfold Authorize.authParamsOf at 1. cbn [auth_redirect_uri].
    replace (orElse (Some (orElse (Authorize.getParam (js "redirect_uri") query) [])) [])
      with (orElse (Authorize.getParam (js "redirect_uri") query) [])
      by (destruct (Authorize.getParam (js "redirect_uri") query) as [[|? ?]|];
          reflexivity).
    rewrite (notListed_rejected _ _ Hnl). reflexivity.
Qed.

End EndpointFacts.

Lemma evil_notListed :
  notListed ExampleEnv.configured ExampleOAuth.evil.
Proof.
  intros x Hx. simpl in Hx.
  repeat (destruct Hx as [Hx|Hx]; [subst x; vm_compute; discriminate|]).
  contradiction.
Qed.

(** C6 as stated fails at the authorization endpoint, which normalises
    twice: the entry followed by two slashes has the [normalizeRedirectUri]
    form of no allow-list entry, and the request is redirected to Google. *)
Lemma authorize_accepts_second_slash :
  existsb
    (fun x =>
       jseq (OAuthUtils.normalizeRedirectUri ExampleEnv.asciiOnly x)
         (OAuthUtils.normalizeRedirectUri ExampleEnv.asciiOnly
            ExampleOAuth.twoSlashes))
    (UrlResolver.allowedRedirects ExampleEnv.configured) = false
  /\ OAuthUtils.isValid
       (OAuthUtils.validateAuthParams
          (Authorize.authParamsOf ExampleOAuth.twoSlashesQuery)) = true
  /\ redirectsToGoogle
       (Authorize.GET ExampleEnv.asciiOnly ExampleOAuth.isAbsoluteUrl
          ExampleEnv.configured ExampleOAuth.twoSlashesQuery) = true.
Proof. split; [|split]; vm_compute; reflexivity. Qed.

Lemma disallowed_redirect_uri_rejected_witness :
  Token.POST ExampleOAuth.verifier ExampleOAuth.fetchToken
    ExampleEnv.configured ExampleOAuth.tokenRequest =
  (OAuthUtils.JsonError (js "invalid_request") (js "Invalid redirect_uri")
     400, [])
  /\ Authorize.GET ExampleEnv.asciiOnly ExampleOAuth.isAbsoluteUrl
       ExampleEnv.configured ExampleOAuth.authorizeQuery =
     OAuthUtils.JsonError (js "invalid_request") (js "Invalid redirect_uri")
       400.
Proof.
  split.
  - apply (proj1 (disallowed_redirect_uri_rejected unit
             ExampleOAuth.verifier ExampleOAuth.fetchToken
             ExampleEnv.asciiOnly ExampleOAuth.isAbsoluteUrl
             ExampleEnv.configured ExampleOAuth.clientId
             eq_refl ltac:(discriminate))
             ExampleOAuth.tokenRequest ExampleOAuth.tokenParams
             (js "s3cret")).
    + reflexivity.
    + discriminate.
    + reflexivity.
    + reflexivity.
    + reflexivity.
    + reflexivity.
    + exact evil_notListed.
  - apply (proj2 (disallowed_redirect_uri_rejected unit
             ExampleOAuth.verifier ExampleOAuth.fetchToken
             ExampleEnv.asciiOnly ExampleOAuth.isAbsoluteUrl
             ExampleEnv.configured ExampleOAuth.clientId
             eq_refl ltac:(discriminate))
             ExampleOAuth.authorizeQuery).
    + reflexivity.
    + reflexivity.
    + exact evil_notListed.
Defined.

(** ** [atob] undoes [btoa] *)

Section Base64Facts.

Import Base64.
Local Open Scope N_scope.

Ltac div_mod_lia := zify; Z.to_euclidean_division_equations; lia.

(** A boolean property checked on 0 .. k-1 holds below k. *)
Lemma below_forallb (P : N -> bool) (k : nat) :
  forallb P (map N.of_nat (seq 0 k)) = true ->
  forall n, n < N.of_nat k -> P n = true.
Proof.
  intros H n Hn. rewrite forallb_forall in H. apply H.
  apply in_map_iff. exists (N.to_nat n). split.
  - apply N2Nat.id.
  - apply in_seq. lia.
Qed.

Lemma dec6_enc6 (n : N) : n < 64 -> dec6 (enc6 n) = Some n.
Proof.
  intros H.
  pose proof (below_forallb
    (fun n => match dec6 (enc6 n) with Some m => n =? m | None => false end)
    64 eq_refl n H) as E.
  cbv beta in E. destruct (dec6 (enc6 n)); [|discriminate].
  apply N.eqb_eq in E. now subst.
Qed.

Lemma enc6_plain (n : N) :
  n < 64 -> isAsciiWhitespace (enc6 n) = false /\ (enc6 n =? 61) = false.
Proof.
  intros H.
  pose proof (below_forallb
    (fun n => negb (isAsciiWhitespace (enc6 n)) && negb (enc6 n =? 61))
    64 eq_refl n H) as E.
  cbv beta in E. apply andb_true_iff in E as [E1 E2].
  now rewrite negb_true_iff in E1, E2.
Qed.

(** Induction on a list, three elements at a time. *)
Lemma list_ind3 (A : Type) (P : list A -> Prop) :
  P [] -> (forall a, P [a]) -> (forall a b, P [a; b]) ->
  (forall a b c r, P r -> P (a :: b :: c :: r)) ->
  forall l, P l.
Proof.
  intros H0 H1 H2 H3.
  refine (fix F l :=
            match l with
            | [] => H0
            | [a] => H1 a
            | [a; b] => H2 a b
            | a :: b :: c :: r => H3 a b c r (F r)
            end).
Qed.

Lemma toSextets_below (s : list N) :
  Forall (fun c => c < 256) s -> Forall (fun v => v < 64) (toSextets s).
Proof.
  induction s as [|a|a b|a b c r IH] using list_ind3; intros H.
  - constructor.
  - inversion_clear H as [|? ? Ha _]. simpl.
    repeat constructor; div_mod_lia.
  - inversion_clear H as [|? ? Ha H']. inversion_clear H' as [|? ? Hb _].
    simpl. repeat constructor; div_mod_lia.
  - inversion_clear H as [|? ? Ha H']. inversion_clear H' as [|? ? Hb H''].
    inversion_clear H'' as [|? ? Hc Hr].
    cbn [toSextets]. repeat (constructor; [div_mod_lia|]). now apply IH.
Qed.

Lemma fromSextets_toSextets (s : list N) :
  Forall (fun c => c < 256) s -> fromSextets (toSextets s) = s.
Proof.
  induction s as [|a|a b|a b c r IH] using list_ind3; intros H.
  - reflexivity.
  - inversion_clear H as [|? ? Ha _]. simpl. f_equal. div_mod_lia.
  - inversion_clear H as [|? ? Ha H']. inversion_clear H' as [|? ? Hb _].
    simpl. f_equal; [|f_equal]; div_mod_lia.
  - inversion_clear H as [|? ? Ha H']. inversion_clear H' as [|? ? Hb H''].
    inversion_clear H'' as [|? ? Hc Hr].
    cbn [toSextets fromSextets]. rewrite (IH Hr).
    f_equal; [|f_equal; [|f_equal]]; div_mod_lia.
Qed.

Lemma decodeAll_enc6 (v : list N) :
  Forall (fun x => x < 64) v -> decodeAll (map enc6 v) = Some v.
Proof.
  induction 1 as [|x v Hx _ IH]; [reflexivity|].
  simpl. now rewrite (dec6_enc6 x Hx), IH.
Qed.

Lemma filter_enc6 (v pad : list N) :
  Forall (fun x => x < 64) v -> Forall (fun c => c = 61) pad ->
  filter (fun c => negb (isAsciiWhitespace c)) (map enc6 v ++ pad) =
  map enc6 v ++ pad.
Proof.
  intros Hv Hp. induction Hv as [|x v Hx _ IH]; simpl.
  - induction Hp as [|c pad -> _ IHp]; [reflexivity|].
    simpl. now rewrite IHp.
  - destruct (enc6_plain x Hx) as [-> _]. simpl. now rewrite IH.
Qed.

Lemma padding_cases (s : list N) :
  padding s = [] \/ padding s = [61] \/ padding s = [61; 61].
Proof.
  induction s as [|a|a b|a b c r IH] using list_ind3; simpl; auto.
Qed.

Lemma stripPadding_enc6 (v pad : list N) :
  Forall (fun x => x < 64) v ->
  pad = [] \/ pad = [61] \/ pad = [61; 61] ->
  stripPadding (map enc6 v ++ pad) = map enc6 v.
Proof.
  intros Hv Hp. induction Hv as [|x v Hx _ IH].
  - destruct Hp as [->|[->| ->]]; reflexivity.
  - cbn [map app stripPadding forallb].
    destruct (enc6_plain x Hx) as [_ ->]. cbn [andb]. now rewrite IH.
Qed.

(** The sextets and the padding of [btoa] fill whole groups of four, and
    the sextets alone never leave a single one over. *)
Lemma encoded_lengths (s : list N) :
  exists k : nat,
    (List.length (toSextets s) + List.length (padding s) = 4 * k)%nat
    /\ ((List.length (toSextets s) = 4 * k)%nat
        \/ (List.length (toSextets s) = 4 * k - 1)%nat
           /\ (1 <= k)%nat
        \/ (List.length (toSextets s) = 4 * k - 2)%nat
           /\ (1 <= k)%nat).
Proof.
  induction s as [|a|a b|a b c r IH] using list_ind3.
  - exists 0%nat. simpl. auto.
  - exists 1%nat. simpl. split; [reflexivity|]. right; right. auto.
  - exists 1%nat. simpl. split; [reflexivity|]. right; left. auto.
  - destruct IH as (k & H1 & H2). exists (S k).
    cbn [toSextets padding List.length]. split; [lia|].
    destruct H2 as [H2|[[H2 Hk]|[H2 Hk]]]; [left|right; left|right; right];
      try split; lia.
Qed.

Lemma mod4_multiple (k : nat) : ((4 * k) mod 4 = 0)%nat.
Proof. rewrite Nat.mul_comm. apply Nat.Div0.mod_mul. Qed.

Lemma mod4_not_one (n k : nat) :
  (n = 4 * k \/ (n = 4 * k - 1 /\ 1 <= k) \/ (n = 4 * k - 2 /\ 1 <= k))%nat ->
  Nat.eqb (n mod 4) 1 = false.
Proof.
  intros H. apply Nat.eqb_neq. intros E.
  pose proof (Nat.div_mod_eq n 4) as D. rewrite E in D. lia.
Qed.

(** [atob(btoa(s))] is [s], for every [s] that [btoa] accepts. *)
Lemma atob_btoa (s c : jsstring) : btoa s = Ok c -> atob c = Ok s.
Proof.
  unfold btoa. destruct (isLatin1 s) eqn:L; [|discriminate].
  intros [= <-].
  assert (Hs : Forall (fun c => c < 256) s).
  { apply Forall_forall. intros x Hx. unfold isLatin1 in L.
    rewrite forallb_forall in L. now apply N.ltb_lt, L. }
  pose proof (toSextets_below s Hs) as Hv.
  pose proof (padding_cases s) as Hp.
  destruct (encoded_lengths s) as (k & Hlen & Hsext).
  unfold atob.
  rewrite filter_enc6;
    [|assumption
     |destruct Hp as [->|[->| ->]]; repeat constructor].
  rewrite length_app, length_map, Hlen, mod4_multiple. cbn [Nat.eqb].
  rewrite (stripPadding_enc6 _ _ Hv Hp).
  rewrite length_map, (mod4_not_one _ _ Hsext).
  rewrite (decodeAll_enc6 _ Hv). now rewrite (fromSextets_toSextets s Hs).
Qed.

End Base64Facts.

(** ** [JSON.parse] undoes [JSON.stringify] on flat objects *)

Section JsonFacts.

Import Json.
Local Open Scope N_scope.

Ltac div_mod_lia := zify; Z.to_euclidean_division_equations; lia.

Lemma unhex_hexDigit (d : N) : d < 16 -> unhex (hexDigit d) = Some d.
Proof.
  intros H.
  pose proof (below_forallb
    (fun n => match unhex (hexDigit n) with
              | Some m => n =? m
              | None => false
              end) 16 eq_refl d H) as E.
  cbv beta in E. destruct (unhex (hexDigit d)); [|discriminate].
  apply N.eqb_eq in E. now subst.
Qed.

Lemma parseString_unicodeEscape (c : N) (tail : list N) :
  c < 65536 ->
  parseString (unicodeEscape c ++ tail) = consFst c (parseString tail).
Proof.
  intros H. unfold unicodeEscape. cbn [app parseString].
  change (92 =? 34) with false. change (92 =? 92) with true.
  change (117 =? 117) with true. cbv iota.
  unfold unhex4.
  rewrite !unhex_hexDigit by div_mod_lia.
  replace (((c / 4096 * 16 + (c / 256) mod 16) * 16 + (c / 16) mod 16) * 16
           + c mod 16) with c by div_mod_lia.
  reflexivity.
Qed.

Lemma parseString_raw (c : N) (tail : list N) :
  c <> 34 -> c <> 92 -> 32 <= c ->
  parseString (c :: tail) = consFst c (parseString tail).
Proof.
  intros H1 H2 H3. cbn [parseString].
  apply N.eqb_neq in H1, H2. rewrite H1, H2.
  apply N.ltb_ge in H3. now rewrite H3.
Qed.

Lemma parseString_escapeUnit (c : N) (tail : list N) :
  c < 65536 ->
  parseString (escapeUnit c ++ tail) = consFst c (parseString tail).
Proof.
  intros Hc. unfold escapeUnit.
  destruct (N.eqb_spec c 34) as [->|H34]; [reflexivity|].
  destruct (N.eqb_spec c 92) as [->|H92]; [reflexivity|].
  destruct (N.eqb_spec c 8) as [->|H8]; [reflexivity|].
  destruct (N.eqb_spec c 12) as [->|H12]; [reflexivity|].
  destruct (N.eqb_spec c 10) as [->|H10]; [reflexivity|].
  destruct (N.eqb_spec c 13) as [->|H13]; [reflexivity|].
  destruct (N.eqb_spec c 9) as [->|H9]; [reflexivity|].
  destruct (N.ltb_spec c 32) as [Hlt|Hge].
  - now apply parseString_unicodeEscape.
  - now apply parseString_raw.
Qed.

Lemma surrogate_range (c : N) :
  isHighSurrogate c = true \/ isLowSurrogate c = true ->
  c <> 34 /\ c <> 92 /\ 32 <= c /\ c < 65536.
Proof.
  unfold isHighSurrogate, isLowSurrogate.
  intros [H|H]; apply andb_true_iff in H as [H1 H2];
    apply N.leb_le in H1, H2; lia.
Qed.

(** Reading back a quoted string gives the string, whatever its code
    units: those below 65536 by the three lemmas above, the others because
    they are copied. *)
Lemma parseString_quoteBody_bounded (n : nat) :
  forall (s : jsstring) (rest : list N),
    (List.length s <= n)%nat ->
    parseString (quoteBody s ++ 34 :: rest) = Some (s, rest).
Proof.
  induction n as [|n IH]; intros s rest Hlen.
  - destruct s; [reflexivity | simpl in Hlen; lia].
  - destruct s as [|c r]; [reflexivity|].
    simpl in Hlen. cbn [quoteBody].
    destruct (isHighSurrogate c) eqn:Hh.
    + destruct (surrogate_range c (or_introl Hh)) as (A & B & C & D).
      destruct r as [|d r'].
      * rewrite parseString_unicodeEscape by assumption. reflexivity.
      * destruct (isLowSurrogate d) eqn:Hl.
        -- destruct (surrogate_range d (or_intror Hl)) as (A' & B' & C' & _).
           cbn [app]. rewrite parseString_raw by assumption.
           rewrite parseString_raw by assumption.
           rewrite IH by (simpl in Hlen; lia). reflexivity.
        -- rewrite <- app_assoc.
           rewrite parseString_unicodeEscape by assumption.
           rewrite IH by (simpl in *; lia). reflexivity.
    + destruct (isLowSurrogate c) eqn:Hl.
      * destruct (surrogate_range c (or_intror Hl)) as (_ & _ & _ & D).
        rewrite <- app_assoc.
        rewrite parseString_unicodeEscape by assumption.
        rewrite IH by lia. reflexivity.
      * rewrite <- app_assoc.
        destruct (N.ltb_spec c 65536) as [Hc|Hc].
        -- rewrite parseString_escapeUnit by assumption.
           rewrite IH by lia. reflexivity.
        -- unfold escapeUnit.
           repeat match goal with
           | |- context [c =? ?k] =>
               destruct (N.eqb_spec c k); [lia|]
           end.
           destruct (N.ltb_spec c 32); [lia|].
           cbn [app]. rewrite parseString_raw by lia.
           rewrite IH by lia. reflexivity.
Qed.

Lemma parseString_quoteBody (s : jsstring) (rest : list N) :
  parseString (quoteBody s ++ 34 :: rest) = Some (s, rest).
Proof. now apply (parseString_quoteBody_bounded (List.length s)). Qed.

End JsonFacts.

Section JsonNumberFacts.

Import Json.
Local Open Scope N_scope.

Lemma uintOfDigits_digitsOfUint (u : Decimal.uint) :
  uintOfDigits (digitsOfUint u) = u.
Proof. induction u; simpl; now rewrite ?IHu. Qed.

Lemma spanDigits_digitsOfUint (u : Decimal.uint) (rest : list N) :
  delimited rest ->
  spanDigits (digitsOfUint u ++ rest) = (digitsOfUint u, rest).
Proof.
  intros (r & [-> | ->]); induction u; simpl; rewrite ?IHu; reflexivity.
Qed.

Lemma to_uint_normal (n : N) :
  N.to_uint n = Decimal.unorm (N.to_uint n).
Proof.
  rewrite <- (DecimalN.Unsigned.to_of (N.to_uint n)).
  now rewrite DecimalN.Unsigned.of_to.
Qed.

(** The decimal text of a number is not empty and has no leading zero. *)
Lemma printNat_shape (n : N) :
  exists d ds,
    printNat n = d :: ds
    /\ isDigit d = true
    /\ ((d =? 48) && nonEmpty ds = false).
Proof.
  unfold printNat.
  pose proof (to_uint_normal n) as Hn.
  destruct (N.to_uint n) as [|u|u|u|u|u|u|u|u|u|u] eqn:E;
    try (eexists; eexists; split; [reflexivity|]; split; reflexivity).
  - exfalso. destruct n; simpl in E; [discriminate|].
    now apply (DecimalPos.Unsigned.to_uint_nonnil p).
  - destruct u as [|u'|u'|u'|u'|u'|u'|u'|u'|u'|u'] eqn:Eu;
      [ eexists; eexists; split; [reflexivity|]; split; reflexivity
      | exfalso .. ];
      rewrite DecimalFacts.unorm_D0 in Hn;
      match type of Hn with
      | _ = Decimal.unorm ?v =>
          assert (Hv : v <> Decimal.Nil) by discriminate;
          pose proof (DecimalFacts.nb_digits_unorm v Hv) as L;
          rewrite <- Hn in L; simpl in L; lia
      end.
Qed.

Lemma parseNumber_printNat (n : N) (rest : list N) :
  (Z.of_N n <= MAX_SAFE_INTEGER)%Z -> delimited rest ->
  parseNumber (printNat n ++ rest) = Some (JNum (Z.of_N n), rest).
Proof.
  intros Hmax Hrest.
  destruct (printNat_shape n) as (d & ds & Hp & Hd & Hz).
  unfold parseNumber.
  assert (Hminus : expect 45 (printNat n ++ rest) = None).
  { rewrite Hp. cbn [app expect]. unfold isDigit in Hd.
    apply andb_true_iff in Hd as [Hd1 Hd2]. apply N.leb_le in Hd1, Hd2.
    destruct (N.eqb_spec d 45); [lia | reflexivity]. }
  rewrite Hminus. unfold printNat at 1.
  rewrite (spanDigits_digitsOfUint _ _ Hrest).
  fold (printNat n). rewrite Hp, Hz. rewrite <- Hp.
  destruct Hrest as (r & [-> | ->]);
    cbn [spanFraction spanExponent expect];
    change (44 =? 46) with false; change (125 =? 46) with false;
    change (44 =? 101) with false; change (44 =? 69) with false;
    change (125 =? 101) with false; change (125 =? 69) with false;
    cbn [orb negb andb];
    unfold printNat; rewrite uintOfDigits_digitsOfUint,
      DecimalN.Unsigned.of_to;
    apply Z.leb_le in Hmax; rewrite Hmax; reflexivity.
Qed.

Lemma parseValue_number (f : nat) (n : N) (rest : list N) :
  (Z.of_N n <= MAX_SAFE_INTEGER)%Z -> delimited rest ->
  parseValue (S f) (printNat n ++ rest) = Some (JNum (Z.of_N n), rest).
Proof.
  intros Hmax Hrest.
  rewrite <- (parseNumber_printNat n rest Hmax Hrest).
  destruct (printNat_shape n) as (d & ds & Hp & Hd & _).
  rewrite Hp. cbn [app].
  unfold isDigit in Hd. apply andb_true_iff in Hd as [Hd1 Hd2].
  apply N.leb_le in Hd1, Hd2.
  assert (Hw : isWs d = false).
  { unfold isWs.
    repeat match goal with
    | |- context [d =? ?k] => destruct (N.eqb_spec d k); [lia|]
    end. reflexivity. }
  cbn [parseValue skipWs]. rewrite Hw.
  repeat match goal with
  | |- context [d =? ?k] => destruct (N.eqb_spec d k); [lia|]
  end.
  cbn [js map list_ascii_of_string startsWith N_of_ascii N_of_digits].
  repeat match goal with
  | |- context [?k =? d] => destruct (N.eqb_spec k d); [lia|]
  end.
  reflexivity.
Qed.

End JsonNumberFacts.

Section JsonObjectFacts.

Import Json.
Local Open Scope N_scope.

Lemma stringify_JObj (l : list (jsstring * json)) :
  stringify (JObj l) = 123 :: membersText l ++ [125].
Proof.
  reflexivity.
Qed.

Lemma parseValue_flat (f : nat) (v : json) (rest : list N) :
  flatValue v -> delimited rest ->
  parseValue (S f) (stringify v ++ rest) = Some (v, rest).
Proof.
  intros Hv Hrest. destruct v; try contradiction.
  - (* a number *)
    simpl in Hv. cbn [stringify]. unfold printInt.
    destruct (Z.ltb_spec z 0) as [Hneg|_]; [lia|].
    rewrite parseValue_number; try assumption.
    + rewrite N2Z.inj_abs_N, Z.abs_eq by lia. reflexivity.
    + rewrite N2Z.inj_abs_N, Z.abs_eq by lia. lia.
  - (* a string *)
    cbn [stringify]. unfold quote. cbn [app parseValue skipWs].
    change (isWs 34) with false. cbv iota.
    change (34 =? 34) with true. cbv iota.
    rewrite <- app_assoc. cbn [app].
    now rewrite parseString_quoteBody.
Qed.

(** One turn of the member loop, on a text that starts with a quote. *)
Lemma parseMembers_step (f : nat) (tail : list N)
  (acc : list (jsstring * json)) :
  parseMembers (S f) (34 :: tail) acc =
  match parseString tail with
  | None => None
  | Some (k, r1) =>
      match expect 58 (skipWs r1) with
      | None => None
      | Some r2 =>
          match parseValue f r2 with
          | None => None
          | Some (v, r3) =>
              match skipWs r3 with
              | c :: r4 =>
                  if c =? 44 then parseMembers f r4 ((k, v) :: acc)
                  else if c =? 125
                  then Some (JObj (rev ((k, v) :: acc)), r4)
                  else None
              | [] => None
              end
          end
      end
  end.
Proof. reflexivity. Qed.

Lemma parseMembers_last (f : nat) (k : jsstring) (x : json)
  (rest : list N) (acc : list (jsstring * json)) :
  flatValue x ->
  parseMembers (S (S f)) (quote k ++ 58 :: stringify x ++ 125 :: rest) acc =
  Some (JObj (rev ((k, x) :: acc)), rest).
Proof.
  intros Hx. unfold quote. cbn [app]. rewrite parseMembers_step.
  rewrite <- app_assoc. cbn [app]. rewrite parseString_quoteBody.
  cbn [skipWs]. change (isWs 58) with false. cbv iota. cbn [expect].
  change (58 =? 58) with true. cbv iota.
  rewrite (parseValue_flat f x (125 :: rest) Hx) by (exists rest; now right).
  reflexivity.
Qed.

Lemma parseMembers_next (f : nat) (k : jsstring) (x : json)
  (tail : list N) (acc : list (jsstring * json)) :
  flatValue x ->
  parseMembers (S (S f)) (quote k ++ 58 :: stringify x ++ 44 :: tail) acc =
  parseMembers (S f) tail ((k, x) :: acc).
Proof.
  intros Hx. unfold quote. cbn [app]. rewrite parseMembers_step.
  rewrite <- app_assoc. cbn [app]. rewrite parseString_quoteBody.
  cbn [skipWs]. change (isWs 58) with false. cbv iota. cbn [expect].
  change (58 =? 58) with true. cbv iota.
  rewrite (parseValue_flat f x (44 :: tail) Hx) by (exists tail; now left).
  reflexivity.
Qed.

Lemma parseMembers_flat (l : list (jsstring * json)) :
  forall (f : nat) (acc : list (jsstring * json)) (rest : list N),
    l <> [] ->
    Forall (fun m => flatValue (snd m)) l ->
    (List.length l < f)%nat ->
    parseMembers f (membersText l ++ 125 :: rest) acc =
    Some (JObj (rev acc ++ l), rest).
Proof.
  induction l as [|[k x] l IH]; intros f acc rest Hne Hflat Hf;
    [contradiction|].
  inversion_clear Hflat as [|? ? Hx Hl]. simpl in Hx.
  destruct f as [|f]; [simpl in Hf; lia|].
  destruct f as [|f]; [simpl in Hf; lia|].
  destruct l as [|m l].
  - (* the last member *)
    cbn [membersText]. rewrite <- !app_assoc. cbn [app].
    rewrite (parseMembers_last f k x rest acc Hx). reflexivity.
  - (* a member followed by others *)
    change (membersText ((k, x) :: m :: l))
      with (quote k ++ 58 :: stringify x ++ 44 :: membersText (m :: l)).
    rewrite <- !app_assoc. cbn [app]. rewrite <- !app_assoc. cbn [app].
    rewrite (parseMembers_next f k x _ acc Hx).
    rewrite (IH (S f) ((k, x) :: acc) rest);
      [|discriminate|assumption|simpl in *; lia].
    cbn [rev]. now rewrite <- app_assoc.
Qed.

Lemma membersText_length (l : list (jsstring * json)) :
  (List.length l <= List.length (membersText l))%nat.
Proof.
  induction l as [|[k x] l IH]; [simpl; lia|].
  destruct l as [|m l].
  - cbn [membersText]. unfold quote. rewrite length_app. simpl. lia.
  - change (membersText ((k, x) :: m :: l))
      with (quote k ++ 58 :: stringify x ++ 44 :: membersText (m :: l)).
    rewrite length_app. cbn [List.length]. rewrite length_app.
    cbn [List.length] in *. lia.
Qed.

Lemma membersText_starts_with_quote (l : list (jsstring * json)) :
  l <> [] -> exists r, membersText l = 34 :: r.
Proof.
  destruct l as [|[k x] l]; [contradiction|]. intros _.
  destruct l; cbn [membersText]; unfold quote; cbn [app]; eexists;
    reflexivity.
Qed.

(** [JSON.parse(JSON.stringify(o))] is [o] for every flat object [o]. *)
Lemma parse_stringify_flat (l : list (jsstring * json)) :
  Forall (fun m => flatValue (snd m)) l ->
  parse (stringify (JObj l)) = Ok (JObj l).
Proof.
  intros Hflat. destruct l as [|m l]; [reflexivity|].
  unfold parse. rewrite stringify_JObj.
  destruct (membersText_starts_with_quote (m :: l)) as (r & Hr);
    [discriminate|].
  cbn [List.length parseValue skipWs]. change (isWs 123) with false.
  cbv iota. change (123 =? 34) with false. change (123 =? 123) with true.
  cbv iota.
  rewrite Hr. cbn [app skipWs]. change (isWs 34) with false. cbv iota.
  cbn [expect]. change (34 =? 125) with false. cbv iota.
  change (34 :: r ++ [125]) with ((34 :: r) ++ [125]). rewrite <- Hr.
  rewrite (parseMembers_flat (m :: l) _ [] []);
    [reflexivity|discriminate|assumption|].
  rewrite length_app. pose proof (membersText_length (m :: l)) as H.
  remember (List.length (membersText (m :: l))) as n.
  cbn [List.length] in *. lia.
Qed.

End JsonObjectFacts.

(** ** The fuel of the parser

    Every successful call consumes at least one code unit, so the fuel
    [parse] starts with is never the reason of a failure. *)

Section JsonFuelFacts.

Import Json.
Local Open Scope N_scope.

Lemma skipWs_length (s : list N) : (List.length (skipWs s) <= List.length s)%nat.
Proof.
  induction s as [|c s IH]; simpl; [lia|].
  destruct (isWs c); simpl; lia.
Qed.

Lemma consFst_length (c : N) (o : option (jsstring * list N)) (k : jsstring)
  (r : list N) :
  consFst c o = Some (k, r) -> exists k', o = Some (k', r).
Proof. destruct o as [[k' r']|]; simpl; intros [= <- <-]; eauto. Qed.

Lemma parseString_length_bounded (n : nat) :
  forall s, (List.length s <= n)%nat ->
  forall k r, parseString s = Some (k, r) ->
              (List.length r < List.length s)%nat.
Proof.
  induction n as [|n IH]; intros s Hn k r H.
  - destruct s; [discriminate | simpl in Hn; lia].
  - destruct s as [|c s]; [discriminate|].
    cbn [parseString] in H. simpl in Hn.
    destruct (c =? 34).
    + injection H as <- <-. simpl. lia.
    + destruct (c =? 92).
      * destruct s as [|e s']; [discriminate|].
        destruct (e =? 117).
        -- destruct s' as [|h1 [|h2 [|h3 [|h4 s'']]]]; try discriminate.
           destruct (unhex4 h1 h2 h3 h4); [|discriminate].
           apply consFst_length in H as (k' & H).
           apply IH in H; simpl in *; lia.
        -- destruct (simpleEscape e); [|discriminate].
           apply consFst_length in H as (k' & H).
           apply IH in H; simpl in *; lia.
      * destruct (c <? 32); [discriminate|].
        apply consFst_length in H as (k' & H).
        apply IH in H; simpl in *; lia.
Qed.

Lemma parseString_length (s : list N) (k : jsstring) (r : list N) :
  parseString s = Some (k, r) -> (List.length r < List.length s)%nat.
Proof. now apply (parseString_length_bounded (List.length s)). Qed.

Lemma spanDigits_length (s : list N) :
  (List.length (snd (spanDigits s)) <= List.length s)%nat.
Proof.
  induction s as [|c s IH]; simpl; [lia|].
  destruct (isDigit c); [|simpl; lia].
  destruct (spanDigits s) as [ds r']. simpl in *. lia.
Qed.

Lemma spanDigits_nonempty_length (s : list N) (d : N) (ds r : list N) :
  spanDigits s = (d :: ds, r) -> (List.length r < List.length s)%nat.
Proof.
  destruct s as [|c s]; simpl; [discriminate|].
  destruct (isDigit c); [|discriminate].
  pose proof (spanDigits_length s) as L.
  destruct (spanDigits s) as [ds' r']. intros [= _ _ <-]. simpl in *. lia.
Qed.

Lemma expect_length (u : N) (s r : list N) :
  expect u s = Some r -> List.length s = S (List.length r).
Proof.
  destruct s as [|c s]; simpl; [discriminate|].
  destruct (c =? u); [|discriminate]. now intros [= ->].
Qed.

Lemma spanFraction_length (s : list N) (b : bool) (r : list N) :
  spanFraction s = Some (b, r) -> (List.length r <= List.length s)%nat.
Proof.
  unfold spanFraction. destruct (expect 46 s) as [t|] eqn:E.
  - apply expect_length in E.
    destruct (spanDigits t) as [[|d ds] r'] eqn:D; [discriminate|].
    intros [= _ <-]. apply spanDigits_nonempty_length in D. lia.
  - intros [= _ <-]. lia.
Qed.

Lemma spanExponent_length (s : list N) (b : bool) (r : list N) :
  spanExponent s = Some (b, r) -> (List.length r <= List.length s)%nat.
Proof.
  unfold spanExponent. destruct s as [|c s]; [intros [= _ <-]; lia|].
  destruct ((c =? 101) || (c =? 69)); [|intros [= _ <-]; lia].
  match goal with
  | |- match spanDigits ?t with _ => _ end = _ -> _ =>
      assert (Ht : (List.length t <= List.length s)%nat)
        by (destruct s as [|sg s0]; [simpl; lia|];
            destruct ((sg =? 43) || (sg =? 45)); simpl; lia);
      destruct (spanDigits t) as [[|d ds] r'] eqn:D; [discriminate|]
  end.
  intros [= _ <-]. apply spanDigits_nonempty_length in D. simpl. lia.
Qed.

Lemma parseNumber_length (s : list N) (v : json) (r : list N) :
  parseNumber s = Some (v, r) -> (List.length r < List.length s)%nat.
Proof.
  unfold parseNumber.
  assert (Hs1 : forall b s1,
            match expect 45 s with
            | Some r => (true, r)
            | None => (false, s)
            end = (b, s1) -> (List.length s1 <= List.length s)%nat).
  { intros b s1. destruct (expect 45 s) as [t|] eqn:E; intros [= _ <-].
    - apply expect_length in E. lia.
    - lia. }
  destruct (match expect 45 s with
            | Some r => (true, r)
            | None => (false, s)
            end) as [negative s1] eqn:E1.
  specialize (Hs1 _ _ eq_refl).
  destruct (spanDigits s1) as [[|d ds] s2] eqn:D; [discriminate|].
  apply spanDigits_nonempty_length in D.
  destruct ((d =? 48) && nonEmpty ds); [discriminate|].
  destruct (spanFraction s2) as [[hf s3]|] eqn:F; [|discriminate].
  apply spanFraction_length in F.
  destruct (spanExponent s3) as [[he s4]|] eqn:X; [|discriminate].
  apply spanExponent_length in X.
  match goal with
  | |- (if ?c then _ else _) = _ -> _ =>
      destruct c; intros [= _ <-]; lia
  end.
Qed.

(** A parsed value, array or object has consumed input. *)
Lemma parse_consumes (f : nat) :
  (forall s v r, parseValue f s = Some (v, r) ->
                 (List.length r < List.length s)%nat)
  /\ (forall s acc v r, parseElements f s acc = Some (v, r) ->
                        (List.length r < List.length s)%nat)
  /\ (forall s acc v r, parseMembers f s acc = Some (v, r) ->
                        (List.length r < List.length s)%nat).
Proof.
  induction f as [|f (IHv & IHe & IHm)];
    [repeat split; intros; discriminate|].
  split; [|split].
  - intros s v r H. cbn [parseValue] in H.
    pose proof (skipWs_length s) as Hw.
    destruct (skipWs s) as [|c t] eqn:Es; [discriminate|].
    simpl in Hw.
    destruct (c =? 34).
    { destruct (parseString t) as [[str r']|] eqn:P; [|discriminate].
      injection H as _ <-. apply parseString_length in P. lia. }
    destruct (c =? 123).
    { pose proof (skipWs_length t) as Hw'.
      destruct (expect 125 (skipWs t)) as [r'|] eqn:E.
      - injection H as _ <-. apply expect_length in E. lia.
      - apply IHm in H. lia. }
    destruct (c =? 91).
    { pose proof (skipWs_length t) as Hw'.
      destruct (expect 93 (skipWs t)) as [r'|] eqn:E.
      - injection H as _ <-. apply expect_length in E. lia.
      - apply IHe in H. lia. }
    destruct (startsWith (js "true") (c :: t)).
    { assert (Hr : r = skipn 4 (c :: t)) by congruence.
      rewrite Hr, length_skipn. cbn [List.length]. lia. }
    destruct (startsWith (js "false") (c :: t)).
    { assert (Hr : r = skipn 5 (c :: t)) by congruence.
      rewrite Hr, length_skipn. cbn [List.length]. lia. }
    destruct (startsWith (js "null") (c :: t)).
    { assert (Hr : r = skipn 4 (c :: t)) by congruence.
      rewrite Hr, length_skipn. cbn [List.length]. lia. }
    apply parseNumber_length in H. simpl in H. lia.
  - intros s acc v r H. cbn [parseElements] in H.
    destruct (parseValue f s) as [[x t]|] eqn:P; [|discriminate].
    apply IHv in P. pose proof (skipWs_length t) as Hw.
    destruct (skipWs t) as [|c t'] eqn:Es; [discriminate|]. simpl in Hw.
    destruct (c =? 44).
    { apply IHe in H. lia. }
    destruct (c =? 93); [|discriminate].
    injection H as _ <-. lia.
  - intros s acc v r H. cbn [parseMembers] in H.
    pose proof (skipWs_length s) as Hw.
    destruct (expect 34 (skipWs s)) as [t|] eqn:E; [|discriminate].
    apply expect_length in E.
    destruct (parseString t) as [[k r1]|] eqn:P; [|discriminate].
    apply parseString_length in P.
    pose proof (skipWs_length r1) as Hw1.
    destruct (expect 58 (skipWs r1)) as [r2|] eqn:E2; [|discriminate].
    apply expect_length in E2.
    destruct (parseValue f r2) as [[x r3]|] eqn:V; [|discriminate].
    apply IHv in V. pose proof (skipWs_length r3) as Hw3.
    destruct (skipWs r3) as [|c r4] eqn:Es; [discriminate|]. simpl in Hw3.
    destruct (c =? 44).
    { apply IHm in H. lia. }
    destruct (c =? 125); [|discriminate].
    injection H as _ <-. lia.
Qed.

(** Above twice the length of the text the fuel does not matter. *)
Lemma parse_fuel_bounded (n : nat) :
  (forall s f1 f2,
     (List.length s <= n)%nat ->
     (2 * List.length s < f1)%nat -> (2 * List.length s < f2)%nat ->
     parseValue f1 s = parseValue f2 s)
  /\ (forall s acc g1 g2,
        (List.length s <= n)%nat ->
        (2 * List.length s + 1 < g1)%nat ->
        (2 * List.length s + 1 < g2)%nat ->
        parseElements g1 s acc = parseElements g2 s acc)
  /\ (forall s acc g1 g2,
        (List.length s <= n)%nat ->
        (2 * List.length s < g1)%nat -> (2 * List.length s < g2)%nat ->
        parseMembers g1 s acc = parseMembers g2 s acc).
Proof.
  induction n as [|n (IHv & IHe & IHm)].
  - (* the empty text *)
    split; [|split]; intros;
      match goal with
      | H : (List.length ?s <= 0)%nat |- _ =>
          destruct s; [|simpl in H; lia]
      end.
    + destruct f1, f2; try lia. reflexivity.
    + destruct g1 as [|[|g1]], g2 as [|[|g2]]; try lia. reflexivity.
    + destruct g1, g2; try lia. reflexivity.
  - assert (V : forall s f1 f2,
              (List.length s <= S n)%nat ->
              (2 * List.length s < f1)%nat -> (2 * List.length s < f2)%nat ->
              parseValue f1 s = parseValue f2 s).
    { intros s f1 f2 Hn H1 H2.
      destruct f1 as [|f1]; [lia|]. destruct f2 as [|f2]; [lia|].
      cbn [parseValue].
      pose proof (skipWs_length s) as Hw.
      destruct (skipWs s) as [|c t]; [reflexivity|]. simpl in Hw.
      pose proof (skipWs_length t) as Hw'.
      destruct (c =? 34); [reflexivity|].
      destruct (c =? 123).
      { destruct (expect 125 (skipWs t)); [reflexivity|].
        apply IHm; lia. }
      destruct (c =? 91); [|reflexivity].
      destruct (expect 93 (skipWs t)); [reflexivity|].
      apply IHe; lia. }
    split; [exact V|split].
    + intros s acc g1 g2 Hn H1 H2.
      destruct g1 as [|g1]; [lia|]. destruct g2 as [|g2]; [lia|].
      cbn [parseElements].
      rewrite (V s g1 g2) by lia.
      destruct (parseValue g2 s) as [[x t]|] eqn:P; [|reflexivity].
      apply (proj1 (parse_consumes g2)) in P.
      pose proof (skipWs_length t) as Hw.
      destruct (skipWs t) as [|c t']; [reflexivity|]. simpl in Hw.
      destruct (c =? 44); [|reflexivity].
      apply IHe; lia.
    + intros s acc g1 g2 Hn H1 H2.
      destruct g1 as [|g1]; [lia|]. destruct g2 as [|g2]; [lia|].
      cbn [parseMembers].
      pose proof (skipWs_length s) as Hw.
      destruct (expect 34 (skipWs s)) as [t|] eqn:E; [|reflexivity].
      apply expect_length in E.
      destruct (parseString t) as [[k r1]|] eqn:P; [|reflexivity].
      apply parseString_length in P.
      pose proof (skipWs_length r1) as Hw1.
      destruct (expect 58 (skipWs r1)) as [r2|] eqn:E2; [|reflexivity].
      apply expect_length in E2.
      rewrite (IHv r2 g1 g2) by lia.
      destruct (parseValue g2 r2) as [[x r3]|] eqn:Q; [|reflexivity].
      apply (proj1 (parse_consumes g2)) in Q.
      pose proof (skipWs_length r3) as Hw3.
      destruct (skipWs r3) as [|c r4]; [reflexivity|]. simpl in Hw3.
      destruct (c =? 44); [|reflexivity].
      apply IHm; lia.
Qed.

(** The outcome of [parseValue] does not depend on the fuel, once it exceeds
    twice the length of the text: [parse] never fails for lack of fuel. *)
Lemma parseValue_fuel (s : list N) (f : nat) :
  (2 * List.length s < f)%nat ->
  parseValue f s = parseValue (S (2 * List.length s)) s.
Proof.
  intros H. apply (proj1 (parse_fuel_bounded (List.length s))); lia.
Qed.

End JsonFuelFacts.

(** ** The session cookie, from the callback to the session-status endpoint *)

Section SessionFacts.

Import Base64 Json Session.
Local Open Scope Z_scope.

Variable numLitTruthy : jsstring -> bool.
Variable looseLess : json -> Z -> bool.

Lemma sessionObject_flat (sub : jsstring) (email name : option jsstring)
  (now : Z) :
  0 <= now -> now + SESSION_LIFETIME <= MAX_SAFE_INTEGER ->
  exists l,
    sessionObject (claim sub) (optionalClaim email) (optionalClaim name) now =
    JObj l
    /\ Forall (fun m => flatValue (snd m)) l.
Proof.
  intros H0 Hmax. unfold SESSION_LIFETIME in *.
  eexists. split; [reflexivity|].
  destruct email, name; cbn [optionalClaim claim member serialised app];
    repeat (apply Forall_cons;
            [cbn [snd flatValue]; try exact I;
             unfold SESSION_LIFETIME, MAX_SAFE_INTEGER in *; lia|]);
    apply Forall_nil.
Qed.

Lemma sessionObject_props (sub : jsstring) (email name : option jsstring)
  (now : Z) :
  let o :=
    sessionObject (claim sub) (optionalClaim email) (optionalClaim name) now in
  getProp o Kexp = Ok (JVal (JNum (now + SESSION_LIFETIME)))
  /\ getProp o Ksub = Ok (claim sub)
  /\ getProp o Kemail = Ok (optionalClaim email)
  /\ getProp o Kname = Ok (optionalClaim name).
Proof.
  destruct email, name; repeat split; reflexivity.
Qed.

(** C3, as the code has it.  Take the cookie the callback issues at time
    [now] for claims that are strings ([btoa] accepted them).  The
    session-status endpoint answers [authenticated: true] with the same
    [sub], [email] and [name] (and [exp = now + 86400]) at every time up to
    and including [now + 86400], and [authenticated: false], "Session
    expired", at every later time. *)
Theorem session_round_trip (sub : jsstring) (email name : option jsstring)
  (now t : Z) (cookie : jsstring) :
  0 <= now -> now + SESSION_LIFETIME <= MAX_SAFE_INTEGER ->
  sessionToken (claim sub) (optionalClaim email) (optionalClaim name) now =
  Ok cookie ->
  (t <= now + SESSION_LIFETIME ->
   GET numLitTruthy looseLess (Some cookie) t =
   Ok (mkStatusResponse true
         (Some (mkSessionUser (Some (JStr sub)) (option_map JStr email)
                  (option_map JStr name)
                  (Some (JNum (now + SESSION_LIFETIME)))))
         (js "Session valid") 200 []))
  /\ (now + SESSION_LIFETIME < t ->
      GET numLitTruthy looseLess (Some cookie) t =
      Ok (mkStatusResponse false None (js "Session expired") 200 [])).
Proof.
  intros H0 Hmax Hissue.
  unfold sessionToken in Hissue. apply atob_btoa in Hissue.
  destruct (sessionObject_flat sub email name now H0 Hmax) as (l & Hl & Hflat).
  pose proof (parse_stringify_flat l Hflat) as Hparse. rewrite <- Hl in Hparse.
  destruct (sessionObject_props sub email name now) as (Pexp & Psub & Pem & Pn).
  assert (Htruthy : jsTruthy numLitTruthy
                      (JVal (JNum (now + SESSION_LIFETIME))) = true).
  { cbn [jsTruthy]. apply negb_true_iff, Z.eqb_neq.
    unfold SESSION_LIFETIME. lia. }
  unfold GET. rewrite Hissue. cbn [bind tryCatch]. rewrite Hparse.
  cbn [bind]. rewrite Pexp. cbn [bind]. rewrite Htruthy. cbn [jsLess andb].
  split; intros Ht.
  - apply Z.ltb_ge in Ht. rewrite Ht.
    rewrite Psub, Pem, Pn. cbn [bind tryCatch].
    destruct email, name; reflexivity.
  - apply Z.ltb_lt in Ht. rewrite Ht. reflexivity.
Qed.

(** The session-status endpoint always answers. *)
Lemma session_GET_total (cookie : option jsstring) (now : Z) :
  exists r, GET numLitTruthy looseLess cookie now = Ok r.
Proof.
  unfold GET. destruct cookie as [value|]; [|eexists; reflexivity].
  match goal with
  | |- exists r, tryCatch (tryCatch ?m ?h) ?h' = Ok r =>
      destruct m; eexists; reflexivity
  end.
Qed.

(** C5.  A cookie that does not decode (it is not base64, or what it
    decodes to is not JSON) makes the session-status endpoint answer
    [authenticated: false], "Invalid session format", telling the client to
    discard the cookie; and the endpoint returns a response on every cookie,
    so no exception reaches the caller. *)
Theorem undecodable_session_not_authenticated (cookie : jsstring) (now : Z) :
  ((exists e, atob cookie = Throw e)
   \/ (exists decoded e, atob cookie = Ok decoded /\ parse decoded = Throw e)) ->
  GET numLitTruthy looseLess (Some cookie) now =
  Ok (mkStatusResponse false None (js "Invalid session format") 200
        [js "oauth_session"])
  /\ (forall c n, exists r, GET numLitTruthy looseLess c n = Ok r).
Proof.
  intros H. split; [|apply session_GET_total].
  unfold GET.
  destruct H as [(e & H)|(decoded & e & H1 & H2)].
  - now rewrite H.
  - rewrite H1. cbn [bind]. now rewrite H2.
Qed.

(** A cookie that does decode is not checked further: "NQ==" is the
    base64 of the JSON text 5, which has no [exp], and is answered as a
    valid session without claims. *)
Lemma decodable_cookie_without_claims :
  GET numLitTruthy looseLess (Some (js "NQ==")) 1700000100 =
  Ok (mkStatusResponse true (Some (mkSessionUser None None None None))
        (js "Session valid") 200 []).
Proof. reflexivity. Qed.

(** The MCP authenticator treats such a cookie the same way. *)
Lemma undecodable_session_rejected (User : Type) (header : option jsstring)
  (cookie : jsstring) (body : result McpRoute.MCPRequest) (now : Z) :
  ((exists e, atob cookie = Throw e)
   \/ (exists decoded e, atob cookie = Ok decoded /\ parse decoded = Throw e)) ->
  McpRoute.authenticateSession User numLitTruthy looseLess
    (McpRoute.mkRequest header (Some cookie) body) now =
  McpRoute.Rejected (js "Invalid session cookie")
    (McpRoute.unauthorized User (js "Unauthorized - Invalid session") false).
Proof.
  intros H. unfold McpRoute.authenticateSession. cbn [McpRoute.sessionCookie].
  destruct H as [(e & H)|(decoded & e & H1 & H2)].
  - now rewrite H.
  - rewrite H1. cbn [bind]. now rewrite H2.
Qed.

End SessionFacts.

(** C3 as stated fails at the instant of expiry: Ada's cookie, issued at
    1700000000, is still accepted at 1700000000 + 86400. *)
Lemma session_valid_at_expiry_instant :
  Session.sessionToken (claim (js "108"))
    (optionalClaim (Some (js "ada@example.com")))
    (optionalClaim (Some (js "Ada"))) 1700000000 =
  Ok ExampleMcp.adaCookie
  /\ Session.GET ExampleMcp.numLitTruthy ExampleMcp.looseLess
       (Some ExampleMcp.adaCookie) (1700000000 + Session.SESSION_LIFETIME) =
     Ok (Session.mkStatusResponse true
           (Some (Session.mkSessionUser (Some (Json.JStr (js "108")))
                    (Some (Json.JStr (js "ada@example.com")))
                    (Some (Json.JStr (js "Ada")))
                    (Some (Json.JNum 1700086400))))
           (js "Session valid") 200 []).
Proof. split; vm_compute; reflexivity. Qed.

Lemma session_round_trip_witness :
  Session.GET ExampleMcp.numLitTruthy ExampleMcp.looseLess
    (Some ExampleMcp.adaCookie) 1700000100 =
  Ok (Session.mkStatusResponse true
        (Some (Session.mkSessionUser (Some (Json.JStr (js "108")))
                 (option_map Json.JStr (Some (js "ada@example.com")))
                 (option_map Json.JStr (Some (js "Ada")))
                 (Some (Json.JNum (1700000000 + Session.SESSION_LIFETIME)))))
        (js "Session valid") 200 [])
  /\ Session.GET ExampleMcp.numLitTruthy ExampleMcp.looseLess
       (Some ExampleMcp.adaCookie) 1700086401 =
     Ok (Session.mkStatusResponse false None (js "Session expired") 200 []).
Proof.
  split.
  - apply (proj1 (session_round_trip ExampleMcp.numLitTruthy
             ExampleMcp.looseLess (js "108") (Some (js "ada@example.com"))
             (Some (js "Ada")) 1700000000 1700000100 ExampleMcp.adaCookie
             ltac:(lia) ltac:(vm_compute; discriminate) adaCookie_issued)).
    vm_compute; discriminate.
  - apply (proj2 (session_round_trip ExampleMcp.numLitTruthy
             ExampleMcp.looseLess (js "108") (Some (js "ada@example.com"))
             (Some (js "Ada")) 1700000000 1700086401 ExampleMcp.adaCookie
             ltac:(lia) ltac:(vm_compute; discriminate) adaCookie_issued)).
    vm_compute; reflexivity.
Defined.

(** No cookie is issued for a name with a code unit above 255 (here the
    first letter of "Łukasz", U+0141): [btoa] throws. *)
Lemma sessionToken_needs_latin1 :
  Session.sessionToken (claim (js "109")) Json.JUndefined
    (Json.JVal (Json.JStr (321%N :: js "ukasz"))) 1700000000 =
  Throw Base64.InvalidCharacterError.
Proof. vm_compute. reflexivity. Qed.

Lemma undecodable_session_not_authenticated_witness :
  Session.GET ExampleMcp.numLitTruthy ExampleMcp.looseLess
    (Some (js "%%not-base64%%")) 1700000100 =
  Ok (Session.mkStatusResponse false None (js "Invalid session format") 200
        [js "oauth_session"])
  /\ Session.GET ExampleMcp.numLitTruthy ExampleMcp.looseLess
       (Some (js "aGVsbG8=")) 1700000100 =
     Ok (Session.mkStatusResponse false None (js "Invalid session format")
           200 [js "oauth_session"]).
Proof.
  split.
  - apply (proj1 (undecodable_session_not_authenticated
             ExampleMcp.numLitTruthy ExampleMcp.looseLess
             (js "%%not-base64%%") 1700000100
             (or_introl (ex_intro _ Base64.InvalidCharacterError eq_refl)))).
  - apply (proj1 (undecodable_session_not_authenticated
             ExampleMcp.numLitTruthy ExampleMcp.looseLess
             (js "aGVsbG8=") 1700000100
             (or_intror
                (ex_intro _ (js "hello")
                   (ex_intro _ Json.SyntaxError (conj eq_refl eq_refl)))))).
Defined.

(** Evaluates the comparisons of two literals. *)
Ltac jseq_lit :=
  repeat match goal with
  | |- context [jseq (js ?a) (js ?b)] =>
      let v := eval vm_compute in (jseq (js a) (js b)) in
      change (jseq (js a) (js b)) with v
  end.

(** ** The validators and the code exchange (lib/oauth-utils.ts) *)

Section ExchangeFacts.

Import UrlResolver OAuthUtils.

Variable fetchToken : TokenForm -> result FetchResponse.

Lemma validateAuthParams_valid (p : OAuth21AuthParams) :
  isValid (validateAuthParams p) = true <->
  response_type p = Some (js "code")
  /\ ~ absent (auth_client_id p)
  /\ ~ absent (auth_redirect_uri p)
  /\ (absent (code_challenge p)
      \/ code_challenge_method p = Some (js "S256")).
Proof.
  unfold validateAuthParams.
  destruct (optEq (response_type p) (js "code")) eqn:E1; cbn [negb].
  2:{ apply optEq_false in E1. split; [discriminate|]. intros (H & _).
      contradiction. }
  apply optEq_true in E1.
  destruct (truthy (auth_client_id p)) eqn:E2; cbn [negb].
  2:{ apply truthy_false in E2. split; [discriminate|]. intros (_ & H & _).
      contradiction. }
  apply truthy_true in E2.
  destruct (truthy (auth_redirect_uri p)) eqn:E3; cbn [negb].
  2:{ apply truthy_false in E3. split; [discriminate|].
      intros (_ & _ & H & _). contradiction. }
  apply truthy_true in E3.
  destruct (truthy (code_challenge p)) eqn:E4; cbn [andb].
  - apply truthy_true in E4.
    destruct (optEq (code_challenge_method p) (js "S256")) eqn:E5; cbn [negb].
    + apply optEq_true in E5. split; [intros _|reflexivity]. auto.
    + apply optEq_false in E5.
      split; [discriminate|]. intros (_ & _ & _ & [H|H]); contradiction.
  - apply truthy_false in E4. split; [intros _|reflexivity]. auto.
Qed.

(** [validateAuthParams] accepts exactly the requests whose [response_type]
    is "code", whose [client_id] and [redirect_uri] are present and not
    empty, and whose PKCE challenge, when there is one, uses S256; a rejected
    request gets the error [unsupported_response_type] or
    [invalid_request]. *)
Theorem validateAuthParams_accepts (p : OAuth21AuthParams) :
  (isValid (validateAuthParams p) = true <->
   response_type p = Some (js "code")
   /\ ~ absent (auth_client_id p)
   /\ ~ absent (auth_redirect_uri p)
   /\ (absent (code_challenge p)
       \/ code_challenge_method p = Some (js "S256")))
  /\ (validateAuthParams p = valid
      \/ exists d,
           validateAuthParams p = invalid (js "unsupported_response_type") d
           \/ validateAuthParams p = invalid (js "invalid_request") d).
Proof.
  split; [apply validateAuthParams_valid|].
  unfold validateAuthParams.
  repeat match goal with
  | |- context [if ?c then _ else _] => destruct c
  end;
    first [ left; reflexivity
          | right; eexists; left; reflexivity
          | right; eexists; right; reflexivity ].
Qed.

(** A successful exchange sent one request, with the code and the redirect
    URI it was given, and has tokens. *)
Lemma exchange_success (env : Env) (code_ redirectUri : jsstring)
  (clientId clientSecret : option jsstring) :
  success (fst (exchangeCodeForGoogleTokens fetchToken env code_ redirectUri
                  clientId clientSecret)) = true ->
  exists form t,
    snd (exchangeCodeForGoogleTokens fetchToken env code_ redirectUri
           clientId clientSecret) = [form]
    /\ form_code form = code_
    /\ form_redirect_uri form = redirectUri
    /\ tokens (fst (exchangeCodeForGoogleTokens fetchToken env code_
                      redirectUri clientId clientSecret)) = Some t.
Proof.
  unfold exchangeCodeForGoogleTokens.
  destruct (negb (truthy _) || negb (truthy _)); [discriminate|].
  match goal with
  | |- context [fetchToken ?f] => destruct (fetchToken f) as [resp|e]
  end; cbn [bind tryCatch]; [|discriminate].
  destruct (ok resp); cbn [negb].
  - destruct (json resp) as [t|e]; cbn [bind tryCatch fst snd];
      [|discriminate].
    intros _. eexists _, t. repeat split.
  - destruct (text resp); cbn [bind tryCatch fst snd]; discriminate.
Qed.


End ExchangeFacts.

(** ** The authorization endpoint *)

Section AuthorizeFacts.

Import UrlResolver OAuthUtils Authorize.

Variable unicodeLower : jsstring -> jsstring.
Variable isAbsoluteUrl : jsstring -> bool.

Local Abbreviation GET := (Authorize.GET unicodeLower isAbsoluteUrl).

Lemma orElse_Some_orElse (o : option jsstring) :
  orElse (Some (orElse o [])) [] = orElse o [].
Proof. destruct o as [[|? ?]|]; reflexivity. Qed.

Lemma orElse_nonempty (o : option jsstring) (s : jsstring) :
  orElse o [] = s -> s <> [] -> o = Some s.
Proof.
  destruct o as [[|c t]|]; simpl; intros <- H; try contradiction; reflexivity.
Qed.

Lemma getParam_cons (k k' v : jsstring) (r : list (jsstring * jsstring)) :
  getParam k ((k', v) :: r) = if jseq k' k then Some v else getParam k r.
Proof. reflexivity. Qed.

(** The authorization endpoint sends the browser to Google only for a
    request of the configured client, with response type "code" and a
    redirect URI that passes the allow-list after [normalizeRedirectUri];
    and what it sends to Google is that client identifier, the response type
    "code", the server's own callback as redirect URI (never the URI of the
    request) and, when a PKCE method is passed on, the method S256. *)
Theorem authorize_GET_redirect_to_google (env : Env)
  (query params : list (jsstring * jsstring)) :
  GET env query = RedirectToGoogle params ->
  exists cid,
    GOOGLE_CLIENT_ID env = Some cid /\ cid <> []
    /\ getParam (js "client_id") query = Some cid
    /\ getParam (js "response_type") query = Some (js "code")
    /\ isAllowedRedirectUri env
         (normalizeRedirectUri unicodeLower
            (orElse (getParam (js "redirect_uri") query) [])) = true
    /\ getParam (js "client_id") params = Some cid
    /\ getParam (js "redirect_uri") params = Some (getRedirectUris_google env)
    /\ getParam (js "response_type") params = Some (js "code")
    /\ (getParam (js "code_challenge_method") params = None
        \/ getParam (js "code_challenge_method") params = Some (js "S256")).
Proof.
  unfold Authorize.GET.
  destruct (isValid (validateAuthParams (authParamsOf query))) eqn:Ev;
    cbn [negb].
  2:{ unfold createOAuth21ErrorRedirect, createOAuth21ErrorResponse.
      intros H. repeat match type of H with
                | (if ?c then _ else _) = _ => destruct c
                end; discriminate. }
  apply validateAuthParams_valid in Ev.
  destruct Ev as (Hrt & _ & _ & Hpkce).
  remember (code_challenge (authParamsOf query)) as cc eqn:Hcc.
  remember (code_challenge_method (authParamsOf query)) as ccm eqn:Hccm.
  remember (state (authParamsOf query)) as st0 eqn:Hst0.
  remember (auth_scope (authParamsOf query)) as sc0 eqn:Hsc0.
  clear Hcc Hccm Hst0 Hsc0.
  destruct (truthy (GOOGLE_CLIENT_ID env)) eqn:Eg; cbn [negb orb].
  2:{ unfold createOAuth21ErrorRedirect, createOAuth21ErrorResponse.
      intros H. repeat match type of H with
                | (if ?c then _ else _) = _ => destruct c
                end; discriminate. }
  destruct (optEq (auth_client_id (authParamsOf query))
              (orElse (GOOGLE_CLIENT_ID env) [])) eqn:Ec; cbn [negb].
  2:{ unfold createOAuth21ErrorRedirect, createOAuth21ErrorResponse.
      intros H. repeat match type of H with
                | (if ?c then _ else _) = _ => destruct c
                end; discriminate. }
  change (auth_redirect_uri (authParamsOf query))
    with (Some (orElse (getParam (js "redirect_uri") query) [])).
  rewrite orElse_Some_orElse.
  destruct (isAllowedRedirectUri env _) eqn:Ea; cbn [negb];
    [|discriminate].
  intros H. injection H as <-.
  change (response_type (authParamsOf query))
    with (Some (orElse (getParam (js "response_type") query) [])) in Hrt.
  injection Hrt as Hrt. apply orElse_nonempty in Hrt; [|discriminate].
  change (auth_client_id (authParamsOf query))
    with (Some (orElse (getParam (js "client_id") query) [])) in Ec.
  apply optEq_true in Ec. injection Ec as Ec.
  destruct (GOOGLE_CLIENT_ID env) as [[|c cid]|] eqn:G; try discriminate.
  cbn [orElse nonEmpty] in *.
  apply orElse_nonempty in Ec; [|discriminate].
  exists (c :: cid).
  split; [reflexivity|]. split; [discriminate|].
  split; [assumption|]. split; [assumption|]. split; [assumption|].
  unfold getGoogleAuthUrl. cbn [app]. rewrite !getParam_cons. jseq_lit.
  cbv iota.
  split; [reflexivity|]. split; [reflexivity|]. split; [reflexivity|].
  assert (Hstate : forall (st : option jsstring) tl,
            getParam (js "code_challenge_method")
              ((if truthy st then [(js "state", orElse st [])] else []) ++ tl) =
            getParam (js "code_challenge_method") tl).
  { intros st tl. destruct (truthy st); [|reflexivity].
    cbn [app]. rewrite getParam_cons. jseq_lit. reflexivity. }
  rewrite Hstate.
  destruct (truthy (if truthy cc then cc else None)
            && truthy (if truthy ccm then ccm else None)) eqn:Eb;
    [|left; reflexivity].
  right. rewrite !getParam_cons. jseq_lit. cbv iota.
  apply andb_true_iff in Eb as [Eb1 Eb2].
  destruct Hpkce as [Hc|Hm].
  - apply truthy_false in Hc. rewrite Hc in Eb1. discriminate.
  - rewrite Hm. reflexivity.
Qed.






End AuthorizeFacts.

Lemma authorize_GET_redirect_to_google_witness :
  exists cid,
    UrlResolver.GOOGLE_CLIENT_ID ExampleEnv.configured = Some cid
    /\ cid <> []
    /\ Authorize.getParam (js "client_id") ExampleAuthorize.goodQuery =
       Some cid
    /\ Authorize.getParam (js "response_type") ExampleAuthorize.goodQuery =
       Some (js "code")
    /\ UrlResolver.isAllowedRedirectUri ExampleEnv.configured
         (OAuthUtils.normalizeRedirectUri ExampleEnv.asciiOnly
            (orElse
               (Authorize.getParam (js "redirect_uri")
                  ExampleAuthorize.goodQuery) [])) = true
    /\ Authorize.getParam (js "client_id")
         ExampleAuthorize.googleParams = Some cid
    /\ Authorize.getParam (js "redirect_uri")
         ExampleAuthorize.googleParams =
       Some (UrlResolver.getRedirectUris_google ExampleEnv.configured)
    /\ Authorize.getParam (js "response_type")
         ExampleAuthorize.googleParams = Some (js "code")
    /\ (Authorize.getParam (js "code_challenge_method")
          ExampleAuthorize.googleParams = None
        \/ Authorize.getParam (js "code_challenge_method")
             ExampleAuthorize.googleParams = Some (js "S256")).
Proof.
  apply (authorize_GET_redirect_to_google ExampleEnv.asciiOnly
           ExampleOAuth.isAbsoluteUrl ExampleEnv.configured
           ExampleAuthorize.goodQuery ExampleAuthorize.googleParams).
  vm_compute. reflexivity.
Defined.



(** ** The token endpoint *)

Section TokenFacts.

Import UrlResolver OAuthUtils Base64 Token.

Variable UserInfo : Type.
Variable verifyGoogleToken : Request -> jsstring -> result (option UserInfo).
Variable fetchToken : TokenForm -> result FetchResponse.

Local Abbreviation POST := (Token.POST verifyGoogleToken fetchToken).

(** The steps of [POST] up to the exchange: what holds of a request that
    gets that far, and the response and the empty log of one that does
    not. *)
Lemma token_POST_gate (env : Env) (request : Request) :
  (exists r, POST env request = (r, [])
             /\ forall t, r <> TokenJson t)
  \/ (exists params cid sec,
        parseBody request = Ok params
        /\ isValid (validateTokenParams params) = true
        /\ GOOGLE_CLIENT_ID env = Some cid /\ cid <> []
        /\ GOOGLE_CLIENT_SECRET env = Some sec /\ sec <> []
        /\ client_id params = Some cid
        /\ presentedSecret request params cid = Some sec
        /\ isAllowedRedirectUri env (orElse (redirect_uri params) []) = true
        /\ POST env request =
           (let (exchange, sent) :=
              exchangeCodeForGoogleTokens fetchToken env
                (orElse (code params) []) (orElse (redirect_uri params) [])
                (Some cid) (Some sec) in
            let log := map CodeExchange sent in
            match success exchange, tokens exchange with
            | true, Some tokens_ =>
                let token :=
                  if truthy (g_id_token tokens_)
                  then orElse (g_id_token tokens_) []
                  else orElse (g_access_token tokens_) [] in
                let log := log ++ [TokenVerification token] in
                match verifyGoogleToken request token with
                | Throw _ =>
                    (createOAuth21ErrorResponse (js "invalid_grant")
                       (js "Token verification failed") None, log)
                | Ok None =>
                    (createOAuth21ErrorResponse (js "invalid_grant")
                       (js "Failed to verify user information") None, log)
                | Ok (Some userInfo) =>
                    (TokenJson
                       (buildTokenResponse tokens_
                          (Some (js "openid profile email read:mcp write:mcp persons:read persons:write"))
                          None),
                     log)
                end
            | _, _ =>
                (createOAuth21ErrorResponse (js "invalid_grant")
                   (js "Invalid authorization code") None, log)
            end)).
Proof.
  unfold Token.POST.
  destruct (parseBody request) as [params|e];
    [|left; eexists; split; [reflexivity|discriminate]].
  destruct (isValid (validateTokenParams params)) eqn:Ev; cbn [negb];
    [|left; eexists; split; [reflexivity|discriminate]].
  destruct (GOOGLE_CLIENT_ID env) as [[|c cid]|] eqn:Eg;
    cbn [truthy nonEmpty negb orb];
    try (left; eexists; split; [reflexivity|discriminate]).
  destruct (GOOGLE_CLIENT_SECRET env) as [[|x sec]|] eqn:Es;
    cbn [truthy nonEmpty negb orb];
    try (left; eexists; split; [reflexivity|discriminate]).
  cbn [orElse nonEmpty].
  destruct (optEq (client_id params) (c :: cid)) eqn:Ec; cbn [negb];
    [|left; eexists; split; [reflexivity|discriminate]].
  apply optEq_true in Ec.
  destruct (truthy (presentedSecret request params (c :: cid))) eqn:Ep;
    cbn [negb orb];
    [|left; eexists; split; [reflexivity|discriminate]].
  destruct (optEq (presentedSecret request params (c :: cid)) (x :: sec))
    eqn:Eq; cbn [negb];
    [|left; eexists; split; [reflexivity|discriminate]].
  apply optEq_true in Eq.
  destruct (isAllowedRedirectUri env (orElse (redirect_uri params) []))
    eqn:Ea; cbn [negb];
    [|left; eexists; split; [reflexivity|discriminate]].
  right. exists params, (c :: cid), (x :: sec).
  repeat (split; [first [assumption | reflexivity | discriminate]|]).
  reflexivity.
Qed.

(** The token endpoint sends something upstream (the code to Google, a
    token to the verifier) only for a request whose parameters validate,
    whose [client_id] is the configured one, whose secret (of the body, or
    else of the Basic header) is the configured one and whose redirect URI
    is allowed. *)
Theorem token_POST_upstream_only_for_authenticated_client (env : Env)
  (request : Request) :
  snd (POST env request) <> [] ->
  exists params cid sec,
    parseBody request = Ok params
    /\ isValid (validateTokenParams params) = true
    /\ GOOGLE_CLIENT_ID env = Some cid /\ cid <> []
    /\ GOOGLE_CLIENT_SECRET env = Some sec /\ sec <> []
    /\ client_id params = Some cid
    /\ presentedSecret request params cid = Some sec
    /\ isAllowedRedirectUri env (orElse (redirect_uri params) []) = true.
Proof.
  intros H.
  destruct (token_POST_gate env request)
    as [(r & Hr & _)|(params & cid & sec & H1 & H2 & H3 & H4 & H5 & H6 & H7
                      & H8 & H9 & _)].
  - rewrite Hr in H. contradiction.
  - exists params, cid, sec. repeat (split; [assumption|]). assumption.
Qed.

(** A token response is issued only after the code was exchanged at Google
    and the verifier accepted the resulting token; the [access_token] of the
    response is the very token that was verified, and the scope is the fixed
    one. *)
Theorem token_POST_issues_verified_token (env : Env) (request : Request)
  (t : TokenResponse) :
  fst (POST env request) = TokenJson t ->
  exists form userInfo,
    snd (POST env request) =
    [CodeExchange form; TokenVerification (access_token t)]
    /\ verifyGoogleToken request (access_token t) = Ok (Some userInfo)
    /\ token_type t = js "Bearer"
    /\ scope t =
       Some (js "openid profile email read:mcp write:mcp persons:read persons:write").
Proof.
  intros H.
  destruct (token_POST_gate env request)
    as [(r & Hr & Hn)|(params & cid & sec & _ & _ & _ & _ & _ & _ & _ & _ & _
                       & HP)].
  - rewrite Hr in H. cbn [fst] in H. exfalso. exact (Hn t H).
  - rewrite HP in *. clear HP.
    pose proof (exchange_success fetchToken env
                  (orElse (code params) []) (orElse (redirect_uri params) [])
                  (Some cid) (Some sec)) as O.
    destruct (exchangeCodeForGoogleTokens fetchToken env
                (orElse (code params) []) (orElse (redirect_uri params) [])
                (Some cid) (Some sec)) as [exchange sent].
    cbn [fst snd] in O.
    destruct (success exchange) eqn:Es; [|discriminate].
    destruct (O eq_refl) as (form & tk & Hsent & _ & _ & Htk).
    rewrite Htk in *. subst sent. cbn [map app] in *.
    set (token := if truthy (g_id_token tk) then orElse (g_id_token tk) []
                  else orElse (g_access_token tk) []) in *.
    destruct (verifyGoogleToken request token) as [[userInfo|]|e] eqn:V;
      try discriminate.
    cbn [fst snd] in *. injection H as <-.
    exists form, userInfo. cbn [access_token buildTokenResponse].
    fold token. split; [reflexivity|]. split; [exact V|].
    split; reflexivity.
Qed.

Lemma split_no_separator (sep : N) (a : jsstring) :
  ~ In sep a -> split sep a = [a].
Proof.
  induction a as [|c a IH]; intros H; [reflexivity|].
  cbn [split]. destruct (N.eqb_spec c sep) as [->|_].
  - exfalso. apply H. now left.
  - rewrite IH; [reflexivity|]. intros I. apply H. now right.
Qed.

Lemma split_at_separator (sep : N) (a b : jsstring) :
  ~ In sep a -> split sep (a ++ sep :: b) = a :: split sep b.
Proof.
  induction a as [|c a IH]; intros H.
  - cbn [app split]. now rewrite N.eqb_refl.
  - cbn [app split]. destruct (N.eqb_spec c sep) as [->|_].
    + exfalso. apply H. now left.
    + rewrite IH; [reflexivity|]. intros I. apply H. now right.
Qed.

(** Client authentication by Basic header: when the body carries no secret
    and the header is "Basic " followed by the base64 of [id:secret] with
    [id] the configured client identifier, the secret the endpoint compares
    is [secret] when it has no colon, and only its part before the first
    colon otherwise. *)
Theorem presentedSecret_basic_header (request : Request)
  (params : TokenExchangeParams) (cid secret enc : jsstring) :
  absent (client_secret params) ->
  ~ In 58%N cid ->
  btoa (cid ++ js ":" ++ secret) = Ok enc ->
  authorization request = Some (js "Basic " ++ enc) ->
  (~ In 58%N secret -> presentedSecret request params cid = Some secret)
  /\ (forall a b, secret = a ++ js ":" ++ b -> ~ In 58%N a ->
       presentedSecret request params cid = Some a).
Proof.
  intros Hbody Hcid Henc Hauth.
  apply atob_btoa in Henc.
  assert (Hp : presentedSecret request params cid =
               match split 58 secret with
               | sec :: _ => Some sec
               | [] => None
               end).
  { unfold presentedSecret. apply truthy_false in Hbody. rewrite Hbody.
    unfold basicSecret. rewrite Hauth.
    change (startsWith (js "Basic ") (js "Basic " ++ enc)) with true.
    change (slice 6 (js "Basic " ++ enc)) with enc.
    cbv iota. rewrite Henc.
    change (js ":" ++ secret) with (58%N :: secret).
    rewrite (split_at_separator 58 cid secret Hcid).
    now rewrite jseq_refl. }
  rewrite Hp. split.
  - intros H. now rewrite (split_no_separator 58 secret H).
  - intros a b -> Ha. change (js ":" ++ b) with (58%N :: b).
    now rewrite (split_at_separator 58 a b Ha).
Qed.

End TokenFacts.

Lemma token_POST_upstream_only_for_authenticated_client_witness :
  exists params cid sec,
    Token.parseBody ExampleToken.request = Ok params
    /\ OAuthUtils.isValid (OAuthUtils.validateTokenParams params) = true
    /\ UrlResolver.GOOGLE_CLIENT_ID ExampleEnv.configured = Some cid
    /\ cid <> []
    /\ UrlResolver.GOOGLE_CLIENT_SECRET ExampleEnv.configured = Some sec
    /\ sec <> []
    /\ OAuthUtils.client_id params = Some cid
    /\ Token.presentedSecret ExampleToken.request params cid = Some sec
    /\ UrlResolver.isAllowedRedirectUri ExampleEnv.configured
         (orElse (OAuthUtils.redirect_uri params) []) = true.
Proof.
  apply (token_POST_upstream_only_for_authenticated_client unit
           ExampleToken.verifier ExampleToken.fetchToken
           ExampleEnv.configured ExampleToken.request).
  vm_compute. discriminate.
Defined.

Lemma token_POST_issues_verified_token_witness :
  exists form userInfo,
    snd (Token.POST ExampleToken.verifier ExampleToken.fetchToken
           ExampleEnv.configured ExampleToken.request) =
    [Token.CodeExchange form; Token.TokenVerification (js "id.jwt")]
    /\ ExampleToken.verifier ExampleToken.request (js "id.jwt") =
       Ok (Some userInfo).
Proof.
  destruct (token_POST_issues_verified_token unit ExampleToken.verifier
              ExampleToken.fetchToken ExampleEnv.configured
              ExampleToken.request
              (OAuthUtils.buildTokenResponse ExampleToken.googleTokens
                 (Some (js "openid profile email read:mcp write:mcp persons:read persons:write"))
                 None))
    as (form & userInfo & H1 & H2 & _).
  - vm_compute. reflexivity.
  - exists form, userInfo. split; [exact H1 | exact H2].
Defined.

Lemma presentedSecret_basic_header_witness :
  Token.presentedSecret ExampleToken.basicRequest ExampleToken.basicParams
    ExampleOAuth.clientId = Some (js "s3cret")
  /\ Token.parseBody ExampleToken.basicRequest = Ok ExampleToken.basicParams.
Proof.
  split; [|vm_compute; reflexivity].
  apply (proj1 (presentedSecret_basic_header ExampleToken.basicRequest
                  ExampleToken.basicParams ExampleOAuth.clientId
                  (js "s3cret")
                  (js "Y2xpZW50LTEuYXBwcy5nb29nbGV1c2VyY29udGVudC5jb206czNjcmV0")
                  ltac:(right; reflexivity)
                  ltac:(vm_compute; intuition discriminate)
                  ltac:(vm_compute; reflexivity)
                  ltac:(reflexivity))).
  vm_compute. intuition discriminate.
Defined.


(** ** The MCP endpoint as a whole *)

Section McpEndpointFacts.

Import Base64 Json McpActions McpRoute.
Local Open Scope Z_scope.

Variable Store : Type.
Variable User : Type.
Variable userName : User -> jsstring.
Variable searchUsers : jsstring -> Store -> result (list User) * Store.
Variable addUser : AddUserData -> Store -> result User * Store.
Variable updateUser : jsstring -> UpdateData -> Store -> result User * Store.
Variable deleteUser : jsstring -> Store -> result unit * Store.
Variable getUserById : jsstring -> Store -> result (option User) * Store.
Variable isEmail : jsstring -> bool.
Variable numLitTruthy : jsstring -> bool.
Variable looseLess : json -> Z -> bool.
Variable verifyGoogleToken :
  Request -> jsstring -> result (option (option UserContext)).

Local Abbreviation handleMCPTool :=
  (handleMCPTool userName searchUsers addUser updateUser deleteUser
     getUserById isEmail).
Local Abbreviation authenticateSession :=
  (authenticateSession User numLitTruthy looseLess).
Local Abbreviation authenticateMCPRequest :=
  (authenticateMCPRequest User numLitTruthy looseLess verifyGoogleToken).
Local Abbreviation toolsCall :=
  (toolsCall userName searchUsers addUser updateUser deleteUser getUserById
     isEmail numLitTruthy).
Local Abbreviation POST :=
  (POST userName searchUsers addUser updateUser deleteUser getUserById
     isEmail numLitTruthy looseLess verifyGoogleToken).

Lemma handleMCPTool_returns (toolName : jsstring) (args : json)
  (user : option UserContext) (st : Store) :
  exists out st', handleMCPTool toolName args user st = (Ok out, st').
Proof.
  unfold McpActions.handleMCPTool, tryCatchM.
  destruct (McpActions.toolSwitch _ _ _ _ _ _ _ toolName args user st)
    as [[out|e] st'].
  - now exists out, st'.
  - destruct (onError_fails Store User e st') as (out & H & _).
    now exists out, st'.
Qed.

(** The responses of the [tools/call] case: an error that leaves the store
    alone, or the output of the handler. *)
Lemma toolsCall_cases (body_ : MCPRequest) (u : option UserContext)
  (st : Store) :
  (exists code msg,
     toolsCall body_ u st = (Ok (RpcError User (id body_) code msg None 200 false), st)
     /\ (code = -32602 \/ code = -32601))
  \/ (exists p toolName args out st',
        params body_ = Some p /\ name p = Some (JStr toolName)
        /\ In toolName validTools
        /\ handleMCPTool toolName args u st = (Ok out, st')
        /\ toolsCall body_ u st =
           (Ok (RpcResult (id body_) (ToolCall out)), st')).
Proof.
  unfold McpRoute.toolsCall.
  destruct (params body_) as [p|];
    [|left; repeat eexists; left; reflexivity].
  destruct (name p) as [[| | | |toolName| |]|] eqn:En;
    try (left; repeat eexists; left; reflexivity).
  destruct (nonEmpty toolName); cbn [negb];
    [|left; repeat eexists; left; reflexivity].
  destruct (UrlResolver.arrayIncludes validTools toolName) eqn:Ei; cbn [negb];
    [|left; repeat eexists; right; reflexivity].
  apply arrayIncludes_In in Ei.
  right.
  match goal with
  | |- context [McpActions.handleMCPTool _ _ _ _ _ _ _ toolName ?a u] =>
      destruct (handleMCPTool_returns toolName a u st) as (out & st' & H);
      exists p, toolName, a, out, st'
  end.
  repeat (split; [first [reflexivity | assumption]|]).
  unfold tryCatchM, bindM. rewrite H. reflexivity.
Qed.

(** Every rejection of the authenticator is an error under HTTP 401 or
    500. *)
Lemma authenticateSession_rejections (request : Request) (now : Z)
  (e : jsstring) (resp : Response User) :
  authenticateSession request now = Rejected e resp ->
  exists msg status challenge,
    resp = RpcError User None (-32603) msg None status challenge
    /\ (status = 401 \/ status = 500).
Proof.
  unfold McpRoute.authenticateSession.
  destruct (sessionCookie request) as [value|].
  2:{ intros H. injection H as _ <-. repeat eexists. left; reflexivity. }
  match goal with
  | |- match tryCatch ?m ?h with _ => _ end = _ -> _ =>
      destruct m as [[u|e' r']|x] eqn:Em; cbn [tryCatch]
  end.
  - discriminate.
  - intros H. injection H as _ <-.
    destruct (atob value) as [decoded|]; cbn [bind] in Em; [|discriminate].
    destruct (parse decoded) as [sessionData|]; cbn [bind] in Em;
      [|discriminate].
    destruct (getProp sessionData Kexp) as [ex|]; cbn [bind] in Em;
      [|discriminate].
    destruct (Session.jsTruthy numLitTruthy ex && Session.jsLess looseLess ex now).
    + injection Em as _ <-. repeat eexists. left; reflexivity.
    + destruct (getProp sessionData Ksub); cbn [bind] in Em; [|discriminate].
      destruct (getProp sessionData Kemail); cbn [bind] in Em;
        [|discriminate].
      destruct (getProp sessionData Kname); cbn [bind] in Em; discriminate.
  - intros H. injection H as _ <-. repeat eexists. left; reflexivity.
Qed.

Lemma authenticateMCPRequest_rejections (request : Request) (now : Z)
  (e : jsstring) (resp : Response User) :
  authenticateMCPRequest request now = Rejected e resp ->
  exists msg status challenge,
    resp = RpcError User None (-32603) msg None status challenge
    /\ (status = 401 \/ status = 500).
Proof.
  unfold McpRoute.authenticateMCPRequest.
  destruct (authorization request) as [authHeader|];
    [|apply authenticateSession_rejections].
  destruct (nonEmpty authHeader); [|apply authenticateSession_rejections].
  match goal with
  | |- (if negb (nonEmpty ?t) then _ else _) = _ -> _ =>
      destruct (nonEmpty t); cbn [negb]
  end.
  - destruct (verifyGoogleToken request _) as [[u|]|x];
      try apply authenticateSession_rejections.
    discriminate.
  - intros H. injection H as _ <-. repeat eexists. left; reflexivity.
Qed.

(** The MCP endpoint answers every request: [POST] returns a response and
    never throws; and since the tool handler catches its own errors, the
    response is never the one of the route's own catch block around the
    handler, "Tool execution failed", the only error with code -32603 sent
    under HTTP 200. *)
Theorem mcp_POST_always_answers (request : Request) (now : Z) (st : Store) :
  exists resp st',
    POST request now st = (Ok resp, st')
    /\ forall id_ msg data challenge,
         resp <> RpcError User id_ (-32603) msg data 200 challenge.
Proof.
  assert (Hswitch : forall body_ u,
    exists resp st',
      (if jseq (method body_) (js "initialize") then
         ret (RpcResult (id body_) (Initialize User))
       else if jseq (method body_) (js "tools/list") then
         ret (RpcResult (id body_) (ToolsList User))
       else if jseq (method body_) (js "tools/call") then
         toolsCall body_ u
       else if jseq (method body_) (js "notifications/initialized") then
         ret (NoContent User)
       else
         ret (RpcError User (id body_) (-32601)
                (js "Method '" ++ method body_ ++ js "' not found") None 200
                false)) st = (Ok resp, st')
      /\ forall id_ msg data challenge,
           resp <> RpcError User id_ (-32603) msg data 200 challenge).
  { intros body_ u.
    destruct (jseq (method body_) (js "initialize"));
      [repeat eexists; discriminate|].
    destruct (jseq (method body_) (js "tools/list"));
      [repeat eexists; discriminate|].
    destruct (jseq (method body_) (js "tools/call")).
    - destruct (toolsCall_cases body_ u st)
        as [(code & msg & H & Hc)|(p & t & a & out & st' & _ & _ & _ & _ & H)];
        rewrite H; repeat eexists; [|discriminate].
      intros ? ? ? ? E. injection E as _ E _ _. lia.
    - destruct (jseq (method body_) (js "notifications/initialized"));
        repeat eexists; discriminate. }
  unfold McpRoute.POST.
  destruct (body request) as [body_|e];
    [|repeat eexists; discriminate].
  destruct (requiresAuthentication (method body_)); [|apply Hswitch].
  destruct (authenticateMCPRequest request now) as [u|err resp] eqn:Ea.
  - apply Hswitch.
  - apply authenticateMCPRequest_rejections in Ea
      as (msg & status & ch & -> & Hs).
    repeat eexists. intros ? ? ? ? E. injection E as _ _ E. lia.
Qed.

(** The data store can only change through [tools/call]: when the store
    after a POST differs from the store before, the request was
    authenticated, its method was "tools/call" and it named one of the five
    tools. *)
Theorem mcp_POST_store_changes_only_by_tool_call (request : Request)
  (now : Z) (st : Store) :
  snd (POST request now st) <> st ->
  exists body_ u p toolName,
    body request = Ok body_
    /\ method body_ = js "tools/call"
    /\ authenticateMCPRequest request now = Authenticated User u
    /\ params body_ = Some p
    /\ name p = Some (JStr toolName)
    /\ In toolName validTools.
Proof.
  unfold McpRoute.POST.
  destruct (body request) as [body_|e]; [|intros H; exfalso; apply H; reflexivity].
  destruct (requiresAuthentication (method body_)) eqn:Er.
  2:{ destruct (jseq (method body_) (js "initialize")) eqn:E1;
        [intros H; exfalso; apply H; reflexivity|].
      destruct (jseq (method body_) (js "tools/list")) eqn:E2;
        [intros H; exfalso; apply H; reflexivity|].
      apply jseq_neq in E1, E2.
      unfold requiresAuthentication, UrlResolver.arrayIncludes in Er.
      cbn [existsb] in Er.
      assert (F1 : jseq (js "initialize") (method body_) = false)
        by (apply jseq_neq; congruence).
      assert (F2 : jseq (js "tools/list") (method body_) = false)
        by (apply jseq_neq; congruence).
      rewrite F1, F2 in Er. discriminate. }
  destruct (authenticateMCPRequest request now) as [u|err resp] eqn:Ea;
    [|intros H; exfalso; apply H; reflexivity].
  destruct (jseq (method body_) (js "initialize"));
    [intros H; exfalso; apply H; reflexivity|].
  destruct (jseq (method body_) (js "tools/list"));
    [intros H; exfalso; apply H; reflexivity|].
  destruct (jseq (method body_) (js "tools/call")) eqn:Ec.
  - apply jseq_eq in Ec. intros H.
    match type of H with
    | snd (McpRoute.toolsCall _ _ _ _ _ _ _ _ _ ?uc _) <> _ =>
        destruct (toolsCall_cases body_ uc st)
          as [(code & msg & Ht & _)
             |(p & t & a & out & st' & Hp & Hn & Hin & _ & Ht)]
    end.
    + rewrite Ht in H. exfalso; apply H; reflexivity.
    + exists body_, u, p, t. repeat (split; [first [reflexivity|assumption]|]).
      assumption.
  - destruct (jseq (method body_) (js "notifications/initialized"));
      intros H; exfalso; apply H; reflexivity.
Qed.

(** The two public methods are served without looking at the credentials:
    whatever the Authorization header and the cookie are, "initialize" and
    "tools/list" get their result, and the store is not touched. *)
Lemma mcp_POST_public_methods (header cookie : option jsstring)
  (id_ : option json) (p : option MCPParams) (now : Z) (st : Store) :
  POST (mkRequest header cookie (Ok (mkMCPRequest id_ (js "initialize") p)))
    now st = (Ok (RpcResult id_ (Initialize User)), st)
  /\ POST (mkRequest header cookie (Ok (mkMCPRequest id_ (js "tools/list") p)))
       now st = (Ok (RpcResult id_ (ToolsList User)), st).
Proof. split; reflexivity. Qed.

(** The session-status endpoint and the MCP authenticator read a cookie the
    same way: the endpoint answers [authenticated: true] exactly when the
    authenticator accepts the cookie, then with the same [sub], [email] and
    [name]; it answers "Session expired" exactly when the authenticator
    rejects the cookie as expired, and "Invalid session format" exactly when
    the authenticator rejects it as invalid. *)
Theorem session_endpoint_agrees_with_mcp_authenticator
  (header : option jsstring) (cookie : jsstring)
  (body_ : result MCPRequest) (now : Z) :
  let verdict :=
    authenticateSession (mkRequest header (Some cookie) body_) now in
  exists r,
    Session.GET numLitTruthy looseLess (Some cookie) now = Ok r
    /\ match verdict with
       | Authenticated _ (Some u) =>
           Session.authenticated r = true
           /\ Session.message r = js "Session valid"
           /\ exists ex,
                Session.user r =
                Some (Session.mkSessionUser (serialised (clientId u))
                        (match extra u with
                         | Some x => serialised (x_email x)
                         | None => None
                         end)
                        (match extra u with
                         | Some x => serialised (x_name x)
                         | None => None
                         end)
                        ex)
       | Authenticated _ None => False
       | Rejected e _ =>
           Session.authenticated r = false /\ Session.user r = None
           /\ ((e = js "Session expired"
                /\ Session.message r = js "Session expired")
               \/ (e = js "Invalid session cookie"
                   /\ Session.message r = js "Invalid session format"))
       end.
Proof.
  unfold McpRoute.authenticateSession, Session.GET. cbn [sessionCookie].
  destruct (atob cookie) as [decoded|]; cbn [bind tryCatch];
    [|eexists; split; [reflexivity|]; cbn; auto].
  destruct (parse decoded) as [sessionData|]; cbn [bind tryCatch];
    [|eexists; split; [reflexivity|]; cbn; auto].
  destruct (getProp sessionData Kexp) as [ex|] eqn:Ex; cbn [bind tryCatch];
    [|eexists; split; [reflexivity|]; cbn; auto].
  destruct (Session.jsTruthy numLitTruthy ex && Session.jsLess looseLess ex now);
    [eexists; split; [reflexivity|]; cbn; auto|].
  assert (Hn : sessionData <> JNull)
    by (intros ->; discriminate).
  assert (Hp : forall k, exists v, getProp sessionData k = Ok v).
  { intros k. destruct sessionData; try (eexists; reflexivity);
      [contradiction| |].
    - destruct k; eexists; reflexivity.
    - cbn [getProp]. destruct (lookupLast (keyName k) members);
        eexists; reflexivity. }
  destruct (Hp Ksub) as (vs & ->), (Hp Kemail) as (ve & ->),
    (Hp Kname) as (vn & ->).
  cbn [bind tryCatch]. eexists; split; [reflexivity|].
  cbn. repeat split. eexists. reflexivity.
Qed.








End McpEndpointFacts.

Lemma mcp_POST_store_changes_only_by_tool_call_witness :
  exists body_ u p toolName,
    McpRoute.body (ExampleMcp.withCredentials None (Some ExampleMcp.adaCookie))
    = Ok body_
    /\ McpRoute.method body_ = js "tools/call"
    /\ ExampleMcp.authenticateMCPRequest
         (ExampleMcp.withCredentials None (Some ExampleMcp.adaCookie))
         1700000100 = McpRoute.Authenticated ExampleStore.User u
    /\ McpRoute.params body_ = Some p
    /\ McpRoute.name p = Some (Json.JStr toolName)
    /\ In toolName McpRoute.validTools.
Proof.
  apply (mcp_POST_store_changes_only_by_tool_call ExampleStore.Store
           ExampleStore.User ExampleStore.userName ExampleStore.searchUsers
           ExampleStore.addUser ExampleStore.updateUser
           ExampleStore.deleteUser ExampleStore.getUserById
           ExampleStore.isEmail ExampleMcp.numLitTruthy ExampleMcp.looseLess
           ExampleMcp.verifier
           (ExampleMcp.withCredentials None (Some ExampleMcp.adaCookie))
           1700000100 [js "Ada"]).
  vm_compute. discriminate.
Defined.



(** ** The route guard *)

Section MiddlewareFacts.

Import Base64 Json Middleware.
Local Open Scope Z_scope.

Variable numLitTruthy : jsstring -> bool.
Variable looseLess : json -> Z -> bool.

Local Abbreviation middleware := (middleware numLitTruthy looseLess).

Lemma isProtectedRoute_spec (p : jsstring) :
  isProtectedRoute p = true <->
  p = js "/" \/ startsWith (js "/about") p = true
  \/ startsWith (js "/mcp") p = true.
Proof.
  unfold isProtectedRoute, protectedRoutes. cbn [existsb].
  change (jseq (js "/") (js "/")) with true.
  change (jseq (js "/about") (js "/")) with false.
  change (jseq (js "/mcp") (js "/")) with false.
  cbv iota. rewrite !orb_true_iff, jseq_eq. intuition discriminate.
Qed.

Lemma isPublicRoute_prefix (route rest : jsstring) :
  In route publicRoutes -> isPublicRoute (route ++ rest) = true.
Proof.
  intros H. unfold isPublicRoute. apply existsb_exists.
  exists route. split; [exact H|].
  apply startsWith_app. clear H. induction route as [|c r IH]; simpl;
    [reflexivity|]. now rewrite N.eqb_refl.
Qed.

(** The session check of the middleware, as a case analysis: what the
    middleware answers on a protected path with a cookie. *)
Lemma middleware_session (p cookie : jsstring) (now : Z) :
  isPublicRoute p = false -> isProtectedRoute p = true ->
  middleware p (Some cookie) now = Ok Next
  \/ middleware p (Some cookie) now =
     Ok (RedirectToLogin [(js "returnUrl", p); (js "expired", js "true")]
           [js "oauth_session"])
  \/ middleware p (Some cookie) now =
     Ok (RedirectToLogin [(js "returnUrl", p)] [js "oauth_session"]).
Proof.
  intros H1 H2. unfold Middleware.middleware. rewrite H1, H2.
  destruct (atob cookie) as [decoded|]; cbn [bind tryCatch]; [|auto].
  destruct (parse decoded) as [sessionData|]; cbn [bind tryCatch]; [|auto].
  destruct (getProp sessionData Kexp) as [ex|]; cbn [bind tryCatch]; [|auto].
  destruct (Session.jsTruthy numLitTruthy ex
            && Session.jsLess looseLess ex now);
    destruct (getProp sessionData Kemail) as [em|]; cbn [bind tryCatch];
    auto;
    destruct (template em); cbn [bind tryCatch]; auto.
Qed.

(** The middleware never throws, lets every path under a public route
    through whatever the cookie is, and redirects to the login page only from
    "/", from a path that starts with "/about" or from one that starts with
    "/mcp": every other path is let through without a session, the people
    API under "/api/people" among them.  A redirect carries the path as
    [returnUrl], and discards the session cookie unless the request had
    none. *)
Theorem middleware_guards_only_protected_routes (p : jsstring)
  (cookie : option jsstring) (now : Z) :
  (exists r, middleware p cookie now = Ok r)
  /\ (forall route rest,
        In route publicRoutes ->
        middleware (route ++ rest) cookie now = Ok Next)
  /\ (forall rest, middleware (js "/api/people" ++ rest) cookie now = Ok Next)
  /\ (forall params deleted,
        middleware p cookie now = Ok (RedirectToLogin params deleted) ->
        (p = js "/" \/ startsWith (js "/about") p = true
         \/ startsWith (js "/mcp") p = true)
        /\ Authorize.getParam (js "returnUrl") params = Some p
        /\ (deleted = [js "oauth_session"]
            \/ (deleted = [] /\ cookie = None))).
Proof.
  split; [|split; [|split]].
  - unfold Middleware.middleware.
    destruct (isPublicRoute p) eqn:E1; [eexists; reflexivity|].
    destruct (isProtectedRoute p) eqn:E2; [|eexists; reflexivity].
    destruct cookie as [c|]; [|eexists; reflexivity].
    destruct (middleware_session p c now E1 E2) as [H|[H|H]];
      unfold Middleware.middleware in H; rewrite E1, E2 in H; rewrite H;
      eexists; reflexivity.
  - intros route rest H. unfold Middleware.middleware.
    now rewrite (isPublicRoute_prefix route rest H).
  - intros rest. reflexivity.
  - intros params deleted H.
    destruct (isPublicRoute p) eqn:E1;
      [unfold Middleware.middleware in H; rewrite E1 in H; discriminate|].
    destruct (isProtectedRoute p) eqn:E2;
      [|unfold Middleware.middleware in H; rewrite E1, E2 in H; discriminate].
    split; [now apply isProtectedRoute_spec|].
    destruct cookie as [c|].
    + destruct (middleware_session p c now E1 E2) as [H'|[H'|H']];
        rewrite H' in H; try discriminate;
        injection H as <- <-; split;
        first [ left; reflexivity
              | unfold Authorize.getParam; now rewrite jseq_refl ].
    + unfold Middleware.middleware in H. rewrite E1, E2 in H.
      injection H as <- <-. split; [|right; split; reflexivity].
      unfold Authorize.getParam. now rewrite jseq_refl.
Qed.

(** On a protected path the middleware lets a request through exactly when
    the session-status endpoint would answer [authenticated: true] for its
    cookie and the [email] of the session can be printed (the middleware
    logs it in a template literal, which throws on an object that has a
    [toString] member). *)
Theorem middleware_agrees_with_session_endpoint (p cookie : jsstring)
  (now : Z) :
  isPublicRoute p = false -> isProtectedRoute p = true ->
  (middleware p (Some cookie) now = Ok Next <->
   exists r u,
     Session.GET numLitTruthy looseLess (Some cookie) now = Ok r
     /\ Session.authenticated r = true
     /\ Session.user r = Some u
     /\ match Session.u_email u with
        | Some v => printable v = true
        | None => True
        end).
Proof.
  intros H1 H2. unfold Middleware.middleware, Session.GET. rewrite H1, H2.
  destruct (atob cookie) as [decoded|]; cbn [bind tryCatch];
    [|split; [discriminate|intros (r & u & H & A & _); injection H as <-;
                           discriminate]].
  destruct (parse decoded) as [sessionData|]; cbn [bind tryCatch];
    [|split; [discriminate|intros (r & u & H & A & _); injection H as <-;
                           discriminate]].
  destruct (getProp sessionData Kexp) as [ex|] eqn:Ex; cbn [bind tryCatch];
    [|split; [discriminate|intros (r & u & H & A & _); injection H as <-;
                           discriminate]].
  assert (Hn : sessionData <> JNull) by (intros ->; discriminate).
  assert (Hp : forall k, exists v, getProp sessionData k = Ok v).
  { intros k. destruct sessionData; try (eexists; reflexivity);
      [contradiction| |].
    - destruct k; eexists; reflexivity.
    - cbn [getProp]. destruct (lookupLast (keyName k) members);
        eexists; reflexivity. }
  destruct (Hp Ksub) as (vs & Es), (Hp Kemail) as (ve & Ee),
    (Hp Kname) as (vn & En).
  rewrite Es, Ee, En. cbn [bind tryCatch].
  destruct (Session.jsTruthy numLitTruthy ex
            && Session.jsLess looseLess ex now); cbn [bind tryCatch].
  - split.
    + destruct (template ve); cbn [bind tryCatch]; discriminate.
    + intros (r & u & H & A & _). injection H as <-. discriminate.
  - unfold template. destruct ve as [|v|]; cbn [serialised bind tryCatch].
    + split; [intros _|reflexivity].
      eexists _, _. repeat split.
    + destruct (printable v) eqn:Pv; cbn [bind tryCatch].
      * split; [intros _|reflexivity].
        eexists _, _. split; [reflexivity|]. split; [reflexivity|].
        split; [reflexivity|]. exact Pv.
      * split; [discriminate|].
        intros (r & u & H & A & U & P). injection H as <-.
        cbn [Session.user] in U. injection U as <-.
        cbn [Session.u_email] in P. congruence.
    + split; [intros _|reflexivity].
      eexists _, _. repeat split.
Qed.

(** The cookie the callback issues at time [t0] for claims that are strings
    opens the protected paths up to and including [t0 + 86400]; later the
    middleware redirects to the login page with [returnUrl] and [expired]
    and discards the cookie. *)
Theorem middleware_session_round_trip (p sub : jsstring)
  (email name : option jsstring) (t0 t : Z) (cookie : jsstring) :
  isPublicRoute p = false -> isProtectedRoute p = true ->
  0 <= t0 -> t0 + Session.SESSION_LIFETIME <= MAX_SAFE_INTEGER ->
  Session.sessionToken (claim sub) (optionalClaim email) (optionalClaim name)
    t0 = Ok cookie ->
  (t <= t0 + Session.SESSION_LIFETIME ->
   middleware p (Some cookie) t = Ok Next)
  /\ (t0 + Session.SESSION_LIFETIME < t ->
      middleware p (Some cookie) t =
      Ok (RedirectToLogin [(js "returnUrl", p); (js "expired", js "true")]
            [js "oauth_session"])).
Proof.
  intros H1 H2 H0 Hmax Hissue.
  unfold Session.sessionToken in Hissue. apply atob_btoa in Hissue.
  destruct (sessionObject_flat sub email name t0 H0 Hmax) as (l & Hl & Hflat).
  pose proof (parse_stringify_flat l Hflat) as Hparse. rewrite <- Hl in Hparse.
  destruct (sessionObject_props sub email name t0) as (Pexp & _ & Pem & _).
  assert (Htruthy : Session.jsTruthy numLitTruthy
                      (JVal (JNum (t0 + Session.SESSION_LIFETIME))) = true).
  { cbn [Session.jsTruthy]. apply negb_true_iff, Z.eqb_neq.
    unfold Session.SESSION_LIFETIME. lia. }
  unfold Middleware.middleware. rewrite H1, H2, Hissue. cbn [bind tryCatch].
  rewrite Hparse. cbn [bind]. rewrite Pexp. cbn [bind]. rewrite Htruthy.
  cbn [Session.jsLess andb]. rewrite Pem.
  assert (Ht : template (optionalClaim email) = Ok tt)
    by (destruct email; reflexivity).
  split; intros Hlt.
  - apply Z.ltb_ge in Hlt. rewrite Hlt. cbn [bind]. rewrite Ht. reflexivity.
  - apply Z.ltb_lt in Hlt. rewrite Hlt. cbn [bind]. rewrite Ht. reflexivity.
Qed.

End MiddlewareFacts.

Lemma middleware_agrees_with_session_endpoint_witness :
  Middleware.middleware ExampleMcp.numLitTruthy ExampleMcp.looseLess
    (js "/") (Some ExampleMcp.adaCookie) 1700000100 = Ok Middleware.Next <->
  exists r u,
    Session.GET ExampleMcp.numLitTruthy ExampleMcp.looseLess
      (Some ExampleMcp.adaCookie) 1700000100 = Ok r
    /\ Session.authenticated r = true
    /\ Session.user r = Some u
    /\ match Session.u_email u with
       | Some v => Middleware.printable v = true
       | None => True
       end.
Proof.
  apply (middleware_agrees_with_session_endpoint ExampleMcp.numLitTruthy
           ExampleMcp.looseLess (js "/") ExampleMcp.adaCookie 1700000100);
    reflexivity.
Defined.

Lemma middleware_session_round_trip_witness :
  Middleware.middleware ExampleMcp.numLitTruthy ExampleMcp.looseLess
    (js "/about") (Some ExampleMcp.adaCookie) 1700086400 = Ok Middleware.Next
  /\ Middleware.middleware ExampleMcp.numLitTruthy ExampleMcp.looseLess
       (js "/about") (Some ExampleMcp.adaCookie) 1700086401 =
     Ok (Middleware.RedirectToLogin
           [(js "returnUrl", js "/about"); (js "expired", js "true")]
           [js "oauth_session"]).
Proof.
  split.
  - apply (proj1 (middleware_session_round_trip ExampleMcp.numLitTruthy
             ExampleMcp.looseLess (js "/about") (js "108")
             (Some (js "ada@example.com")) (Some (js "Ada")) 1700000000
             1700086400 ExampleMcp.adaCookie eq_refl eq_refl ltac:(lia)
             ltac:(vm_compute; discriminate) adaCookie_issued)).
    vm_compute; discriminate.
  - apply (proj2 (middleware_session_round_trip ExampleMcp.numLitTruthy
             ExampleMcp.looseLess (js "/about") (js "108")
             (Some (js "ada@example.com")) (Some (js "Ada")) 1700000000
             1700086401 ExampleMcp.adaCookie eq_refl eq_refl ltac:(lia)
             ltac:(vm_compute; discriminate) adaCookie_issued)).
    vm_compute; reflexivity.
Defined.

(** ** The people endpoint: pagination *)

Section PeopleFacts.

Import Json People.
Local Open Scope Z_scope.

Variable Store : Type.
Variable User : Type.
Variable searchUsers : jsstring -> Store -> result (list User) * Store.
Variable inexactSlice : number -> number -> list User -> list User.

Local Abbreviation GET := (People.GET searchUsers inexactSlice).
Local Abbreviation pageOf := (People.pageOf inexactSlice).

Lemma spanDigits_digits (u : Decimal.uint) :
  spanDigits (digitsOfUint u) = (digitsOfUint u, []).
Proof. induction u; simpl; rewrite ?IHu; reflexivity. Qed.

(** [parseInt] reads back the decimal text of a natural number. *)
Lemma parseInt10_printNat (n : N) :
  Z.of_N n <= MAX_SAFE_INTEGER -> parseInt10 (printNat n) = Int (Z.of_N n).
Proof.
  intros Hmax.
  destruct (printNat_shape n) as (d & ds & Hp & Hd & _).
  unfold parseInt10. rewrite Hp.
  unfold isDigit in Hd. apply andb_true_iff in Hd as [Hd1 Hd2].
  apply N.leb_le in Hd1, Hd2.
  assert (Hw : isStrWhiteSpace d = false).
  { unfold isStrWhiteSpace.
    repeat match goal with
    | |- context [(d =? ?k)%N] => destruct (N.eqb_spec d k); [lia|]
    end.
    destruct (N.leb_spec 8192 d); [lia|].
    destruct (N.leb_spec d 13); [lia|].
    now rewrite andb_false_r. }
  cbn [trimStart]. rewrite Hw.
  destruct (N.eqb_spec d 45); [lia|]. destruct (N.eqb_spec d 43); [lia|].
  rewrite <- Hp. unfold printNat. rewrite spanDigits_digits.
  fold (printNat n). rewrite Hp. rewrite <- Hp. unfold printNat.
  rewrite uintOfDigits_digitsOfUint, DecimalN.Unsigned.of_to.
  apply Z.leb_le in Hmax. now rewrite Hmax.
Qed.

Lemma arraySlice_window (A : Type) (l : list A) (a b : nat) :
  (a <= b)%nat ->
  arraySlice l (Z.of_nat a) (Z.of_nat b) = firstn (b - a) (skipn a l).
Proof.
  intros Hab. unfold arraySlice, relativeIndex.
  destruct (Z.ltb_spec (Z.of_nat a) 0); [lia|].
  destruct (Z.ltb_spec (Z.of_nat b) 0); [lia|].
  destruct (Nat.le_gt_cases (List.length l) a) as [Hl|Hl].
  - replace (Z.min (Z.of_nat a) (Z.of_nat (List.length l)))
      with (Z.of_nat (List.length l)) by lia.
    rewrite Nat2Z.id.
    rewrite !skipn_all2 by lia. now rewrite !firstn_nil.
  - replace (Z.min (Z.of_nat a) (Z.of_nat (List.length l)))
      with (Z.of_nat a) by lia.
    rewrite Nat2Z.id.
    destruct (Nat.le_gt_cases b (List.length l)) as [Hb|Hb].
    + replace (Z.min (Z.of_nat b) (Z.of_nat (List.length l)))
        with (Z.of_nat b) by lia.
      f_equal. lia.
    + replace (Z.min (Z.of_nat b) (Z.of_nat (List.length l)))
        with (Z.of_nat (List.length l)) by lia.
      rewrite !firstn_all2; [reflexivity| |]; rewrite length_skipn; lia.
Qed.

Lemma parseInt10_range (x : jsstring) (z : Z) :
  parseInt10 x = Int z -> Z.abs z <= MAX_SAFE_INTEGER.
Proof.
  unfold parseInt10.
  destruct (match trimStart x with [] => _ | _ => _ end) as [neg s2].
  destruct (spanDigits s2) as [[|d ds] r]; [discriminate|].
  pose proof (N2Z.is_nonneg (N.of_uint (uintOfDigits (d :: ds)))) as Hm.
  set (m := Z.of_N (N.of_uint (uintOfDigits (d :: ds)))) in *.
  clearbody m.
  destruct (Z.leb_spec m MAX_SAFE_INTEGER) as [Hle|Hgt]; [|discriminate].
  intros E. injection E as <-. destruct neg; lia.
Qed.

Lemma firstn_plus (A : Type) (l : list A) (a b : nat) :
  firstn (a + b) l = firstn a l ++ firstn b (skipn a l).
Proof.
  revert l; induction a as [|a IH]; intros l; [reflexivity|].
  destruct l as [|x l]; [simpl; now rewrite firstn_nil|].
  cbn [Nat.add firstn skipn app]. now rewrite IH.
Qed.

Lemma pageOf_window (all : list User) (p s : nat) :
  (1 <= p)%nat -> Z.of_nat (p * s) <= MAX_SAFE_INTEGER ->
  pageOf all (Int (Z.of_nat p)) (Int (Z.of_nat s)) =
  firstn s (skipn ((p - 1) * s) all).
Proof.
  intros Hp Hmax. unfold People.pageOf, exact.
  replace ((Z.of_nat p - 1) * Z.of_nat s) with (Z.of_nat ((p - 1) * s))
    by (rewrite Nat2Z.inj_mul, Nat2Z.inj_sub by lia; reflexivity).
  replace (Z.of_nat p * Z.of_nat s) with (Z.of_nat (p * s))
    by (now rewrite Nat2Z.inj_mul).
  assert (Hle : ((p - 1) * s <= p * s)%nat)
    by (apply Nat.mul_le_mono_r; lia).
  assert (Hs : (p * s - (p - 1) * s = s)%nat).
  { replace p with (S (p - 1)) at 1 by lia. cbn [Nat.mul]. lia. }
  revert Hmax Hle Hs.
  generalize ((p - 1) * s)%nat as a. generalize (p * s)%nat as b.
  intros b a Hmax Hle Hs.
  assert (H1 : (Z.abs (Z.of_nat a) <=? MAX_SAFE_INTEGER + 1) = true)
    by (apply Z.leb_le; lia).
  assert (H2 : (Z.abs (Z.of_nat b) <=? MAX_SAFE_INTEGER + 1) = true)
    by (apply Z.leb_le; lia).
  rewrite H1, H2. cbn [andb].
  rewrite arraySlice_window by exact Hle. now rewrite Hs.
Qed.

Lemma GET_page (q : jsstring) (p s : nat) (st st' : Store)
  (all : list User) :
  (1 <= p)%nat -> (1 <= s)%nat ->
  Z.of_nat (p * s) <= MAX_SAFE_INTEGER ->
  searchUsers q st = (Ok all, st') ->
  GET (Some q) (Some (printNat (N.of_nat p)))
    (Some (printNat (N.of_nat s))) st =
  (Page (firstn s (skipn ((p - 1) * s) all)) (List.length all), st').
Proof.
  intros Hp Hs Hmax Hq. unfold People.GET. rewrite Hq.
  rewrite !parseInt10_printNat by (rewrite nat_N_Z; nia).
  rewrite !nat_N_Z. now rewrite pageOf_window.
Qed.

(** Page [p] of size [s] (both at least 1) holds the users from position
    [(p - 1) * s] on, at most [s] of them, in the order [searchUsers] gave
    them; [total] is the number of all the users found, not of the page. *)
Theorem people_GET_page (q : jsstring) (p s : nat) (st st' : Store)
  (all : list User) :
  (1 <= p)%nat -> (1 <= s)%nat ->
  Z.of_nat (p * s) <= MAX_SAFE_INTEGER ->
  searchUsers q st = (Ok all, st') ->
  GET (Some q) (Some (printNat (N.of_nat p)))
    (Some (printNat (N.of_nat s))) st =
  (Page (firstn s (skipn ((p - 1) * s) all)) (List.length all), st')
  /\ List.length (firstn s (skipn ((p - 1) * s) all)) =
     Nat.min s (List.length all - (p - 1) * s).
Proof.
  intros Hp Hs Hmax Hq. split; [now apply GET_page|].
  now rewrite length_firstn, length_skipn.
Qed.

(** Read on an unchanged store, the pages 1 to [k] of size [s] put end to
    end are the first [k * s] users: no user is left out and none comes
    twice. *)
Theorem people_GET_pages_tile (q : jsstring) (s k : nat) (st st' : Store)
  (all : list User) :
  (1 <= s)%nat ->
  Z.of_nat (k * s) <= MAX_SAFE_INTEGER ->
  searchUsers q st = (Ok all, st') ->
  List.concat
    (map (fun i =>
            pageUsers
              (fst (GET (Some q) (Some (printNat (N.of_nat i)))
                      (Some (printNat (N.of_nat s))) st)))
       (seq 1 k)) =
  firstn (k * s) all.
Proof.
  intros Hs Hmax Hq. induction k as [|k IH]; [reflexivity|].
  rewrite seq_S, map_app, concat_app. cbn [map List.concat Nat.add].
  rewrite IH by nia. rewrite List.app_nil_r.
  rewrite (GET_page q (S k) s st st' all) by (try assumption; lia).
  cbn [fst pageUsers].
  replace (S k - 1)%nat with k by lia.
  replace (S k * s)%nat with (k * s + s)%nat by lia.
  now rewrite firstn_plus.
Qed.

(** The edges of the pagination.  Without [page] and [pageSize] the first
    ten users are returned.  When one of them does not start with a number,
    or [page] is 0, the page is empty, and [total] is still reported.  A
    negative [pageSize] is not refused: with [page] 1 it returns all the
    users but the last [k].  When [searchUsers] throws the answer is the
    error under HTTP 500. *)
Theorem people_GET_edges (q pageParam sizeParam : option jsstring)
  (st : Store) :
  let query := match q with Some x => x | None => [] end in
  let page :=
    parseInt10 (match pageParam with Some x => x | None => js "1" end) in
  let pageSize :=
    parseInt10 (match sizeParam with Some x => x | None => js "10" end) in
  (forall all st',
     searchUsers query st = (Ok all, st') ->
     GET q None None st = (Page (firstn 10 all) (List.length all), st')
     /\ (page = NaN \/ pageSize = NaN ->
         GET q pageParam sizeParam st = (Page [] (List.length all), st'))
     /\ (forall s, page = Int 0 -> pageSize = Int s ->
         GET q pageParam sizeParam st = (Page [] (List.length all), st'))
     /\ (forall k, page = Int 1 -> pageSize = Int (- Z.of_nat k) ->
         (1 <= k)%nat -> Z.of_nat k <= MAX_SAFE_INTEGER ->
         GET q pageParam sizeParam st =
         (Page (firstn (List.length all - k) all) (List.length all), st')))
  /\ (forall e st',
       searchUsers query st = (Throw e, st') ->
       GET q pageParam sizeParam st = (InternalError User, st')).
Proof.
  intros query page pageSize. split.
  - intros all st' Hq. split; [|split; [|split]].
    + unfold People.GET. fold query. rewrite Hq.
      change (parseInt10 (js "1")) with (Int 1).
      change (parseInt10 (js "10")) with (Int 10).
      f_equal. f_equal.
      exact (pageOf_window all 1 10 ltac:(lia) ltac:(vm_compute; discriminate)).
    + intros H. unfold People.GET. fold query page pageSize. rewrite Hq.
      f_equal. f_equal. unfold People.pageOf.
      destruct H as [-> | ->]; [reflexivity|]. now destruct page.
    + intros s Hp Hs. unfold People.GET. fold query page pageSize.
      rewrite Hq, Hp, Hs. f_equal. f_equal. unfold People.pageOf.
      destruct (exact ((0 - 1) * s) && exact (0 * s)) eqn:E.
      * unfold arraySlice, relativeIndex.
        destruct (Z.ltb_spec (0 * s) 0); [lia|].
        replace (Z.min (0 * s) (Z.of_nat (List.length all))) with 0 by lia.
        match goal with
        | |- firstn (Z.to_nat (0 - ?k)) _ = _ =>
            assert (Hk : 0 <= k)
              by (destruct (Z.ltb_spec ((0 - 1) * s) 0); lia);
            replace (Z.to_nat (0 - k)) with 0%nat by lia
        end.
        reflexivity.
      * exfalso. apply andb_false_iff in E.
        assert (Hs' : Z.abs s <= MAX_SAFE_INTEGER)
          by (apply (parseInt10_range _ _ Hs)).
        unfold exact in E.
        destruct E as [E|E]; apply Z.leb_gt in E;
          unfold MAX_SAFE_INTEGER in *; lia.
    + intros k Hp Hs Hk1 Hk. unfold People.GET. fold query page pageSize.
      rewrite Hq, Hp, Hs. f_equal. f_equal. unfold People.pageOf, exact.
      replace ((1 - 1) * - Z.of_nat k) with 0 by lia.
      replace (1 * - Z.of_nat k) with (- Z.of_nat k) by lia.
      assert (H2 : (Z.abs (- Z.of_nat k) <=? MAX_SAFE_INTEGER + 1) = true)
        by (apply Z.leb_le; lia).
      rewrite H2. cbn [Z.abs Z.leb Z.compare andb].
      unfold arraySlice, relativeIndex. cbn [Z.ltb Z.compare].
      replace (Z.min 0 (Z.of_nat (List.length all))) with 0 by lia.
      cbn [Z.to_nat skipn]. rewrite Z.sub_0_r.
      change (0 <=? MAX_SAFE_INTEGER + 1) with true. cbn [andb].
      destruct (Z.ltb_spec (- Z.of_nat k) 0); [|lia].
      f_equal. lia.
  - intros e st' Hq. unfold People.GET. fold query. now rewrite Hq.
Qed.

End PeopleFacts.

Lemma people_GET_page_witness :
  ExamplePeople.GET (Some (js "A")) (Some (Json.printNat (N.of_nat 2)))
    (Some (Json.printNat (N.of_nat 2))) ExamplePeople.store =
  (People.Page
     (firstn 2 (skipn ((2 - 1) * 2) [js "Ada"; js "Alan"; js "Alice"]))
     (List.length [js "Ada"; js "Alan"; js "Alice"]),
   ExamplePeople.store)
  /\ List.length
       (firstn 2 (skipn ((2 - 1) * 2) [js "Ada"; js "Alan"; js "Alice"])) =
     Nat.min 2 (List.length [js "Ada"; js "Alan"; js "Alice"] - (2 - 1) * 2).
Proof.
  apply (people_GET_page ExampleStore.Store ExampleStore.User
           ExampleStore.searchUsers ExamplePeople.inexactSlice (js "A") 2 2
           ExamplePeople.store ExamplePeople.store
           [js "Ada"; js "Alan"; js "Alice"]).
  - lia.
  - lia.
  - vm_compute. discriminate.
  - reflexivity.
Defined.

Lemma people_GET_pages_tile_witness :
  List.concat
    (map (fun i =>
            pageUsers
              (fst (ExamplePeople.GET (Some (js "A"))
                      (Some (Json.printNat (N.of_nat i)))
                      (Some (Json.printNat (N.of_nat 2)))
                      ExamplePeople.store)))
       (seq 1 2)) =
  firstn (2 * 2) [js "Ada"; js "Alan"; js "Alice"].
Proof.
  apply (people_GET_pages_tile ExampleStore.Store ExampleStore.User
           ExampleStore.searchUsers ExamplePeople.inexactSlice (js "A") 2 2
           ExamplePeople.store ExamplePeople.store
           [js "Ada"; js "Alan"; js "Alice"]).
  - lia.
  - vm_compute. discriminate.
  - reflexivity.
Defined.

(** ** The Google callback and the login form *)

Section CallbackFacts.

Import UrlResolver OAuthUtils Base64 Json Callback.
Local Open Scope Z_scope.

Variable numLitTruthy : jsstring -> bool.
Variable fetchToken : TokenForm -> result FetchResponse.
Variable fetchUser : Lookup -> result LookupResponse.
Variable resolve : json -> result Logout.Url.

Local Abbreviation GET := (Callback.GET numLitTruthy fetchToken fetchUser resolve).
Local Abbreviation signIn := (Callback.signIn numLitTruthy resolve).
Local Abbreviation verifyUser := (Callback.verifyUser numLitTruthy fetchUser).
Local Abbreviation redirectPath := (Callback.redirectPath numLitTruthy).


(** What a successful [signIn] returns. *)
Lemma signIn_ok (env : Env) (userInfo : json) (state_ : option jsstring)
  (now : Z) (r : Response) :
  signIn env userInfo state_ now = Ok r ->
  exists target sub email name token,
    r = SignedIn target
          (mkCookie (js "oauth_session") token true
             (optEq (NODE_ENV env) (js "production")) (js "lax") 86400
             (js "/"))
    /\ getProp userInfo Ksub = Ok sub
    /\ getProp userInfo Kemail = Ok email
    /\ getProp userInfo Kname = Ok name
    /\ Session.sessionToken sub email name now = Ok token
    /\ ((redirectPath state_ = JStr (js "/auth/success")
         /\ exists user,
              target =
              SuccessPage ((js "user", user)
                           :: (if truthy state_
                               then [(js "state", orElse state_ [])]
                               else [])))
        \/ (redirectPath state_ <> JStr (js "/auth/success")
            /\ exists u,
                 resolve (redirectPath state_) = Ok u
                 /\ target = ReturnTo u)).
Proof.
  unfold Callback.signIn.
  remember (redirectPath state_) as path eqn:Hpath. clear Hpath.
  match goal with
  | |- bind ?m _ = _ -> _ => destruct m as [target|] eqn:Et
  end; cbn [bind]; [|discriminate].
  destruct (getProp userInfo Ksub) as [sub|]; cbn [bind]; [|discriminate].
  destruct (getProp userInfo Kemail) as [email|]; cbn [bind]; [|discriminate].
  destruct (getProp userInfo Kname) as [name|]; cbn [bind]; [|discriminate].
  destruct (Session.sessionToken sub email name now) as [token|] eqn:Ek;
    cbn [bind]; [|discriminate].
  intros H. injection H as <-.
  exists target, sub, email, name, token.
  repeat (split; [reflexivity|]). split; [exact Ek|].
  destruct path as [| | | |s| |] eqn:Ep;
    try (destruct (resolve _) as [u|] eqn:Eu; cbn [bind] in Et;
         [|discriminate Et]; injection Et as <-;
         right; split; [discriminate|exists u; split; reflexivity]).
  destruct (jseq s (js "/auth/success")) eqn:Es.
  - apply jseq_eq in Es. subst s. left. split; [reflexivity|].
    destruct (userObject userInfo) as [o|]; cbn [bind] in Et;
      [|discriminate Et].
    destruct (btoa (stringify o)) as [user|]; cbn [bind] in Et;
      [|discriminate Et].
    injection Et as <-. now exists user.
  - apply jseq_neq in Es.
    destruct (resolve _) as [u|] eqn:Eu; cbn [bind] in Et;
      [|discriminate Et].
    injection Et as <-. right. split; [congruence|].
    exists u. split; reflexivity.
Qed.

(** The steps of [GET] that lead to a sign-in. *)
Lemma GET_signedIn (env : Env) (request : Request) (now : Z)
  (target : Target) (cookie : Cookie) :
  fst (GET env request now) = SignedIn target cookie ->
  exists form tokens_ userInfo,
    absent (q_error request)
    /\ form_code form = orElse (q_code request) []
    /\ form_redirect_uri form = getRedirectUris_google env
    /\ fst (verifyUser tokens_) = Ok userInfo
    /\ snd (GET env request now) =
       CodeExchange form :: snd (verifyUser tokens_)
    /\ signIn env userInfo (q_state request) now =
       Ok (SignedIn target cookie).
Proof.
  unfold Callback.GET.
  destruct (truthy (q_error request)) eqn:Ee; [discriminate|].
  apply truthy_false in Ee.
  destruct (negb (truthy (q_code request))); [discriminate|].
  destruct (negb (truthy (GOOGLE_CLIENT_ID env))
            || negb (truthy (GOOGLE_CLIENT_SECRET env))); [discriminate|].
  pose proof (exchange_success fetchToken env (orElse (q_code request) [])
                (getRedirectUris_google env) (GOOGLE_CLIENT_ID env)
                (GOOGLE_CLIENT_SECRET env)) as Hs.
  destruct (exchangeCodeForGoogleTokens fetchToken env _ _ _ _)
    as [exchange sent].
  cbn [fst snd] in Hs.
  destruct (success exchange); [|discriminate].
  destruct (Hs eq_refl) as (form & tk & -> & Hc & Hr & Htk). rewrite Htk.
  destruct (verifyUser tk) as [[userInfo|e] looked] eqn:Ev; [|discriminate].
  destruct (signIn env userInfo (q_state request) now) as [resp|] eqn:Es;
    [|discriminate].
  cbn [fst snd map app]. intros ->.
  exists form, tk, userInfo. rewrite Ev. cbn [fst snd].
  repeat (split; [first [assumption|reflexivity]|]). exact Es.
Qed.


(** Before anything is sent to Google the callback checks its own input: an
    [error] parameter wins over a code that is also there and is passed on
    to the error page with its description; without error and without code
    the answer is [invalid_request]; and with a code but a missing client
    identifier or secret it is [server_error]. *)
Theorem callback_rejects_before_exchange (env : Env) (request : Request)
  (now : Z) :
  (~ absent (q_error request) ->
   GET env request now =
   (ErrorPage (orElse (q_error request) [])
      (orElse (q_error_description request) []), []))
  /\ (absent (q_error request) -> absent (q_code request) ->
      GET env request now =
      (ErrorPage (js "invalid_request") (js "Missing authorization code"),
       []))
  /\ (absent (q_error request) -> ~ absent (q_code request) ->
      absent (GOOGLE_CLIENT_ID env) \/ absent (GOOGLE_CLIENT_SECRET env) ->
      GET env request now =
      (ErrorPage (js "server_error") (js "OAuth not configured"), [])).
Proof.
  unfold Callback.GET. split; [|split].
  - intros H. apply truthy_true in H. now rewrite H.
  - intros He Hc. apply truthy_false in He, Hc. now rewrite He, Hc.
  - intros He Hc Hg. apply truthy_false in He. apply truthy_true in Hc.
    rewrite He, Hc. cbn [negb].
    destruct Hg as [Hg|Hg]; apply truthy_false in Hg; rewrite Hg;
      [reflexivity|]. now rewrite orb_true_r.
Qed.

(** What the callback reads in a state made by the login form. *)
Lemma redirectPath_of_login_state (t : Z) (origin : jsstring)
  (returnUrl : option jsstring) (st : jsstring) :
  0 <= t <= MAX_SAFE_INTEGER ->
  LoginForm.state t origin returnUrl = Ok st ->
  redirectPath (Some st) =
  if jseq (orElse returnUrl (js "/")) (js "/auth/login")
  then JStr (js "/auth/success")
  else JStr (orElse returnUrl (js "/")).
Proof.
  intros Ht Hst. unfold LoginForm.state in Hst.
  set (r := orElse returnUrl (js "/")) in *.
  set (l := [ (js "timestamp", JNum t);
              (js "redirect", JStr (origin ++ js "/auth/success"));
              (js "returnUrl", JStr r) ]) in *.
  assert (Hflat : Forall (fun m => flatValue (snd m)) l).
  { repeat (apply Forall_cons; [cbn [snd flatValue]; try exact I; lia|]).
    apply Forall_nil. }
  pose proof (parse_stringify_flat l Hflat) as Hparse.
  apply atob_btoa in Hst.
  assert (Hne : st <> []).
  { intros ->. vm_compute in Hst. discriminate. }
  unfold Callback.redirectPath.
  destruct st as [|c st']; [contradiction|].
  cbn [truthy nonEmpty orElse]. rewrite Hst. cbn [bind]. rewrite Hparse.
  cbn [bind]. unfold getPlain, l. cbn [lookupLast].
  change (jseq (js "timestamp") (js "returnUrl")) with false.
  change (jseq (js "redirect") (js "returnUrl")) with false.
  change (jseq (js "returnUrl") (js "returnUrl")) with true.
  cbv iota. cbn [Session.jsTruthy].
  assert (Hr : nonEmpty r = true).
  { unfold r. destruct returnUrl as [[|? ?]|]; reflexivity. }
  rewrite Hr. cbn [andb]. destruct (jseq r (js "/auth/login")); reflexivity.
Qed.

(** The return path chosen at the login form comes back through the
    state: the callback sends a signed-in user to what that path resolves
    to; when the path is the login page itself (or the success page) the
    user is sent to [/auth/success] with the [user] and [state]
    parameters. *)
Theorem callback_follows_login_return_path (t : Z) (origin : jsstring)
  (returnUrl : option jsstring) (st : jsstring) (env : Env)
  (request : Request) (now : Z) (target : Target) (cookie : Cookie) :
  0 <= t <= MAX_SAFE_INTEGER ->
  LoginForm.state t origin returnUrl = Ok st ->
  q_state request = Some st ->
  fst (GET env request now) = SignedIn target cookie ->
  let path := orElse returnUrl (js "/") in
  (path <> js "/auth/login" -> path <> js "/auth/success" ->
   exists u, resolve (JStr path) = Ok u /\ target = ReturnTo u)
  /\ (path = js "/auth/login" \/ path = js "/auth/success" ->
      exists user,
        target = SuccessPage [(js "user", user); (js "state", st)]).
Proof.
  intros Ht Hst Hq H path.
  destruct (GET_signedIn env request now target cookie H)
    as (form & tk & userInfo & _ & _ & _ & _ & _ & Hs).
  destruct (signIn_ok env userInfo (q_state request) now _ Hs)
    as (target' & sub & email & name & token & E & _ & _ & _ & _ & Hcase).
  injection E as <- _. rewrite Hq in Hcase.
  rewrite (redirectPath_of_login_state t origin returnUrl st Ht Hst) in Hcase.
  fold path in Hcase.
  assert (Hne : st <> []).
  { intros ->. unfold LoginForm.state in Hst. apply atob_btoa in Hst.
    vm_compute in Hst. discriminate. }
  assert (Hstate : (if truthy (Some st) then [(js "state", orElse (Some st) [])]
                    else []) = [(js "state", st)])
    by (destruct st; [contradiction|reflexivity]).
  rewrite Hstate in Hcase.
  split.
  - intros H1 H2. apply jseq_neq in H1. rewrite H1 in Hcase.
    destruct Hcase as [(F & _)|(_ & u & Hu & Ht')].
    + injection F as F. contradiction.
    + now exists u.
  - intros [H1|H1].
    + rewrite H1 in Hcase.
      change (jseq (js "/auth/login") (js "/auth/login")) with true in Hcase.
      cbv iota in Hcase.
      destruct Hcase as [(_ & user & Ht')|(F & _)]; [now exists user|].
      now contradiction F.
    + rewrite H1 in Hcase.
      change (jseq (js "/auth/success") (js "/auth/login")) with false
        in Hcase.
      cbv iota in Hcase.
      destruct Hcase as [(_ & user & Ht')|(F & _)]; [now exists user|].
      now contradiction F.
Qed.

End CallbackFacts.

(** The state the login form makes for the return path "/about". *)
Lemma loginState_made :
  LoginForm.state 1700000000000 (js "http://localhost:3000")
    (Some (js "/about")) = Ok ExampleCallback.loginState.
Proof. vm_compute. reflexivity. Qed.


Lemma callback_follows_login_return_path_witness :
  exists u,
    ExampleCallback.resolve (Json.JStr (js "/about")) = Ok u
    /\ Callback.ReturnTo
         (Logout.mkUrl (js "http://localhost:3000/about") []) =
       Callback.ReturnTo u.
Proof.
  apply (proj1 (callback_follows_login_return_path ExampleMcp.numLitTruthy
                  ExampleToken.fetchToken ExampleCallback.fetchUser
                  ExampleCallback.resolve 1700000000000
                  (js "http://localhost:3000") (Some (js "/about"))
                  ExampleCallback.loginState ExampleEnv.configured
                  ExampleCallback.request 1700000000
                  (Callback.ReturnTo
                     (Logout.mkUrl (js "http://localhost:3000/about") []))
                  ExampleCallback.cookie
                  ltac:(vm_compute; split; discriminate)
                  loginState_made eq_refl
                  ltac:(vm_compute; reflexivity)));
    vm_compute; discriminate.
Defined.

(** ** What the session cookie can hold *)

Section Latin1Facts.

Import Base64 Json.
Local Open Scope N_scope.







End Latin1Facts.

Section CallbackLatin1.

Import UrlResolver OAuthUtils Base64 Json Callback.

Variable numLitTruthy : jsstring -> bool.
Variable fetchToken : TokenForm -> result FetchResponse.
Variable fetchUser : Lookup -> result LookupResponse.
Variable resolve : json -> result Logout.Url.

Local Abbreviation GET := (Callback.GET numLitTruthy fetchToken fetchUser resolve).


End CallbackLatin1.


(** ** The allow-list and the discovery documents *)

Section AllowListFacts.

Import UrlResolver.

(** Whatever the environment is, the allow-list holds the server's own
    Google callback (the redirect URI it sends to Google) and the three
    fixed callbacks: the two local development ones, which are therefore
    accepted in production too, and the one of the production domain. *)
Theorem fixed_callbacks_always_allowed (env : Env) :
  isAllowedRedirectUri env (getRedirectUris_google env) = true
  /\ isAllowedRedirectUri env
       (js "http://localhost:3000/api/auth/callback/google") = true
  /\ isAllowedRedirectUri env
       (js "http://127.0.0.1:3000/api/auth/callback/google") = true
  /\ isAllowedRedirectUri env
       (js "https://person-search-pearl.vercel.app/api/auth/callback/google")
     = true.
Proof.
  repeat split; apply isAllowedRedirectUri_iff; eexists;
    (split; [|reflexivity]); unfold allowedRedirects; cbn [app In]; auto.
Qed.

End AllowListFacts.

Section WellKnownFacts.

Import UrlResolver OAuthUtils Json WellKnown.

Lemma startsWith_self (p : jsstring) : startsWith p p = true.
Proof.
  induction p as [|c p IH]; [reflexivity|].
  cbn [startsWith]. now rewrite N.eqb_refl.
Qed.

(** A prefix test on [b ++ s], for [b] at least as long as the pattern, only
    looks at [b]. *)
Lemma startsWith_long (p b s : jsstring) :
  (List.length p <= List.length b)%nat ->
  startsWith p (b ++ s) = startsWith p b.
Proof.
  revert b; induction p as [|c p IH]; intros b H; [reflexivity|].
  destruct b as [|x b]; [simpl in H; lia|].
  cbn [app startsWith]. rewrite IH by (simpl in H; lia). reflexivity.
Qed.

(** When [b] is shorter than the pattern, the rest of the pattern has to be
    found at the start of [s]. *)
Lemma startsWith_short (p b s : jsstring) :
  (List.length b <= List.length p)%nat ->
  startsWith p (b ++ s) = true ->
  startsWith (skipn (List.length b) p) s = true.
Proof.
  revert p; induction b as [|x b IH]; intros p H E; [exact E|].
  destruct p as [|c p]; [simpl in H; lia|].
  cbn [app startsWith] in E. apply andb_true_iff in E as [_ E].
  cbn [List.length skipn]. apply IH; [simpl in H; lia|exact E].
Qed.

Lemma unbordered_spec (p : jsstring) (k : nat) :
  unbordered p = true -> (1 <= k < List.length p)%nat ->
  startsWith (skipn k p) p = false.
Proof.
  intros U Hk. unfold unbordered in U. rewrite forallb_forall in U.
  apply negb_true_iff, U, in_seq. lia.
Qed.

(** Removing an unbordered pattern from [b ++ p] gives [b] back, when [b]
    does not hold the pattern. *)
Lemma replaceFirst_suffix (p b : jsstring) :
  unbordered p = true -> includes p b = false ->
  replaceFirst p [] (b ++ p) = b.
Proof.
  intros U. induction b as [|c b IH]; intros H.
  - cbn [app]. destruct p as [|x p]; [reflexivity|].
    cbn [replaceFirst]. rewrite startsWith_self, skipn_all. reflexivity.
  - cbn [includes] in H. apply orb_false_iff in H as [H1 H2].
    cbn [app replaceFirst].
    assert (E : startsWith p (c :: b ++ p) = false).
    { destruct (Nat.le_gt_cases (List.length p) (List.length (c :: b)))
        as [L|L].
      - change (c :: b ++ p) with ((c :: b) ++ p).
        now rewrite startsWith_long.
      - destruct (startsWith p (c :: b ++ p)) eqn:E; [|reflexivity].
        change (c :: b ++ p) with ((c :: b) ++ p) in E.
        apply startsWith_short in E; [|lia].
        rewrite (unbordered_spec p (List.length (c :: b)) U) in E;
          [discriminate|]. simpl in *. lia. }
    rewrite E. now rewrite IH.
Qed.

(** The discovery documents name the base URL as issuer and as resource,
    and every endpoint they advertise lies under it, provided the base URL
    itself does not contain "/api/auth/authorize" (for the issuer) or
    "/api/mcp" (for the resource): the documents compute the two by removing
    the first occurrence of the path from the endpoint. *)
Theorem wellKnown_issuer_is_base_url (env : Env) :
  includes (js "/api/auth/authorize") (getBaseUrl env) = false ->
  exists issuer,
    issuer = getBaseUrl env
    /\ memberOf (js "issuer") (snd (authorizationServer_GET env)) =
       Some (JStr issuer)
    /\ memberOf (js "authorization_endpoint")
         (snd (authorizationServer_GET env)) =
       Some (JStr (issuer ++ js "/api/auth/authorize"))
    /\ memberOf (js "token_endpoint") (snd (authorizationServer_GET env)) =
       Some (JStr (issuer ++ js "/api/auth/token"))
    /\ memberOf (js "registration_endpoint")
         (snd (authorizationServer_GET env)) =
       Some (JStr (issuer ++ js "/api/auth/register"))
    /\ memberOf (js "authorization_servers")
         (snd (protectedResource_GET env)) = Some (JArr [JStr issuer])
    /\ (includes (js "/api/mcp") (getBaseUrl env) = false ->
        memberOf (js "resource") (snd (protectedResource_GET env)) =
        Some (JStr issuer)).
Proof.
  intros H. exists (getBaseUrl env). split; [reflexivity|].
  assert (Hi : replaceFirst (js "/api/auth/authorize") []
                 (OAuthUrls.authorize env) = getBaseUrl env).
  { unfold OAuthUrls.authorize. apply replaceFirst_suffix;
      [vm_compute; reflexivity|exact H]. }
  unfold authorizationServer_GET, protectedResource_GET,
    authorizationServerMetadata, protectedResourceMetadata.
  cbn [snd]. rewrite Hi.
  unfold OAuthUrls.authorize, OAuthUrls.token, OAuthUrls.register,
    OAuthUrls.userinfo, OAuthUrls.introspect, OAuthUrls.revoke,
    OAuthUrls.mcp, OAuthUrls.people.
  split; [|split; [|split; [|split; [|split]]]].
  1-5: generalize (getBaseUrl env); intros base; vm_compute; reflexivity.
  intros Hm.
  assert (Hr : replaceFirst (js "/api/mcp") [] (getBaseUrl env ++ js "/api/mcp")
               = getBaseUrl env).
  { apply replaceFirst_suffix; [vm_compute; reflexivity|exact Hm]. }
  rewrite Hr. generalize (getBaseUrl env) as base.
  intros base; vm_compute; reflexivity.
Qed.

(** The authorization-server document tells the truth about the two
    validators: a response type is refused as unsupported exactly when it is
    not listed in [response_types_supported], a grant type exactly when it
    is not listed in [grant_types_supported], and a request that carries a
    PKCE challenge is valid exactly when, besides the checks every request
    undergoes, its method is listed in
    [code_challenge_methods_supported]. *)
Theorem wellKnown_lists_what_validators_accept (env : Env)
  (p : OAuth21AuthParams) (q : TokenExchangeParams) :
  let m := snd (authorizationServer_GET env) in
  ((exists d,
      validateAuthParams p = invalid (js "unsupported_response_type") d)
   <-> ~ (exists s, response_type p = Some s
                    /\ listsString
                         (memberOf (js "response_types_supported") m) s))
  /\ ((exists d,
         validateTokenParams q = invalid (js "unsupported_grant_type") d)
      <-> ~ (exists s, grant_type q = Some s
                       /\ listsString
                            (memberOf (js "grant_types_supported") m) s))
  /\ (~ absent (code_challenge p) ->
      (isValid (validateAuthParams p) = true <->
       response_type p = Some (js "code")
       /\ ~ absent (auth_client_id p)
       /\ ~ absent (auth_redirect_uri p)
       /\ exists s, code_challenge_method p = Some s
                    /\ listsString
                         (memberOf (js "code_challenge_methods_supported") m)
                         s)).
Proof.
  intros m.
  assert (M1 : memberOf (js "response_types_supported") m =
               Some (JArr [JStr (js "code")])).
  { unfold m, authorizationServer_GET, authorizationServerMetadata.
    cbn [snd]. generalize (OAuthUrls.authorize env), (OAuthUrls.token env),
      (OAuthUrls.register env), (OAuthUrls.userinfo env),
      (OAuthUrls.introspect env), (OAuthUrls.revoke env).
    intros. vm_compute. reflexivity. }
  assert (M2 : memberOf (js "grant_types_supported") m =
               Some (JArr [JStr (js "authorization_code")])).
  { unfold m, authorizationServer_GET, authorizationServerMetadata.
    cbn [snd]. generalize (OAuthUrls.authorize env), (OAuthUrls.token env),
      (OAuthUrls.register env), (OAuthUrls.userinfo env),
      (OAuthUrls.introspect env), (OAuthUrls.revoke env).
    intros. vm_compute. reflexivity. }
  assert (M3 : memberOf (js "code_challenge_methods_supported") m =
               Some (JArr [JStr (js "S256")])).
  { unfold m, authorizationServer_GET, authorizationServerMetadata.
    cbn [snd]. generalize (OAuthUrls.authorize env), (OAuthUrls.token env),
      (OAuthUrls.register env), (OAuthUrls.userinfo env),
      (OAuthUrls.introspect env), (OAuthUrls.revoke env).
    intros. vm_compute. reflexivity. }
  rewrite M1, M2, M3. clear M1 M2 M3. cbn [listsString In].
  split; [|split].
  - unfold validateAuthParams.
    destruct (optEq (response_type p) (js "code")) eqn:E; cbn [negb].
    + apply optEq_true in E. split.
      * intros (d & H).
        repeat match type of H with
               | (if ?c then _ else _) = _ => destruct c
               end; discriminate.
      * intros H. exfalso. apply H. exists (js "code"). auto.
    + apply optEq_false in E. split.
      * intros _ (s & Hs & [F|[]]). injection F as <-. contradiction.
      * intros _. eexists. reflexivity.
  - unfold validateTokenParams.
    destruct (optEq (grant_type q) (js "authorization_code")) eqn:E;
      cbn [negb].
    + apply optEq_true in E. split.
      * intros (d & H).
        repeat match type of H with
               | (if ?c then _ else _) = _ => destruct c
               end; discriminate.
      * intros H. exfalso. apply H. exists (js "authorization_code"). auto.
    + apply optEq_false in E. split.
      * intros _ (s & Hs & [F|[]]). injection F as <-. contradiction.
      * intros _. eexists. reflexivity.
  - intros Hc. rewrite validateAuthParams_valid.
    split.
    + intros (H1 & H2 & H3 & [H4|H4]); [contradiction|].
      repeat (split; [assumption|]). exists (js "S256"). auto.
    + intros (H1 & H2 & H3 & s & Hs & [F|[]]). injection F as <-.
      repeat (split; [assumption|]). right. exact Hs.
Qed.

End WellKnownFacts.

Lemma wellKnown_issuer_is_base_url_witness :
  exists issuer,
    issuer = UrlResolver.getBaseUrl ExampleEnv.configured
    /\ memberOf (js "issuer")
         (snd (WellKnown.authorizationServer_GET ExampleEnv.configured)) =
       Some (Json.JStr issuer)
    /\ memberOf (js "authorization_endpoint")
         (snd (WellKnown.authorizationServer_GET ExampleEnv.configured)) =
       Some (Json.JStr (issuer ++ js "/api/auth/authorize"))
    /\ memberOf (js "token_endpoint")
         (snd (WellKnown.authorizationServer_GET ExampleEnv.configured)) =
       Some (Json.JStr (issuer ++ js "/api/auth/token"))
    /\ memberOf (js "registration_endpoint")
         (snd (WellKnown.authorizationServer_GET ExampleEnv.configured)) =
       Some (Json.JStr (issuer ++ js "/api/auth/register"))
    /\ memberOf (js "authorization_servers")
         (snd (WellKnown.protectedResource_GET ExampleEnv.configured)) =
       Some (Json.JArr [Json.JStr issuer])
    /\ (includes (js "/api/mcp")
          (UrlResolver.getBaseUrl ExampleEnv.configured) = false ->
        memberOf (js "resource")
          (snd (WellKnown.protectedResource_GET ExampleEnv.configured)) =
        Some (Json.JStr issuer)).
Proof.
  apply (wellKnown_issuer_is_base_url ExampleEnv.configured).
  vm_compute. reflexivity.
Defined.
